(** * Recipe matcher backend (server/app.py): a shallow embedding

    The Flask handlers of [server/app.py] are embedded as Rocq functions:
    JSON values as an inductive type, Python exceptions as an error result,
    the SQLAlchemy session as explicit state (a durable store plus the rows
    added but not yet committed), and the completion provider as an oracle
    handed to the handler.

    Modelling choices, stated once:
    - a Python [str] is a [string] whose characters are the code points
      0..255, on which [str.lower] and [str.strip] act per character;
    - JSON numbers are integers ([JInt]); fractional numbers are not part of
      the model;
    - a JSON object is an association list read by first match;
    - the relational store is the default SQLite backend: declared string
      lengths are not enforced, integer columns hold signed 64-bit values,
      only text and integers can be bound as parameters, a new row's
      primary key is one more than the largest key in its table, and rows
      with equal timestamps are returned by [ORDER BY] in the order of the
      index they are read through;
    - the text of an exception ([str(e)]) and the password functions of the
      library are parameters of the handlers that use them. *)

From Stdlib Require Import ZArith List Bool Ascii String DecimalString Lia.
From Stdlib Require Import Permutation Sorted.
Import ListNotations.
Local Open Scope string_scope.
Local Open Scope Z_scope.

(* ================================================================== *)
(** * Part I: definitions *)
(* ================================================================== *)

(** ** Python values and exceptions *)

#[warnings="-register-all"]
Inductive json : Type :=
| JNull
| JBool (b : bool)
| JInt (z : Z)
| JStr (s : string)
| JArr (l : list json)
| JObj (kv : list (string * json)).

Inductive exn : Type :=
| AttributeError
| TypeError
| ValueError
| BadRequest
| IndexError
| ProviderError
| OverflowError
| IntegrityError
| DBAPIError.

Inductive result (A : Type) : Type :=
| Ok (a : A)
| Raise (e : exn).
Arguments Ok {A} a.
Arguments Raise {A} e.

Definition rbind {A B} (r : result A) (k : A -> result B) : result B :=
  match r with
  | Ok a => k a
  | Raise e => Raise e
  end.

Declare Scope result_scope.
Delimit Scope result_scope with res.
Notation "'let?' x := r 'in' k" := (rbind r (fun x => k))
  (at level 10, x name, r at level 100, k at level 200) : result_scope.

Fixpoint rmap {A B} (f : A -> result B) (l : list A) : result (list B) :=
  match l with
  | [] => Ok []
  | x :: l' =>
      match f x with
      | Ok y => match rmap f l' with
                | Ok ys => Ok (y :: ys)
                | Raise e => Raise e
                end
      | Raise e => Raise e
      end
  end.

(** ** Strings: [str.lower], [str.strip], slicing, [join] *)

Module Str.

Definition code (c : ascii) : N := N_of_ascii c.

(** Characters for which [str.isspace] holds, code points 0..255. *)
Definition is_space (c : ascii) : bool :=
  let n := code c in
  (((9 <=? n) && (n <=? 13)) || ((28 <=? n) && (n <=? 32))
   || (n =? 133) || (n =? 160))%N.

(** [str.lower] on one character: A-Z, and the Latin-1 capitals
    U+00C0..U+00DE except the multiplication sign U+00D7. *)
Definition lower_char (c : ascii) : ascii :=
  let n := code c in
  if (((65 <=? n) && (n <=? 90))
      || ((192 <=? n) && (n <=? 222) && negb (n =? 215)))%N
  then ascii_of_N (n + 32) else c.

Fixpoint lower (s : string) : string :=
  match s with
  | EmptyString => EmptyString
  | String c s' => String (lower_char c) (lower s')
  end.

Fixpoint lstrip (s : string) : string :=
  match s with
  | EmptyString => EmptyString
  | String c s' => if is_space c then lstrip s' else s
  end.

Fixpoint rstrip (s : string) : string :=
  match s with
  | EmptyString => EmptyString
  | String c s' =>
      match rstrip s' with
      | EmptyString => if is_space c then EmptyString else String c EmptyString
      | r => String c r
      end
  end.

Definition strip (s : string) : string := rstrip (lstrip s).

(** [s[:n]] *)
Fixpoint take (n : nat) (s : string) : string :=
  match n, s with
  | S n', String c s' => String c (take n' s')
  | _, _ => EmptyString
  end.

Definition is_empty (s : string) : bool :=
  match s with EmptyString => true | _ => false end.

(** [sep.join(l)] *)
Fixpoint join (sep : string) (l : list string) : string :=
  match l with
  | [] => EmptyString
  | [x] => x
  | x :: l' => x ++ sep ++ join sep l'
  end.

(** The one-character strings obtained by iterating over a [str]. *)
Fixpoint chars (s : string) : list string :=
  match s with
  | EmptyString => []
  | String c s' => String c EmptyString :: chars s'
  end.

End Str.

(** ** Python operators on JSON values *)

Module Py.

(** Truth value, as tested by [or], [not] and [if]. *)
Definition truthy (v : json) : bool :=
  match v with
  | JNull => false
  | JBool b => b
  | JInt z => negb (z =? 0)%Z
  | JStr s => negb (Str.is_empty s)
  | JArr l => match l with [] => false | _ => true end
  | JObj kv => match kv with [] => false | _ => true end
  end.

(** [v or d] *)
Definition or_ (v d : json) : json := if truthy v then v else d.

Fixpoint assoc (k : string) (kv : list (string * json)) : option json :=
  match kv with
  | [] => None
  | (k', v) :: kv' => if String.eqb k k' then Some v else assoc k kv'
  end.

(** [o.get(k, d)]: only a dict has [get]. *)
Definition get_default (o : json) (k : string) (d : json) : result json :=
  match o with
  | JObj kv => Ok (match assoc k kv with Some v => v | None => d end)
  | _ => Raise AttributeError
  end.

(** [o.get(k)] *)
Definition get (o : json) (k : string) : result json := get_default o k JNull.

(** [v[:n]]: strings and lists can be sliced, nothing else. *)
Definition slice_to (n : nat) (v : json) : result json :=
  match v with
  | JStr s => Ok (JStr (Str.take n s))
  | JArr l => Ok (JArr (firstn n l))
  | _ => Raise TypeError
  end.

(** [for x in v]: list elements, the characters of a string, the keys of
    a dict. *)
Definition iter (v : json) : result (list json) :=
  match v with
  | JArr l => Ok l
  | JStr s => Ok (map JStr (Str.chars s))
  | JObj kv => Ok (map (fun p => JStr (fst p)) kv)
  | _ => Raise TypeError
  end.

(** [len(v)] where it is defined. *)
Definition len (v : json) : option nat :=
  match v with
  | JStr s => Some (String.length s)
  | JArr l => Some (List.length l)
  | JObj kv => Some (List.length kv)
  | _ => None
  end.

Definition digit_val (c : ascii) : option Z :=
  let n := Str.code c in
  if ((48 <=? n) && (n <=? 57))%N then Some (Z.of_N (n - 48)) else None.

(** Decimal digits, single underscores allowed between two digits. *)
Fixpoint parse_digits (acc : Z) (after_digit : bool) (s : string) : option Z :=
  match s with
  | EmptyString => if after_digit then Some acc else None
  | String c s' =>
      match digit_val c with
      | Some d => parse_digits (10 * acc + d) true s'
      | None =>
          if Ascii.eqb c "_"%char && after_digit
          then parse_digits acc false s' else None
      end
  end.

(** The characters [int] skips around a number: the ASCII white space
    (tab to carriage return, and the space), U+0085 and U+00A0.  The
    separators U+001C..U+001F, which [str.strip] removes, are not skipped:
    [int] raises on them. *)
Definition is_int_space (c : ascii) : bool :=
  let n := Str.code c in
  (((9 <=? n) && (n <=? 13)) || (n =? 32) || (n =? 133) || (n =? 160))%N.

Fixpoint int_lstrip (s : string) : string :=
  match s with
  | EmptyString => EmptyString
  | String c s' => if is_int_space c then int_lstrip s' else s
  end.

Fixpoint int_rstrip (s : string) : string :=
  match s with
  | EmptyString => EmptyString
  | String c s' =>
      match int_rstrip s' with
      | EmptyString =>
          if is_int_space c then EmptyString else String c EmptyString
      | r => String c r
      end
  end.

(** The number of decimal digits in a text. *)
Fixpoint count_digits (s : string) : N :=
  match s with
  | EmptyString => 0%N
  | String c s' =>
      ((match digit_val c with Some _ => 1 | None => 0 end) + count_digits s')%N
  end.

(** The interpreter's cap on the digits of a text converted to an integer
    ([sys.get_int_max_str_digits()], by default). *)
Definition max_str_digits : N := 4300.

Definition capped_digits (s : string) : option Z :=
  if (max_str_digits <? count_digits s)%N then None
  else parse_digits 0 false s.

(** [int(s)] for a string: white space around, an optional sign, digits,
    no more of them than the cap. *)
Definition int_of_str (s : string) : option Z :=
  match int_rstrip (int_lstrip s) with
  | String "-"%char s' => option_map Z.opp (capped_digits s')
  | String "+"%char s' => capped_digits s'
  | s' => capped_digits s'
  end.

(** [int(v)] *)
Definition int (v : json) : result Z :=
  match v with
  | JInt z => Ok z
  | JBool b => Ok (if b then 1 else 0)
  | JStr s => match int_of_str s with
              | Some z => Ok z
              | None => Raise ValueError
              end
  | _ => Raise TypeError
  end.

(** [v.strip().lower()]: only a string has [strip]. *)
Definition strip_lower (v : json) : result string :=
  match v with
  | JStr s => Ok (Str.lower (Str.strip s))
  | _ => Raise AttributeError
  end.

End Py.

(** ** [_signature_of] *)

Local Open Scope result_scope.

(** [(r.get(k) or "").strip().lower()] *)
Definition signature_field (r : json) (k : string) : result string :=
  let? v := Py.get r k in
  Py.strip_lower (Py.or_ v (JStr "")).

Definition _signature_of (r : json) : result string :=
  let? title := signature_field r "title" in
  let? desc := signature_field r "desc" in
  let? img := signature_field r "img" in
  Ok (Str.take 191 (title ++ "|" ++ desc ++ "|" ++ img)).

(** The signature as the specification words it: the three fields
    lower-cased, missing ones empty, joined and cut at 191 characters. *)
Definition spec_field (r : json) (k : string) : string :=
  match r with
  | JObj kv => match Py.assoc k kv with
               | Some (JStr s) => Str.lower s
               | _ => ""
               end
  | _ => ""
  end.

Definition spec_signature (r : json) : string :=
  Str.take 191 (spec_field r "title" ++ "|" ++ spec_field r "desc" ++ "|"
                ++ spec_field r "img").

(** ** Responses *)

Record response : Type := Response { status : Z; body : json }.

(** [jsonify({...}), code] *)
Definition jsonify (kv : list (string * json)) (code : Z) : response :=
  Response code (JObj kv).

(** [request.get_json(silent=True)]: [None] when the body does not parse. *)
Definition get_json_silent (request_body : option json) : json :=
  match request_body with
  | Some j => j
  | None => JNull
  end.

(** [request.get_json(force=True)]: raises when the body does not parse. *)
Definition get_json_force (request_body : option json) : result json :=
  match request_body with
  | Some j => Ok j
  | None => Raise BadRequest
  end.

(** ** [demo_recipes] *)

Definition pics : list string :=
  [ "https://placehold.co/800x500?text=Recipe+Photo";
    "https://placehold.co/800x500?text=Tasty+Dish";
    "https://placehold.co/800x500?text=Yum" ].

Definition recipe_dict (title desc : json) (time serves : Z) (level img : json)
  : json :=
  JObj [ ("title", title); ("desc", desc); ("time", JInt time);
         ("serves", JInt serves); ("level", level); ("img", img) ].

Definition demo_recipes (ings : list string) : list json :=
  let joined := Str.join ", " (firstn 3 ings) in
  let base := if Str.is_empty joined then "simple pantry items" else joined in
  [ recipe_dict (JStr "Quick Skillet Bowl")
      (JStr ("One-pan weeknight bowl using " ++ base ++ "."))
      22 3 (JStr "Easy") (JStr (nth 0 pics ""));
    recipe_dict (JStr "Creamy Pasta Toss")
      (JStr ("Comforting pasta with " ++ base ++ "."))
      28 2 (JStr "Easy") (JStr (nth 1 pics ""));
    recipe_dict (JStr "Veggie Stir-Fry")
      (JStr ("Colorful stir-fry built around " ++ base ++ "."))
      18 2 (JStr "Medium") (JStr (nth 2 pics "")) ].

(** ** [/api/suggest] *)

(** What one call of the completion provider followed by [json.loads]
    comes to: the call raises, the content is not JSON, or a payload. *)
Inductive reply : Type :=
| CallFails
| NotJson
| Parsed (payload : json).

(** The configured client, asked with the prompt. *)
Definition provider : Type := string -> reply.

(** [[s.strip() for s in ... if isinstance(s, str) and s.strip()]] *)
Definition keep_ingredient (v : json) : list string :=
  match v with
  | JStr s => if Str.is_empty (Str.strip s) then [] else [Str.strip s]
  | _ => []
  end.

(** Lines 140-141, on what [get_json(silent=True)] returned. *)
Definition ingredients_of (request_json : json) : result (list string) :=
  let data := Py.or_ request_json (JObj []) in
  let? raw := Py.get_default data "ingredients" (JArr []) in
  let? items := Py.iter raw in
  Ok (flat_map keep_ingredient items).

(** The double quote character, and a quoted word. *)
Definition dq : string := String (ascii_of_nat 34) EmptyString.
Definition q (s : string) : string := dq ++ s ++ dq.

Definition prompt (ingredients : list string) : string :=
  "You are a cooking assistant. Suggest exactly 3 simple, distinct recipes that use as many of "
  ++ "these ingredients as possible: " ++ Str.join ", " ingredients ++ ". "
  ++ "Return ONLY valid JSON with shape {" ++ q "recipes" ++ ":[{"
  ++ q "title" ++ ":" ++ q "..." ++ "," ++ q "desc" ++ ":" ++ q "..." ++ ","
  ++ q "time" ++ ":25," ++ q "serves" ++ ":3," ++ q "level" ++ ":" ++ q "Easy"
  ++ "," ++ q "img" ++ ":" ++ q "https://..." ++ "}]} ."
  ++ "Keep titles short; times 15-40; serves 2-4; level Easy/Medium; use placeholder images if needed.".

(** The dict built for one provider recipe, lines 166-173. *)
Definition candidate (r : json) : result json :=
  let? t := Py.get r "title" in
  let? title := Py.slice_to 200 (Py.or_ t (JStr "Tasty Dish")) in
  let? d := Py.get r "desc" in
  let desc := Py.or_ d (JStr "A quick, pantry-friendly idea.") in
  let? tm := Py.get r "time" in
  let? time := Py.int (Py.or_ tm (JInt 20)) in
  let? sv := Py.get r "serves" in
  let? serves := Py.int (Py.or_ sv (JInt 2)) in
  let? lv := Py.get r "level" in
  let? level := Py.slice_to 16 (Py.or_ lv (JStr "Easy")) in
  let? im := Py.get r "img" in
  let img := Py.or_ im (JStr "https://placehold.co/800x500?text=Recipe") in
  Ok (recipe_dict title desc time serves level img).

(** [l[i]] *)
Definition index {A} (l : list A) (i : nat) : result A :=
  match nth_error l i with
  | Some x => Ok x
  | None => Raise IndexError
  end.

(** The padding loop, lines 174-175; its body runs once for each of the
    [n] candidates that are missing. *)
Fixpoint pad_loop (n : nat) (ingredients : list string) (recipes : list json)
  : result (list json) :=
  match n with
  | O => Ok recipes
  | S n' =>
      let? c := index (demo_recipes ingredients) (List.length recipes) in
      pad_loop n' ingredients (recipes ++ [c])
  end.

Definition pad (ingredients : list string) (recipes : list json)
  : result (list json) :=
  pad_loop (3 - List.length recipes) ingredients recipes.

(** The body of the [try], lines 156-176. *)
Definition suggest_remote (ask : provider) (ingredients : list string)
  : result response :=
  match ask (prompt ingredients) with
  | CallFails => Raise ProviderError
  | NotJson => Raise ValueError
  | Parsed payload =>
      let? rs := Py.get payload "recipes" in
      let? first3 := Py.slice_to 3 (Py.or_ rs (JArr [])) in
      let? items := Py.iter first3 in
      let? recipes := rmap candidate items in
      let? recipes := pad ingredients recipes in
      Ok (jsonify [("recipes", JArr recipes)] 200)
  end.

(** [Raise] is an exception that leaves the handler. *)
Definition suggest (client : option provider) (request_body : option json)
  : result response :=
  let? ingredients := ingredients_of (get_json_silent request_body) in
  match ingredients with
  | [] => Ok (jsonify [("error", JStr "No ingredients provided.")] 400)
  | _ =>
      match client with
      | None => Ok (jsonify [("recipes", JArr (demo_recipes ingredients))] 200)
      | Some ask =>
          match suggest_remote ask ingredients with
          | Ok resp => Ok resp
          | Raise _ =>
              Ok (jsonify [("recipes", JArr (demo_recipes ingredients))] 200)
          end
      end
  end.

(** ** The tables *)

Module Device.
Record t : Type := mk { id : Z; device_id : string; created_at : Z }.
End Device.

Module Recipe.
Record t : Type := mk {
  id : Z; title : string; desc : string; time : Z; serves : Z;
  level : string; img : string; signature : string; created_at : Z }.
End Recipe.

Module SavedRecipe.
Record t : Type := mk {
  id : Z; device_id_fk : Z; recipe_id_fk : Z; created_at : Z }.
End SavedRecipe.

Module User.
Record t : Type := mk {
  id : Z; name : string; email : string; password_hash : string;
  created_at : Z }.
End User.

(** Each table in insertion order. *)
Record database : Type := Database {
  devices : list Device.t;
  recipes : list Recipe.t;
  saved_recipes : list SavedRecipe.t;
  users : list User.t }.

(** The tables [Base.metadata.create_all] makes. *)
Definition empty_database : database := Database [] [] [] [].

(** Objects handed to [db.add], before they have a primary key. *)
Inductive transient : Type :=
| NewDevice (device_id : json)
| NewRecipe (r : json) (signature : string)
| NewSavedRecipe (device_id_fk recipe_id_fk : Z)
| NewUser (name email password_hash : string).

(** *** Parameter binding *)

Definition int64 (z : Z) : bool := (- 2 ^ 63 <=? z) && (z <? 2 ^ 63).

Definition bind_int (z : Z) : result Z :=
  if int64 z then Ok z else Raise OverflowError.

Definition decimal (z : Z) : string := NilZero.string_of_int (Z.to_int z).

(** A value bound to a text column: text as it is, an integer as its
    decimal text; lists and dicts cannot be bound. *)
Definition bind_text (v : json) : result string :=
  match v with
  | JStr s => Ok s
  | JInt z => let? z := bind_int z in Ok (decimal z)
  | JBool b => Ok (if b then "1" else "0")
  | _ => Raise DBAPIError
  end.

(** The value a dict gives to a text column, to an integer column. *)
Definition column_text (r : json) (k : string) : result string :=
  let? v := Py.get r k in bind_text v.

Definition column_int (r : json) (k : string) : result Z :=
  let? v := Py.get r k in
  match v with
  | JInt z => bind_int z
  | JBool b => Ok (if b then 1 else 0)
  | _ => Raise DBAPIError
  end.

(** *** Queries: [.filter_by(...).first()] *)

Definition find_device (db : database) (device_id : string)
  : option Device.t :=
  find (fun d => String.eqb (Device.device_id d) device_id) (devices db).

Definition find_recipe (db : database) (signature : string)
  : option Recipe.t :=
  find (fun r => String.eqb (Recipe.signature r) signature) (recipes db).

Definition get_recipe (db : database) (id : Z) : option Recipe.t :=
  find (fun r => Recipe.id r =? id)%Z (recipes db).

Definition get_device (db : database) (id : Z) : option Device.t :=
  find (fun d => Device.id d =? id)%Z (devices db).

Definition is_link (d r : Z) (l : SavedRecipe.t) : bool :=
  ((SavedRecipe.device_id_fk l =? d) && (SavedRecipe.recipe_id_fk l =? r))%Z.

Definition find_link (db : database) (d r : Z) : option SavedRecipe.t :=
  find (is_link d r) (saved_recipes db).

Definition find_user (db : database) (email : string) : option User.t :=
  find (fun u => String.eqb (User.email u) email) (users db).

(** *** Inserts *)

(** The key given to a new row: one more than the largest in the table. *)
Definition next_id (ids : list Z) : Z := 1 + fold_right Z.max 0 ids.

(** The row that the [Recipe] object made from the dict [r] and the
    signature becomes under key [i]: its columns are bound from the dict. *)
Definition recipe_row (now : Z) (r : json) (signature : string) (i : Z)
  : result Recipe.t :=
  let? title := column_text r "title" in
  let? desc := column_text r "desc" in
  let? time := column_int r "time" in
  let? serves := column_int r "serves" in
  let? level := column_text r "level" in
  let? img := column_text r "img" in
  Ok (Recipe.mk i title desc time serves level img signature now).

(** One INSERT at clock reading [now]: parameters are bound, then the
    unique constraints are checked.  Returns the new primary key. *)
Definition insert (now : Z) (x : transient) (db : database)
  : result (Z * database) :=
  match x with
  | NewDevice device_id =>
      let? key := bind_text device_id in
      match find_device db key with
      | Some _ => Raise IntegrityError
      | None =>
          let i := next_id (map Device.id (devices db)) in
          Ok (i, Database (devices db ++ [Device.mk i key now])
                          (recipes db) (saved_recipes db) (users db))
      end
  | NewRecipe r signature =>
      let i := next_id (map Recipe.id (recipes db)) in
      let? row := recipe_row now r signature i in
      match find_recipe db signature with
      | Some _ => Raise IntegrityError
      | None =>
          Ok (i, Database (devices db) (recipes db ++ [row])
                   (saved_recipes db) (users db))
      end
  | NewSavedRecipe d r =>
      match find_link db d r with
      | Some _ => Raise IntegrityError
      | None =>
          let i := next_id (map SavedRecipe.id (saved_recipes db)) in
          Ok (i, Database (devices db) (recipes db)
                   (saved_recipes db ++ [SavedRecipe.mk i d r now])
                   (users db))
      end
  | NewUser name email password_hash =>
      match find_user db email with
      | Some _ => Raise IntegrityError
      | None =>
          let i := next_id (map User.id (users db)) in
          Ok (i, Database (devices db) (recipes db) (saved_recipes db)
                   (users db ++ [User.mk i name email password_hash now]))
      end
  end.

(** ** The request-scoped session *)

(** [store] is the committed database, shared by all requests; [work] is
    this session's transaction, the store plus what it has flushed and not
    yet committed; [pending] are the objects added and not yet flushed. *)
Record session : Type := Session {
  store : database;
  work : database;
  pending : list transient }.

(** [g.db = SessionLocal()] at the start of a request. *)
Definition open_session (db : database) : session := Session db db [].

Definition M (A : Type) : Type := session -> result A * session.

Definition ret {A} (a : A) : M A := fun s => (Ok a, s).

Definition bind {A B} (m : M A) (k : A -> M B) : M B :=
  fun s =>
    match m s with
    | (Ok a, s') => k a s'
    | (Raise e, s') => (Raise e, s')
    end.

Definition lift {A} (r : result A) : M A := fun s => (r, s).

(** [try: m  except Exception as e: h e] *)
Definition try_except {A} (m : M A) (h : exn -> M A) : M A :=
  fun s =>
    match m s with
    | (Ok a, s') => (Ok a, s')
    | (Raise e, s') => h e s'
    end.

Declare Scope session_scope.
Delimit Scope session_scope with M.
Notation "x <- m ;; k" := (bind m (fun x => k))
  (at level 61, m at next level, right associativity) : session_scope.
Notation "m ;; k" := (bind m (fun _ => k))
  (at level 61, right associativity) : session_scope.
Local Open Scope session_scope.

(** A query reads the session's transaction. *)
Definition query {A} (f : database -> A) : M A := fun s => (Ok (f (work s)), s).

(** [db.add(x)] *)
Definition add (x : transient) : M unit :=
  fun s => (Ok tt, Session (store s) (work s) (pending s ++ [x])).

(** The flush: one INSERT for each pending object, in the order added. *)
Fixpoint flush (now : Z) (xs : list transient) (db : database)
  : result (list Z * database) :=
  match xs with
  | [] => Ok ([], db)
  | x :: xs' =>
      let? r := insert now x db in
      let? r' := flush now xs' (snd r) in
      Ok (fst r :: fst r', snd r')
  end.

(** [db.commit()]: flush, then make the transaction durable.  When an
    INSERT fails, the exception leaves the session as it was, to be rolled
    back.  Returns the primary keys given to the flushed objects. *)
Definition commit (now : Z) : M (list Z) :=
  fun s =>
    match flush now (pending s) (work s) with
    | Ok (ids, db) => (Ok ids, Session db db [])
    | Raise e => (Raise e, s)
    end.

(** [db.rollback()] *)
Definition rollback : M unit :=
  fun s => (Ok tt, Session (store s) (store s) []).

(** [query(SavedRecipe).filter_by(device_id_fk=d).delete()]: a bulk DELETE
    inside the transaction; returns the number of rows matched. *)
Definition delete_links (d : Z) : M Z :=
  fun s =>
    let db := work s in
    let gone l := (SavedRecipe.device_id_fk l =? d)%Z in
    (Ok (Z.of_nat (List.length (filter gone (saved_recipes db)))),
     Session (store s)
       (Database (devices db) (recipes db)
          (filter (fun l => negb (gone l)) (saved_recipes db)) (users db))
       (pending s)).

(** The only key a commit of one added object returns. *)
Definition only {A} (l : list A) : M A :=
  match l with
  | [x] => ret x
  | _ => lift (Raise IndexError)
  end.

(** [db.refresh(x)]: the row is read back by its primary key. *)
Definition refresh {A} (get : database -> Z -> option A) (id : Z) : M A :=
  row <- query (fun db => get db id) ;;
  match row with
  | Some x => ret x
  | None => lift (Raise DBAPIError)
  end.

(** [query(Device).filter_by(device_id=v).first()]; comparing with [None]
    is [IS NULL], which no row satisfies. *)
Definition query_device (v : json) : M (option Device.t) :=
  match v with
  | JNull => ret None
  | _ =>
      key <- lift (bind_text v) ;;
      query (fun db => find_device db key)
  end.

(** A handler run as one request on the committed database: the session is
    opened before it and removed after it, whatever it did. *)
Definition run_request {A} (h : M A) (db : database) : database * result A :=
  let (r, s) := h (open_session db) in (store s, r).

(** A read of the transaction that can raise. *)
Definition query_result {A} (f : database -> result A) : M A :=
  fun s => (f (work s), s).

(** ** [_ensure_device] *)

Definition _ensure_device (now : Z) (device_id : json) : M (option Device.t) :=
  if negb (Py.truthy device_id) then ret None
  else
    d <- query_device device_id ;;
    match d with
    | Some d => ret (Some d)
    | None =>
        add (NewDevice device_id) ;;
        ids <- commit now ;;
        i <- only ids ;;
        d <- refresh get_device i ;;
        ret (Some d)
    end.

(** ** [/api/save] *)

(** The dict [r] of lines 194-201. *)
Definition recipe_of (recipe_in : json) : result json :=
  let? t := Py.get recipe_in "title" in
  let? title := Py.slice_to 200 (Py.or_ t (JStr "Recipe")) in
  let? d := Py.get recipe_in "desc" in
  let desc := Py.or_ d (JStr "") in
  let? tm := Py.get recipe_in "time" in
  let? time := Py.int (Py.or_ tm (JInt 20)) in
  let? sv := Py.get recipe_in "serves" in
  let? serves := Py.int (Py.or_ sv (JInt 2)) in
  let? lv := Py.get recipe_in "level" in
  let? level := Py.slice_to 16 (Py.or_ lv (JStr "Easy")) in
  let? im := Py.get recipe_in "img" in
  let img := Py.or_ im (JStr "") in
  Ok (recipe_dict title desc time serves level img).

(** Lines 205-208: the recipe row of this signature, made if absent. *)
Definition resolve_recipe (now : Z) (r : json) (sig : string) : M Recipe.t :=
  rec <- query (fun db => find_recipe db sig) ;;
  match rec with
  | Some rec => ret rec
  | None =>
      add (NewRecipe r sig) ;;
      ids <- commit now ;;
      i <- only ids ;;
      refresh get_recipe i
  end.

(** Lines 214-216: the link is added and committed. *)
Definition insert_link (now : Z) (d : Device.t) (rec : Recipe.t) : M response :=
  add (NewSavedRecipe (Device.id d) (Recipe.id rec)) ;;
  commit now ;;
  ret (jsonify [("saved", JBool true); ("recipe_id", JInt (Recipe.id rec))] 200).

(** [str(e)]: the text of an exception is worded by the library that
    raised it (for the driver's errors: its message, the statement and the
    parameters); it is a parameter of the handler. *)
Definition wording : Type := exn -> string.

(** The two [except] clauses, lines 218-224. *)
Definition save_except (str_exn : wording) (e : exn) : M response :=
  match e with
  | IntegrityError =>
      rollback ;;
      ret (jsonify [("saved", JBool false); ("message", JStr "Already saved")]
             200)
  | _ =>
      rollback ;;
      ret (jsonify [("error", JStr "save_failed"); ("detail", JStr (str_exn e))]
             500)
  end.

(** Lines 210-216, after the recipe row is known. *)
Definition resolve_link (now : Z) (d : Device.t) (rec : Recipe.t) : M response :=
  link <- query (fun db => find_link db (Device.id d) (Recipe.id rec)) ;;
  match link with
  | Some _ =>
      ret (jsonify [("saved", JBool false); ("message", JStr "Already saved");
                    ("recipe_id", JInt (Recipe.id rec))] 200)
  | None => insert_link now d rec
  end.

(** The [try] statement, lines 204-224. *)
Definition save_try (str_exn : wording) (now : Z) (d : Device.t) (r : json)
    (sig : string) : M response :=
  try_except
    (rec <- resolve_recipe now r sig ;; resolve_link now d rec)
    (save_except str_exn).

(** What is left of the [try] statement for a request that has read line
    210 and found no link: lines 214-216 under the [except] clauses. *)
Definition save_resume (str_exn : wording) (now : Z) (d : Device.t)
    (rec : Recipe.t) : M response :=
  try_except (insert_link now d rec) (save_except str_exn).

(** The handler; [now] is the clock read for the rows it creates. *)
Definition save (str_exn : wording) (now : Z) (request_body : option json)
  : M response :=
  match get_json_force request_body with
  | Raise _ => ret (jsonify [("error", JStr "invalid_json")] 400)
  | Ok payload =>
      device_id <- lift (Py.get (Py.or_ payload (JObj [])) "device_id") ;;
      rin <- lift (Py.get (Py.or_ payload (JObj [])) "recipe") ;;
      let recipe_in := Py.or_ rin (JObj []) in
      d <- _ensure_device now device_id ;;
      match d with
      | None => ret (jsonify [("error", JStr "missing device_id")] 400)
      | Some d =>
          r <- lift (recipe_of recipe_in) ;;
          sig <- lift (_signature_of r) ;;
          save_try str_exn now d r sig
      end
  end.

(** ** [/api/history] *)

(** [ORDER BY created_at DESC] as the store answers the query of lines
    233-238: newest first.  The rows of one device are read through the
    unique index on (device_id_fk, recipe_id_fk) and sorted by a stable
    sort, so rows with equal timestamps come in the order of their recipe
    keys, not in the order they were inserted. *)
Definition comes_before (x y : SavedRecipe.t) : bool :=
  (SavedRecipe.created_at y <? SavedRecipe.created_at x)
  || ((SavedRecipe.created_at y =? SavedRecipe.created_at x)
      && (SavedRecipe.recipe_id_fk x <=? SavedRecipe.recipe_id_fk y)).

Fixpoint insert_desc (x : SavedRecipe.t) (l : list SavedRecipe.t)
  : list SavedRecipe.t :=
  match l with
  | [] => [x]
  | y :: l' => if comes_before x y then x :: l else y :: insert_desc x l'
  end.

Definition order_by_created_desc (l : list SavedRecipe.t) : list SavedRecipe.t :=
  fold_right insert_desc [] l.

(** The rows of lines 233-238. *)
Definition history_rows (db : database) (d : Device.t) : list SavedRecipe.t :=
  firstn 50
    (order_by_created_desc
       (filter (fun l => SavedRecipe.device_id_fk l =? Device.id d)
          (saved_recipes db))).

(** The dict of lines 239-243 for a recipe row. *)
Definition public (rec : Recipe.t) : json :=
  JObj [ ("id", JInt (Recipe.id rec)); ("title", JStr (Recipe.title rec));
         ("desc", JStr (Recipe.desc rec)); ("time", JInt (Recipe.time rec));
         ("serves", JInt (Recipe.serves rec));
         ("level", JStr (Recipe.level rec)); ("img", JStr (Recipe.img rec)) ].

(** [r.recipe] is the row the link points to, [None] when there is none. *)
Definition project (db : database) (r : SavedRecipe.t) : result json :=
  match get_recipe db (SavedRecipe.recipe_id_fk r) with
  | Some rec => Ok (public rec)
  | None => Raise AttributeError
  end.

(** [device_id] is [request.args.get("device_id")]: a string or [None]. *)
Definition history (device_id : option string) : M response :=
  d <- query_device (match device_id with Some s => JStr s | None => JNull end) ;;
  match d with
  | None => ret (jsonify [("recipes", JArr [])] 200)
  | Some d =>
      rows <- query (fun db => history_rows db d) ;;
      out <- query_result (fun db => rmap (project db) rows) ;;
      ret (jsonify [("recipes", JArr out)] 200)
  end.

(** ** [/api/clear] *)

Definition clear_saved (now : Z) (request_body : option json) : M response :=
  let payload := Py.or_ (get_json_silent request_body) (JObj []) in
  device_id <- lift (Py.get payload "device_id") ;;
  if negb (Py.truthy device_id) then ret (jsonify [("deleted", JInt 0)] 200)
  else
    d <- query_device device_id ;;
    match d with
    | None => ret (jsonify [("deleted", JInt 0)] 200)
    | Some d =>
        deleted <- delete_links (Device.id d) ;;
        commit now ;;
        ret (jsonify [("deleted", JInt deleted)] 200)
    end.

(** ** [/auth/login] *)

(** [check_password_hash] is the library's: it is a parameter of the
    handler, given the stored hash and the password as sent. *)
Definition checker : Type := string -> json -> result bool.

Definition user_json (u : User.t) : json :=
  JObj [ ("id", JInt (User.id u)); ("name", JStr (User.name u));
         ("email", JStr (User.email u)) ].

(** The response, and the user id the handler stores in the Flask session
    ([None] when it leaves the session alone). *)
Definition auth_login (check_password_hash : checker)
    (request_body : option json) : M (response * option Z) :=
  data <- lift (get_json_force request_body) ;;
  e <- lift (Py.get data "email") ;;
  email <- lift (Py.strip_lower (Py.or_ e (JStr ""))) ;;
  p <- lift (Py.get data "password") ;;
  let password := Py.or_ p (JStr "") in
  user <- query (fun db => find_user db email) ;;
  let denied :=
    (jsonify [("ok", JBool false); ("error", JStr "invalid_credentials")] 401,
     None) in
  match user with
  | None => ret denied
  | Some u =>
      good <- lift (check_password_hash (User.password_hash u) password) ;;
      if negb good then ret denied
      else ret (jsonify [("ok", JBool true); ("user", user_json u)] 200,
                Some (User.id u))
  end.

(** ** Requests that change the store, and their sequences

    A request as it is served: with the clock reading, and for a save the
    wording of exceptions, at that time. *)

Inductive request : Type :=
| ReqSave (str_exn : wording) (now : Z) (request_body : option json)
| ReqClear (now : Z) (request_body : option json).

(** The committed database after one request. *)
Definition serve (rq : request) (db : database) : database :=
  match rq with
  | ReqSave str_exn now b => fst (run_request (save str_exn now b) db)
  | ReqClear now b => fst (run_request (clear_saved now b) db)
  end.

Fixpoint serve_all (rqs : list request) (db : database) : database :=
  match rqs with
  | [] => db
  | rq :: rqs' => serve_all rqs' (serve rq db)
  end.

(** ** Invariants of the store, and a logic for the handlers *)

Definition link_pair (l : SavedRecipe.t) : Z * Z :=
  (SavedRecipe.device_id_fk l, SavedRecipe.recipe_id_fk l).

(** Keys are distinct, the unique columns are, and every link points to a
    device row and to a recipe row. *)
Record wf (db : database) : Prop := Wf {
  wf_device_ids : NoDup (map Device.id (devices db));
  wf_device_keys : NoDup (map Device.device_id (devices db));
  wf_recipe_ids : NoDup (map Recipe.id (recipes db));
  wf_signatures : NoDup (map Recipe.signature (recipes db));
  wf_link_pairs : NoDup (map link_pair (saved_recipes db));
  wf_link_device :
    forall l, In l (saved_recipes db) ->
              In (SavedRecipe.device_id_fk l) (map Device.id (devices db));
  wf_link_recipe :
    forall l, In l (saved_recipes db) ->
              In (SavedRecipe.recipe_id_fk l) (map Recipe.id (recipes db)) }.

(** An added object can be flushed into [db] without breaking [wf]: a link
    names a device row and a recipe row that are there. *)
Definition valid_in (db : database) (x : transient) : Prop :=
  match x with
  | NewSavedRecipe d r =>
      In d (map Device.id (devices db)) /\ In r (map Recipe.id (recipes db))
  | _ => True
  end.

(** [wf], with the row [d] among the devices. *)
Definition wf_with (d : Device.t) (db : database) : Prop :=
  wf db /\ In d (devices db).

(** A property [J] of databases as an invariant of sessions: it holds of
    the store and of the transaction, and every pending object is fit ([V])
    to be flushed. *)
Definition inv (J : database -> Prop) (V : database -> transient -> Prop)
    (s : session) : Prop :=
  J (store s) /\ J (work s) /\ Forall (V (work s)) (pending s).

(** The database without the links that [gone] selects. *)
Definition without_links (gone : SavedRecipe.t -> bool) (db : database)
  : database :=
  Database (devices db) (recipes db)
    (filter (fun l => negb (gone l)) (saved_recipes db)) (users db).

(** The device key [k] has the row [d]. *)
Definition has_device (k : string) (d : Device.t) (db : database) : Prop :=
  find_device db k = Some d.

(** From a session in [P], [m] returns a value and a session in [Q], or
    raises in a session in [E]. *)
Definition hoare {A} (P : session -> Prop) (m : M A)
    (Q : A -> session -> Prop) (E : session -> Prop) : Prop :=
  forall s, P s ->
            match m s with
            | (Ok a, s') => Q a s'
            | (Raise _, s') => E s'
            end.

(** ** The save flow on a decoded request, as a function of the store *)

Definition add_device (d : Device.t) (db : database) : database :=
  Database (devices db ++ [d]) (recipes db) (saved_recipes db) (users db).

Definition add_recipe (rec : Recipe.t) (db : database) : database :=
  Database (devices db) (recipes db ++ [rec]) (saved_recipes db) (users db).

Definition add_link (l : SavedRecipe.t) (db : database) : database :=
  Database (devices db) (recipes db) (saved_recipes db ++ [l]) (users db).

(** The device row of key [k], made if absent. *)
Definition with_device (now : Z) (k : string) (db : database)
  : Device.t * database :=
  match find_device db k with
  | Some d => (d, db)
  | None =>
      let d := Device.mk (next_id (map Device.id (devices db))) k now in
      (d, add_device d db)
  end.

(** The recipe row of signature [sig], made from [r] if absent. *)
Definition with_recipe (now : Z) (r : json) (sig : string) (db : database)
  : result (Recipe.t * database) :=
  match find_recipe db sig with
  | Some rec => Ok (rec, db)
  | None =>
      let? row := recipe_row now r sig (next_id (map Recipe.id (recipes db))) in
      Ok (row, add_recipe row db)
  end.

(** The link of device [d] to recipe [rec], made if absent; [true] when it
    was made. *)
Definition with_link (now d rec : Z) (db : database) : bool * database :=
  match find_link db d rec with
  | Some _ => (false, db)
  | None =>
      (true,
       add_link (SavedRecipe.mk (next_id (map SavedRecipe.id (saved_recipes db)))
                   d rec now) db)
  end.

(** The two 200 responses of the handler that carry a recipe id. *)
Definition saved_response (fresh : bool) (recipe_id : Z) : response :=
  if fresh
  then jsonify [("saved", JBool true); ("recipe_id", JInt recipe_id)] 200
  else jsonify [("saved", JBool false); ("message", JStr "Already saved");
                ("recipe_id", JInt recipe_id)] 200.

Definition save_failed_response (detail : string) : response :=
  jsonify [("error", JStr "save_failed"); ("detail", JStr detail)] 500.

(** What the handler computes from the body before it touches the store:
    the device id, the dict [r], its signature. *)
Definition decode_save (request_body : option json)
  : result (json * json * string) :=
  let? payload := get_json_force request_body in
  let? device_id := Py.get (Py.or_ payload (JObj [])) "device_id" in
  let? rin := Py.get (Py.or_ payload (JObj [])) "recipe" in
  let? r := recipe_of (Py.or_ rin (JObj [])) in
  let? sig := _signature_of r in
  Ok (device_id, r, sig).

Definition save_pure (str_exn : wording) (now : Z) (k : string) (r : json)
    (sig : string) (db : database) : database * response :=
  let (d, db1) := with_device now k db in
  match with_recipe now r sig db1 with
  | Ok (rec, db2) =>
      let (fresh, db3) := with_link now (Device.id d) (Recipe.id rec) db2 in
      (db3, saved_response fresh (Recipe.id rec))
  | Raise e => (db1, save_failed_response (str_exn e))
  end.

(** The device of key [k] has a link to the recipe of signature [sig]. *)
Definition linked (db : database) (k sig : string) : bool :=
  match find_device db k, find_recipe db sig with
  | Some d, Some rec =>
      match find_link db (Device.id d) (Recipe.id rec) with
      | Some _ => true
      | None => false
      end
  | _, _ => false
  end.

(** The recipe rows of a signature. *)
Definition rows_of (sig : string) (db : database) : list Recipe.t :=
  filter (fun r => String.eqb (Recipe.signature r) sig) (recipes db).

(** The links of a device key. *)
Definition links_of (k : string) (db : database) : list SavedRecipe.t :=
  match find_device db k with
  | Some d =>
      filter (fun l => SavedRecipe.device_id_fk l =? Device.id d)
        (saved_recipes db)
  | None => []
  end.

(** The store accepts the dict [r] as a recipe row: each column binds. *)
Definition storable (r : json) : Prop :=
  exists row, recipe_row 0 r "" 0 = Ok row.

(** Two dicts with the same title, desc and img. *)
Definition same_content (r1 r2 : json) : Prop :=
  Py.get r1 "title" = Py.get r2 "title"
  /\ Py.get r1 "desc" = Py.get r2 "desc"
  /\ Py.get r1 "img" = Py.get r2 "img".

(** A stand-in for the wording of exceptions, to run examples. *)
Definition toy_wording : wording := fun _ => "database error".

(** A save request for device [k] with a recipe of the given title. *)
Definition save_body (k title : string) : option json :=
  Some (JObj [("device_id", JStr k);
              ("recipe", JObj [("title", JStr title)])]).

(** [a] was saved no earlier than [b]. *)
Definition newer_first (a b : SavedRecipe.t) : Prop :=
  SavedRecipe.created_at b <= SavedRecipe.created_at a.

(** The links of the device a history request names. *)
Definition links_of_arg (device_id : option string) (db : database)
  : list SavedRecipe.t :=
  match device_id with
  | Some k => links_of k db
  | None => []
  end.

(** The recipe rows that a list of links points to. *)
Definition recipes_of_links (db : database) (rows : list SavedRecipe.t)
    (recs : list Recipe.t) : Prop :=
  Forall2 (fun l rec => get_recipe db (SavedRecipe.recipe_id_fk l) = Some rec)
    rows recs.

(** The public recipe fields, as the specification lists them. *)
Definition public_fields : list string :=
  ["id"; "title"; "desc"; "time"; "serves"; "level"; "img"].

(** The entry [entry] of an answer shows the recipe row [rec]: it is an
    object with the public fields and no other, each holding the row's
    column of that name. *)
Definition shows (rec : Recipe.t) (entry : json) : Prop :=
  exists kv,
    entry = JObj kv
    /\ map fst kv = public_fields
    /\ Py.assoc "id" kv = Some (JInt (Recipe.id rec))
    /\ Py.assoc "title" kv = Some (JStr (Recipe.title rec))
    /\ Py.assoc "desc" kv = Some (JStr (Recipe.desc rec))
    /\ Py.assoc "time" kv = Some (JInt (Recipe.time rec))
    /\ Py.assoc "serves" kv = Some (JInt (Recipe.serves rec))
    /\ Py.assoc "level" kv = Some (JStr (Recipe.level rec))
    /\ Py.assoc "img" kv = Some (JStr (Recipe.img rec)).

(** Three devices and two recipes, every row made at clock reading 10:
    device B saves the stew first and the soup, whose row device A made
    before, second. *)
Definition tied_saves : list request :=
  [ ReqSave toy_wording 10 (save_body "devA" "Soup");
    ReqSave toy_wording 10 (save_body "devB" "Stew");
    ReqSave toy_wording 10 (save_body "devB" "Soup") ].

(** The store after three saves by one device at clock readings 10, 30
    and 20. *)
Definition three_saves : list request :=
  [ ReqSave toy_wording 10 (save_body "devA" "Soup");
    ReqSave toy_wording 30 (save_body "devA" "Stew");
    ReqSave toy_wording 20 (save_body "devA" "Salad") ].

(** A clear request for device [k]. *)
Definition clear_body (k : string) : option json :=
  Some (JObj [("device_id", JStr k)]).

Definition deleted_response (n : Z) : response :=
  jsonify [("deleted", JInt n)] 200.

(** The store without the links of the device of key [k]. *)
Definition cleared (k : string) (db : database) : database :=
  match find_device db k with
  | Some d =>
      without_links (fun l => SavedRecipe.device_id_fk l =? Device.id d) db
  | None => db
  end.

(** What [auth_login] reads from the body: the normalized email and the
    password. *)
Definition login_fields (request_body : option json) : result (string * json) :=
  let? data := get_json_force request_body in
  let? e := Py.get data "email" in
  let? email := Py.strip_lower (Py.or_ e (JStr "")) in
  let? p := Py.get data "password" in
  Ok (email, Py.or_ p (JStr "")).

(** The 401 answer, with the session left alone. *)
Definition denied : response * option Z :=
  (jsonify [("ok", JBool false); ("error", JStr "invalid_credentials")] 401,
   None).

Definition login_body (email password : string) : option json :=
  Some (JObj [("email", JStr email); ("password", JStr password)]).

(** A login body whose password is any JSON value. *)
Definition login_with (email : string) (password : json) : option json :=
  Some (JObj [("email", JStr email); ("password", password)]).

(** A stand-in for the library's hash check, to run examples: the hash of
    a password is the password after "hash:"; as the library does, it
    encodes the password first, which only a string allows. *)
Definition toy_checker : checker :=
  fun pwhash password =>
    match password with
    | JStr p => Ok (String.eqb pwhash ("hash:" ++ p))
    | _ => Raise AttributeError
    end.

(** A store with one user. *)
Definition one_user : database :=
  Database [] [] [] [User.mk 1 "Ann" "ann@example.com" "hash:secret" 5].

(** A save request whose recipe has a list as its level: the recipe row
    cannot be stored. *)
Definition bad_level_body (k : string) : option json :=
  Some (JObj [("device_id", JStr k);
              ("recipe", JObj [("level", JArr [JInt 1])])]).

(** The status code of an answer, when the handler returned one. *)
Definition status_of (r : result response) : option Z :=
  match r with
  | Ok resp => Some (status resp)
  | Raise _ => None
  end.

(** The response of a handler that also sets the session. *)
Definition rmap_fst {A B} (r : result (A * B)) : result A :=
  match r with
  | Ok (a, _) => Ok a
  | Raise e => Raise e
  end.

(** The defaults of lines 194-201, by key. *)
Definition recipe_defaults : list (string * json) :=
  [ ("title", JStr "Recipe"); ("desc", JStr ""); ("time", JInt 20);
    ("serves", JInt 2); ("level", JStr "Easy"); ("img", JStr "") ].

(** A field that is absent or falsy (null, empty, zero), or of the type
    the interface gives it: text, or an integer the store can hold. *)
Definition text_ok (v : option json) : bool :=
  match v with
  | None => true
  | Some x => negb (Py.truthy x) || match x with JStr _ => true | _ => false end
  end.

Definition int_ok (v : option json) : bool :=
  match v with
  | None => true
  | Some x =>
      negb (Py.truthy x) || match x with JInt z => int64 z | _ => false end
  end.

Definition well_typed (fields : list (string * json)) : bool :=
  text_ok (Py.assoc "title" fields) && text_ok (Py.assoc "desc" fields)
  && int_ok (Py.assoc "time" fields) && int_ok (Py.assoc "serves" fields)
  && text_ok (Py.assoc "level" fields) && text_ok (Py.assoc "img" fields).

(** What is kept of a value that is sent: the first 200 characters of a
    title, the first 16 of a level, the value itself under the other
    keys. *)
Definition kept (key : string) (v : json) : result json :=
  if String.eqb key "title" then Py.slice_to 200 v
  else if String.eqb key "level" then Py.slice_to 16 v
  else Ok v.

(** Substitution of a default: [x] stands for the value [v] of a request
    when it is the default for an absent or falsy [v], and what is kept of
    [v] otherwise. *)
Definition substituted (key : string) (v : option json) (dflt x : json)
  : Prop :=
  match v with
  | None => x = dflt
  | Some w => if Py.truthy w then kept key w = Ok x else x = dflt
  end.

(** [o.get(key)] for a key whose entry in the object is [v]. *)
Definition value_of (v : option json) : json :=
  match v with Some x => x | None => JNull end.

(** A save request whose recipe holds a time that is no number, and
    nothing else. *)
Definition soon_body (k : string) : option json :=
  Some (JObj [("device_id", JStr k);
              ("recipe", JObj [("time", JStr "soon")])]).

(** A save request without a recipe. *)
Definition bare_body (k : string) : option json :=
  Some (JObj [("device_id", JStr k)]).

(** *** Two requests racing for one link

    Both requests carry [save_body "devA" "Soup"].  The first runs lines
    183-210 on the empty store: it commits the device row and the recipe
    row and finds no link.  Then the second is served from start to end
    and commits the link.  The first resumes at line 214 on the store the
    second left. *)
Definition race_device : Device.t := Device.mk 1 "devA" 10.

Definition race_recipe : Recipe.t :=
  Recipe.mk 1 "Soup" "" 20 2 "Easy" "" "soup||" 10.

(** The store after the first request's two commits. *)
Definition race_store_before : database :=
  Database [race_device] [race_recipe] [] [].

(** The store after the second request was served. *)
Definition race_store : database :=
  serve (ReqSave toy_wording 11 (save_body "devA" "Soup")) race_store_before.

(** The answer of the [except IntegrityError] clause, line 220. *)
Definition integrity_response : response :=
  jsonify [("saved", JBool false); ("message", JStr "Already saved")] 200.

(** ** Vocabulary of the statements *)

(** The text a field contributes to the signature: empty when the key is
    missing or its value is falsy, the string when it is one; a truthy
    value that is not a string contributes none. *)
Definition text_of (v : option json) : option string :=
  match v with
  | None => Some ""
  | Some v =>
      if Py.truthy v then match v with JStr s => Some s | _ => None end
      else Some ""
  end.

(** A string or a list holding between [lo] and [hi] items. *)
Definition sized (lo hi : nat) (v : json) : Prop :=
  match Py.len v, v with
  | Some n, (JStr _ | JArr _) => (lo <= n <= hi)%nat
  | _, _ => False
  end.

(** A candidate as lines 166-173 build it: integer time and serves, a
    title of 1..200 items and a level of 1..16 items. *)
Definition sanitized (c : json) : Prop :=
  exists title desc time serves level img,
    c = recipe_dict title desc time serves level img
    /\ sized 1 200 title /\ sized 1 16 level.

(** The integer stored under [k] in a candidate. *)
Definition int_field (c : json) (k : string) : option Z :=
  match Py.get c k with
  | Ok (JInt z) => Some z
  | _ => None
  end.

(** The bounds of the local generator: 18 to 28 minutes, 2 or 3 served. *)
Definition local_bounds (c : json) : Prop :=
  exists t s, int_field c "time" = Some t /\ int_field c "serves" = Some s
              /\ 18 <= t <= 28 /\ 2 <= s <= 3.

(** The recipes of a 200 response. *)
Definition recipes_of (r : result response) : option (list json) :=
  match r with
  | Ok (Response 200 (JObj [("recipes", JArr l)])) => Some l
  | _ => None
  end.

(** What the specification asks of a candidate's serves field. *)
Definition serves_at_least_one (c : json) : Prop :=
  exists s, int_field c "serves" = Some s /\ 1 <= s.

(** A provider whose only recipe has a negative time and serves. *)
Definition careless_provider : provider :=
  fun _ => Parsed (JObj [("recipes",
                          JArr [JObj [("time", JInt (-5));
                                      ("serves", JInt (-1))]])]).

Definition egg_request : option json :=
  Some (JObj [("ingredients", JArr [JStr "egg"])]).

(** ** [/auth/signup], [/auth/logout], [/auth/me] *)

(** [generate_password_hash] is the library's: it is a parameter of the
    handler, given the password as sent. *)
Definition hasher : Type := json -> result string.

(** [v.strip()]: only a string has [strip]. *)
Definition strip_text (v : json) : result string :=
  match v with
  | JStr s => Ok (Str.strip s)
  | _ => Raise AttributeError
  end.

(** [query(User).get(id)] *)
Definition get_user (db : database) (id : Z) : option User.t :=
  find (fun u => User.id u =? id) (users db).

(** The response, and the user id the handler stores in the Flask session
    ([None] when it leaves the session alone). *)
Definition auth_signup (generate_password_hash : hasher) (now : Z)
    (request_body : option json) : M (response * option Z) :=
  match get_json_force request_body with
  | Raise _ =>
      ret (jsonify [("ok", JBool false); ("error", JStr "invalid_json")] 400,
           None)
  | Ok data =>
      n <- lift (Py.get data "name") ;;
      name <- lift (strip_text (Py.or_ n (JStr ""))) ;;
      e <- lift (Py.get data "email") ;;
      email <- lift (Py.strip_lower (Py.or_ e (JStr ""))) ;;
      p <- lift (Py.get data "password") ;;
      let password := Py.or_ p (JStr "") in
      if Str.is_empty email || negb (Py.truthy password)
      then ret (jsonify [("ok", JBool false); ("error", JStr "missing_fields")]
                  400, None)
      else
        existing <- query (fun db => find_user db email) ;;
        match existing with
        | Some _ =>
            ret (jsonify [("ok", JBool false); ("error", JStr "email_exists")]
                   409, None)
        | None =>
            hash <- lift (generate_password_hash password) ;;
            add (NewUser (Str.take 120 name) email hash) ;;
            ids <- commit now ;;
            i <- only ids ;;
            user <- refresh get_user i ;;
            ret (jsonify [("ok", JBool true); ("user", user_json user)] 200,
                 Some (User.id user))
        end
  end.

(** The Flask session of a client: the user id under "uid", if any. *)
Definition cookie : Type := option Z.

(** The session after a handler that stored [set] in it. *)
Definition set_cookie (uid : cookie) (set : option Z) : cookie :=
  match set with
  | Some id => Some id
  | None => uid
  end.

(** [session.pop("uid", None)], then the answer. *)
Definition auth_logout (uid : cookie) : response * cookie :=
  (jsonify [("ok", JBool true)] 200, None).

Definition current_user (uid : cookie) : M (option User.t) :=
  match uid with
  | Some id => if id =? 0 then ret None else query (fun db => get_user db id)
  | None => ret None
  end.

Definition auth_me (uid : cookie) : M response :=
  u <- current_user uid ;;
  match u with
  | Some u => ret (jsonify [("ok", JBool true); ("user", user_json u)] 200)
  | None => ret (jsonify [("ok", JBool false)] 200)
  end.

(** ** Vocabulary of the further statements *)

(** The normal form of a text in a signature. *)
Definition norm (s : string) : string := Str.lower (Str.strip s).

(** [n] times the letter x. *)
Fixpoint xs (n : nat) : string :=
  match n with
  | O => EmptyString
  | S n' => String "x"%char (xs n')
  end.

(** An item of the ingredients list that the handler drops: not a string,
    or a string of white space. *)
Definition blank (v : json) : Prop :=
  match v with
  | JStr s => Str.is_empty (Str.strip s) = true
  | _ => True
  end.

Definition no_ingredients_response : response :=
  jsonify [("error", JStr "No ingredients provided.")] 400.

(** The answer made of the local candidates. *)
Definition local_response (ings : list string) : response :=
  jsonify [("recipes", JArr (demo_recipes ings))] 200.

(** A provider that always replies with the given payload. *)
Definition replying (payload : json) : provider := fun _ => Parsed payload.

(** An object that is not a user. *)
Definition not_user (x : transient) : Prop :=
  match x with
  | NewUser _ _ _ => False
  | _ => True
  end.

(** [db'] is [db] with rows appended to devices, recipes and links, and the
    same users. *)
Definition extends (db db' : database) : Prop :=
  (exists l, devices db' = devices db ++ l)%list
  /\ (exists l, recipes db' = recipes db ++ l)%list
  /\ (exists l, saved_recipes db' = saved_recipes db ++ l)%list
  /\ users db' = users db.

(** [db'] is [db] without some of its links. *)
Definition fewer_links (db db' : database) : Prop :=
  devices db' = devices db /\ recipes db' = recipes db
  /\ users db' = users db
  /\ exists keep, saved_recipes db' = filter keep (saved_recipes db).

(** The two 400 answers of [/api/save]. *)
Definition invalid_json_response : response :=
  jsonify [("error", JStr "invalid_json")] 400.

Definition missing_device_response : response :=
  jsonify [("error", JStr "missing device_id")] 400.

(** A save request without a device id, whose recipe is not even an
    object. *)
Definition anonymous_body : option json :=
  Some (JObj [("device_id", JStr ""); ("recipe", JInt 7)]).

(** A store with the recipe "Soup" saved by device devA at clock reading
    10. *)
Definition soup_store : database :=
  serve (ReqSave toy_wording 10 (save_body "devA" "Soup")) empty_database.

(** A save request for the same signature as "Soup" with other fields, one
    of which the store cannot hold. *)
Definition other_soup_body : option json :=
  Some (JObj [("device_id", JStr "devB");
              ("recipe", JObj [("title", JStr " SOUP "); ("time", JInt 90);
                               ("level", JArr [JStr "Hard"])])]).

Definition empty_history_response : response :=
  jsonify [("recipes", JArr [])] 200.

(** The answer of [/api/history] with the given entries. *)
Definition history_response (entries : list json) : response :=
  jsonify [("recipes", JArr entries)] 200.

(** The device rows of two keys saved at 10 and 20, one link each. *)
Definition two_devices : list request :=
  [ ReqSave toy_wording 10 (save_body "devA" "Soup");
    ReqSave toy_wording 20 (save_body "devB" "Stew") ].

(** What [auth_signup] reads from a parsed body: the stripped name, the
    normalized email and the password. *)
Definition signup_fields (data : json) : result (string * string * json) :=
  let? n := Py.get data "name" in
  let? name := strip_text (Py.or_ n (JStr "")) in
  let? e := Py.get data "email" in
  let? email := Py.strip_lower (Py.or_ e (JStr "")) in
  let? p := Py.get data "password" in
  Ok (name, email, Py.or_ p (JStr "")).

Definition account_response (u : User.t) : response :=
  jsonify [("ok", JBool true); ("user", user_json u)] 200.

Definition signup_error (code : string) (status : Z) : response * option Z :=
  (jsonify [("ok", JBool false); ("error", JStr code)] status, None).

Definition add_user (u : User.t) (db : database) : database :=
  Database (devices db) (recipes db) (saved_recipes db) (users db ++ [u]).

(** The user row a signup makes. *)
Definition new_user (now : Z) (name email hash : string) (db : database)
  : User.t :=
  User.mk (next_id (map User.id (users db))) (Str.take 120 name) email hash now.

(** The handler on a parsed body, as a function of the store. *)
Definition signup_pure (generate_password_hash : hasher) (now : Z)
    (data : json) (db : database) : database * result (response * option Z) :=
  match signup_fields data with
  | Raise e => (db, Raise e)
  | Ok (name, email, password) =>
      if Str.is_empty email || negb (Py.truthy password)
      then (db, Ok (signup_error "missing_fields" 400))
      else
        match find_user db email with
        | Some _ => (db, Ok (signup_error "email_exists" 409))
        | None =>
            match generate_password_hash password with
            | Raise e => (db, Raise e)
            | Ok hash =>
                let u := new_user now name email hash db in
                (add_user u db, Ok (account_response u, Some (User.id u)))
            end
        end
  end.

(** Signup requests served one after the other. *)
Fixpoint signups (generate_password_hash : hasher)
    (rqs : list (Z * option json)) (db : database) : database :=
  match rqs with
  | [] => db
  | (now, b) :: rqs' =>
      signups generate_password_hash rqs'
        (fst (run_request (auth_signup generate_password_hash now b) db))
  end.

(** What holds of the users table: distinct keys and emails; positive
    keys; emails non-empty and in normal form; names of at most 120
    characters. *)
Definition accounts_ok (db : database) : Prop :=
  NoDup (map User.id (users db))
  /\ NoDup (map User.email (users db))
  /\ Forall (fun u => 0 < User.id u
                      /\ Str.is_empty (User.email u) = false
                      /\ norm (User.email u) = User.email u
                      /\ (String.length (User.name u) <= 120)%nat)
       (users db).

(** A stand-in for the library's hash function, to run examples: the
    counterpart of [toy_checker]. *)
Definition toy_hasher : hasher :=
  fun password =>
    match password with
    | JStr p => Ok ("hash:" ++ p)%string
    | _ => Raise AttributeError
    end.

Definition signup_body (name email password : string) : option json :=
  Some (JObj [("name", JStr name); ("email", JStr email);
              ("password", JStr password)]).

Definition anonymous_response : response :=
  jsonify [("ok", JBool false)] 200.

(** The store after Ann signed up at clock reading 5. *)
Definition ann_store : database :=
  signups toy_hasher [(5, signup_body "  Ann " " Ann@Example.COM " "secret")]
    empty_database.

(* ================================================================== *)
(** * Part II: theorems *)
(* ================================================================== *)

(** ** Strings *)

Lemma take_length (n : nat) (s : string) :
  String.length (Str.take n s) = Nat.min n (String.length s).
Proof.
  revert s; induction n as [|n IH]; intros [|c s]; simpl; auto.
Qed.

Lemma take_nonempty (n : nat) (s : string) :
  (0 < n)%nat -> Str.is_empty s = false ->
  (1 <= String.length (Str.take n s) <= n)%nat.
Proof.
  intros Hn Hs. rewrite take_length.
  destruct s as [|c s]; [discriminate|]. simpl. lia.
Qed.

(** ** The signature *)

Lemma signature_field_text (kv : list (string * json)) (k t : string) :
  text_of (Py.assoc k kv) = Some t ->
  signature_field (JObj kv) k = Ok (Str.lower (Str.strip t)).
Proof.
  unfold signature_field, Py.get, Py.get_default, Py.or_, text_of; simpl.
  destruct (Py.assoc k kv) as [v|]; simpl.
  - destruct (Py.truthy v) eqn:Tv.
    + destruct v; try discriminate. intros [= ->]. reflexivity.
    + intros [= <-]. reflexivity.
  - intros [= <-]. reflexivity.
Qed.

(** C2, as the code has it: when each of title, desc and img is missing,
    falsy or a string, [_signature_of] returns the three texts, each
    stripped of surrounding whitespace and then lower-cased, joined with
    the separator and cut at 191 characters; the result has at most 191
    characters; and two dicts that agree on the three keys get the same
    result. *)
Theorem signature_of_stripped_lowered :
  forall (kv kv' : list (string * json)) (t d i : string),
    text_of (Py.assoc "title" kv) = Some t ->
    text_of (Py.assoc "desc" kv) = Some d ->
    text_of (Py.assoc "img" kv) = Some i ->
    (exists sig,
        _signature_of (JObj kv) = Ok sig
        /\ sig = Str.take 191 (Str.lower (Str.strip t) ++ "|"
                               ++ Str.lower (Str.strip d) ++ "|"
                               ++ Str.lower (Str.strip i))
        /\ (String.length sig <= 191)%nat)
    /\ (Py.assoc "title" kv' = Py.assoc "title" kv ->
        Py.assoc "desc" kv' = Py.assoc "desc" kv ->
        Py.assoc "img" kv' = Py.assoc "img" kv ->
        _signature_of (JObj kv') = _signature_of (JObj kv)).
Proof.
  intros kv kv' t d i Ht Hd Hi. split.
  - eexists. split; [|split; [reflexivity|]].
    + unfold _signature_of.
      rewrite (signature_field_text _ _ _ Ht), (signature_field_text _ _ _ Hd),
        (signature_field_text _ _ _ Hi). reflexivity.
    + rewrite take_length. lia.
  - intros Et Ed Ei. unfold _signature_of, signature_field, Py.get, Py.get_default.
    rewrite Et, Ed, Ei. reflexivity.
Qed.

Lemma signature_of_stripped_lowered_witness :
  exists sig,
    _signature_of (JObj [("title", JStr " Soup "); ("img", JNull)]) = Ok sig
    /\ sig = "soup||" /\ (String.length sig <= 191)%nat.
Proof.
  destruct (signature_of_stripped_lowered
              [("title", JStr " Soup "); ("img", JNull)] [] " Soup " "" ""
              eq_refl eq_refl eq_refl) as [[sig [H1 [H2 H3]]] _].
  exists sig. split; [exact H1|]. split; [exact H2|exact H3].
Defined.

(** C2 as worded fails: the title " A" is not only lower-cased, its
    leading blank is removed as well. *)
Lemma signature_of_not_only_lowered :
  _signature_of (JObj [("title", JStr " A")]) = Ok "a||"
  /\ spec_signature (JObj [("title", JStr " A")]) = " a||"
  /\ _signature_of (JObj [("title", JStr " A")])
     <> Ok (spec_signature (JObj [("title", JStr " A")])).
Proof.
  split; [reflexivity|]. split; [reflexivity|]. discriminate.
Qed.

(** ** [int] on text *)

(** [int] skips blanks, U+00A0 included, and takes a sign and single
    underscores between digits; it raises on the separator U+001C, which
    [str.strip] would remove. *)
Example int_of_text :
  Py.int (JStr (String (ascii_of_nat 160) " +1_0 ")) = Ok 10
  /\ Py.int (JStr (String (ascii_of_nat 28) "7")) = Raise ValueError
  /\ Str.strip (String (ascii_of_nat 28) "7") = "7"
  /\ Py.int (JStr "1__0") = Raise ValueError.
Proof. repeat split. Qed.

(** ** Results *)

Lemma rbind_ok {A B} (m : result A) (k : A -> result B) (b : B) :
  rbind m k = Ok b -> exists a, m = Ok a /\ k a = Ok b.
Proof.
  destruct m as [a|e]; simpl; [eauto | discriminate].
Qed.

Ltac bind_ok H :=
  let a := fresh "a" in
  let E := fresh "E" in
  apply rbind_ok in H; destruct H as [a [E H]].

Lemma rmap_ok {A B} (f : A -> result B) (l : list A) (ys : list B) :
  rmap f l = Ok ys -> Forall2 (fun x y => f x = Ok y) l ys.
Proof.
  revert ys; induction l as [|x l IH]; simpl; intros ys H.
  - injection H as <-. constructor.
  - destruct (f x) as [y|] eqn:Fx; [|discriminate].
    destruct (rmap f l) as [ys'|]; [|discriminate].
    injection H as <-. constructor; auto.
Qed.

Lemma Forall_skipn {A} (P : A -> Prop) (n : nat) (l : list A) :
  Forall P l -> Forall P (skipn n l).
Proof.
  intros H. rewrite <- (firstn_skipn n l) in H.
  apply Forall_app in H. tauto.
Qed.

(** ** [/api/suggest] *)

Lemma chars_length (s : string) : List.length (Str.chars s) = String.length s.
Proof. induction s; simpl; auto. Qed.

Lemma first3_items (n : nat) (v first : json) (items : list json) :
  Py.slice_to n v = Ok first -> Py.iter first = Ok items ->
  (List.length items <= n)%nat.
Proof.
  destruct v; simpl; try discriminate; intros [= <-]; simpl; intros [= <-].
  - rewrite length_map, chars_length, take_length. lia.
  - rewrite length_firstn. lia.
Qed.

Lemma slice_or_sized (n : nat) (v x : json) (d : string) :
  (0 < n)%nat -> Str.is_empty d = false ->
  Py.slice_to n (Py.or_ v (JStr d)) = Ok x -> sized 1 n x.
Proof.
  intros Hn Hd. unfold Py.or_.
  destruct (Py.truthy v) eqn:Tv.
  - destruct v; simpl in *; try discriminate; intros [= <-]; unfold sized; simpl.
    + apply take_nonempty; auto. now destruct (Str.is_empty s).
    + destruct l; [discriminate|]. rewrite length_firstn. simpl. lia.
  - simpl. intros [= <-]. unfold sized; simpl. now apply take_nonempty.
Qed.

Lemma candidate_sanitized (r c : json) : candidate r = Ok c -> sanitized c.
Proof.
  unfold candidate. intros H.
  bind_ok H. bind_ok H. bind_ok H. bind_ok H. bind_ok H. bind_ok H.
  bind_ok H. bind_ok H. bind_ok H. bind_ok H.
  injection H as <-.
  repeat eexists.
  - eapply slice_or_sized; [| | eassumption]; [lia | reflexivity].
  - eapply slice_or_sized; [| | eassumption]; [lia | reflexivity].
Qed.

Lemma demo_recipes_sanitized (ings : list string) :
  Forall sanitized (demo_recipes ings).
Proof.
  unfold demo_recipes.
  repeat constructor; repeat eexists; unfold sized; simpl; lia.
Qed.

Lemma demo_recipes_local_bounds (ings : list string) :
  Forall local_bounds (demo_recipes ings).
Proof.
  unfold demo_recipes.
  repeat constructor; eexists _, _; (split; [reflexivity|]);
    (split; [reflexivity|]); lia.
Qed.

Lemma pad_ok (ings : list string) (recs : list json) :
  (List.length recs <= 3)%nat ->
  pad ings recs
  = Ok (recs ++ skipn (List.length recs) (demo_recipes ings))%list.
Proof.
  destruct recs as [|a [|b [|c [|d l]]]]; simpl; intros H;
    try reflexivity; lia.
Qed.

(** What the [try] body returns when it returns. *)
Lemma suggest_remote_ok (ask : provider) (ings : list string) (resp : response) :
  suggest_remote ask ings = Ok resp ->
  exists recs,
    (List.length recs <= 3)%nat
    /\ Forall (fun c => exists r, candidate r = Ok c) recs
    /\ resp = jsonify [("recipes",
                 JArr (recs ++ skipn (List.length recs) (demo_recipes ings))%list)]
                200.
Proof.
  unfold suggest_remote.
  destruct (ask (prompt ings)) as [| |payload]; try discriminate.
  intros H. bind_ok H. bind_ok H. bind_ok H. bind_ok H.
  pose proof (first3_items _ _ _ _ E0 E1) as Hlen.
  apply rmap_ok in E2.
  assert (List.length a2 = List.length a1) as Hl
    by (symmetry; eapply Forall2_length; eauto).
  rewrite pad_ok in H by lia. simpl in H. injection H as <-.
  exists a2. split; [lia|]. split; [|reflexivity].
  clear -E2. induction E2; constructor; eauto.
Qed.

(** The shape of every answer to a request that has ingredients. *)
Lemma suggest_shape (client : option provider) (request_body : option json)
    (ings : list string) :
  ingredients_of (get_json_silent request_body) = Ok ings -> ings <> [] ->
  exists recs,
    (List.length recs <= 3)%nat
    /\ Forall (fun c => exists r, candidate r = Ok c) recs
    /\ suggest client request_body
       = Ok (jsonify [("recipes",
                 JArr (recs ++ skipn (List.length recs) (demo_recipes ings))%list)]
               200)
    /\ (client = None -> recs = [])
    /\ (forall ask e, client = Some ask ->
                      suggest_remote ask ings = Raise e -> recs = []).
Proof.
  intros Hi Hne. unfold suggest. rewrite Hi. simpl.
  destruct ings as [|i0 ings']; [congruence|].
  destruct client as [ask|].
  - destruct (suggest_remote ask (i0 :: ings')) as [resp|e] eqn:R.
    + destruct (suggest_remote_ok _ _ _ R) as [recs [Hl [Hc ->]]].
      exists recs. repeat split; auto; try discriminate.
      intros ask' e' [= <-]. congruence.
    + exists []. repeat split; auto.
  - exists []. repeat split; auto.
Qed.

(** C4: a request whose ingredient list is not empty after trimming and
    filtering gets a 200 response with exactly three candidates, and no
    exception leaves the handler.  Without a client the three are the local
    ones; when anything inside the [try] raises (the call, the parsing, a
    malformed payload) the three are the local ones; otherwise they are the
    candidates built from the provider's recipes followed by the local ones
    at the remaining positions. *)
Theorem suggest_always_three :
  forall (client : option provider) (request_body : option json)
         (ings : list string),
    ingredients_of (get_json_silent request_body) = Ok ings -> ings <> [] ->
    exists c1 c2 c3,
      suggest client request_body
      = Ok (jsonify [("recipes", JArr [c1; c2; c3])] 200)
      /\ (client = None -> [c1; c2; c3] = demo_recipes ings)
      /\ (forall ask e, client = Some ask ->
                        suggest_remote ask ings = Raise e ->
                        [c1; c2; c3] = demo_recipes ings)
      /\ (exists recs,
             Forall (fun c => exists r, candidate r = Ok c) recs
             /\ [c1; c2; c3]
                = (recs ++ skipn (List.length recs) (demo_recipes ings))%list).
Proof.
  intros client request_body ings Hi Hne.
  destruct (suggest_shape client request_body ings Hi Hne)
    as [recs [Hl [Hc [Hs [Hn Hr]]]]].
  assert (exists c1 c2 c3,
             (recs ++ skipn (List.length recs) (demo_recipes ings))%list
             = [c1; c2; c3]) as [c1 [c2 [c3 E]]].
  { destruct recs as [|a [|b [|c [|d l]]]]; simpl in *;
      try (eexists _, _, _; reflexivity); lia. }
  exists c1, c2, c3. rewrite Hs, E. split; [reflexivity|].
  split; [|split].
  - intros Hc0. rewrite <- E, (Hn Hc0). reflexivity.
  - intros ask e Hc0 He. rewrite <- E, (Hr ask e Hc0 He). reflexivity.
  - exists recs. split; [assumption | now rewrite E].
Qed.

Lemma suggest_always_three_witness :
  exists c1 c2 c3,
    suggest (Some careless_provider) egg_request
    = Ok (jsonify [("recipes", JArr [c1; c2; c3])] 200).
Proof.
  destruct (suggest_always_three (Some careless_provider) egg_request ["egg"]
              eq_refl ltac:(discriminate)) as [c1 [c2 [c3 [H _]]]].
  exists c1, c2, c3. exact H.
Defined.

(** C3, as the code has it: each of the three candidates has integer time
    and serves, a title of 1 to 200 items and a level of 1 to 16 items (a
    string, or a list when the provider sent a list).  Only the local
    candidates are within a range (18 to 28 minutes, 2 or 3 served): a
    candidate built from the provider's response has its time and serves
    converted to integers and nothing more. *)
Theorem suggest_candidates_sanitized :
  forall (client : option provider) (request_body : option json)
         (ings : list string),
    ingredients_of (get_json_silent request_body) = Ok ings -> ings <> [] ->
    exists cands,
      recipes_of (suggest client request_body) = Some cands
      /\ List.length cands = 3%nat
      /\ Forall sanitized cands
      /\ Forall (fun c => local_bounds c \/ exists r, candidate r = Ok c) cands
      /\ (client = None -> Forall local_bounds cands).
Proof.
  intros client request_body ings Hi Hne.
  destruct (suggest_shape client request_body ings Hi Hne)
    as [recs [Hl [Hc [Hs [Hn _]]]]].
  exists (recs ++ skipn (List.length recs) (demo_recipes ings))%list.
  rewrite Hs. split; [reflexivity|].
  pose proof (demo_recipes_sanitized ings) as Hd.
  pose proof (demo_recipes_local_bounds ings) as Hb.
  split; [|split; [|split]].
  - rewrite length_app, length_skipn.
    change (List.length (demo_recipes ings)) with 3%nat. lia.
  - apply Forall_app. split.
    + eapply Forall_impl; [|exact Hc]. intros c [r Hr].
      eapply candidate_sanitized; eauto.
    + now apply Forall_skipn.
  - apply Forall_app. split.
    + eapply Forall_impl; [|exact Hc]. intros; now right.
    + apply Forall_skipn. eapply Forall_impl; [|exact Hb]. intros; now left.
  - intros Hc0. rewrite (Hn Hc0). simpl. exact Hb.
Qed.

Lemma suggest_candidates_sanitized_witness :
  exists cands,
    recipes_of (suggest (Some careless_provider) egg_request) = Some cands
    /\ Forall sanitized cands.
Proof.
  destruct (suggest_candidates_sanitized (Some careless_provider) egg_request
              ["egg"] eq_refl ltac:(discriminate)) as [cands [H [_ [Hs _]]]].
  exists cands. split; [exact H | exact Hs].
Defined.

(** C3 as worded fails: with a client whose reply holds a recipe with
    serves -1 and time -5, the first candidate returned for the
    ingredients ["egg"] keeps both values, so not every candidate serves at
    least one. *)
Lemma suggest_serves_not_clamped :
  exists c rest,
    recipes_of (suggest (Some careless_provider) egg_request) = Some (c :: rest)
    /\ int_field c "serves" = Some (-1)
    /\ int_field c "time" = Some (-5)
    /\ ~ Forall serves_at_least_one (c :: rest).
Proof.
  eexists _, _. split; [reflexivity|]. split; [reflexivity|].
  split; [reflexivity|].
  intros H. inversion H as [|? ? [s [Hs Hle]] _]; subst.
  cbv in Hs. injection Hs as <-. lia.
Qed.

(** ** Tables as lists *)

Lemma NoDup_snoc {A} (l : list A) (x : A) :
  NoDup l -> ~ In x l -> NoDup (l ++ [x]).
Proof.
  intros Hl Hx. apply NoDup_app; [assumption | repeat constructor; auto |].
  intros a Ha [<-|[]]. contradiction.
Qed.

Lemma find_none_key {A K} (f : A -> K) (eqb : K -> K -> bool) (k : K)
    (l : list A) :
  (forall a b, eqb a b = true <-> a = b) ->
  find (fun x => eqb (f x) k) l = None -> ~ In k (map f l).
Proof.
  intros Heq Hf Hin. apply in_map_iff in Hin as [x [Hx Hin]].
  pose proof (find_none _ _ Hf x Hin) as Hn. simpl in Hn.
  apply Heq in Hx. congruence.
Qed.

Lemma find_some_key {A K} (f : A -> K) (eqb : K -> K -> bool) (k : K)
    (l : list A) :
  (forall a b, eqb a b = true <-> a = b) ->
  In k (map f l) -> exists x, find (fun x => eqb (f x) k) l = Some x.
Proof.
  intros Heq Hin. destruct (find (fun x => eqb (f x) k) l) eqn:F; [eauto|].
  exfalso. eapply find_none_key; eauto.
Qed.

Lemma find_key_eq {A K} (f : A -> K) (eqb : K -> K -> bool) (k : K)
    (l : list A) (x : A) :
  (forall a b, eqb a b = true <-> a = b) ->
  find (fun x => eqb (f x) k) l = Some x -> In x l /\ f x = k.
Proof.
  intros Heq Hf. apply find_some in Hf as [Hin Hx]. split; [assumption|].
  now apply Heq.
Qed.

(** In a table without the key, the appended row is the one found. *)
Lemma find_snoc {A} (p : A -> bool) (l : list A) (x : A) :
  find p l = None -> p x = true -> find p (l ++ [x]) = Some x.
Proof.
  induction l as [|y l IH]; simpl; intros Hn Hx.
  - now rewrite Hx.
  - destruct (p y); [discriminate | auto].
Qed.

(** A row found in a table is still the one found after an append. *)
Lemma find_app_some {A} (p : A -> bool) (l l' : list A) (x : A) :
  find p l = Some x -> find p (l ++ l') = Some x.
Proof.
  induction l as [|y l IH]; simpl; [discriminate|].
  destruct (p y); auto.
Qed.

Lemma find_app_none {A} (p : A -> bool) (l : list A) (x : A) :
  find p l = None -> p x = false -> find p (l ++ [x]) = None.
Proof.
  induction l as [|y l IH]; simpl; intros Hn Hx.
  - now rewrite Hx.
  - destruct (p y); [discriminate | auto].
Qed.

Lemma max_bound (ids : list Z) (i : Z) :
  In i ids -> i <= fold_right Z.max 0 ids.
Proof.
  induction ids as [|j ids IH]; simpl; [tauto|].
  intros [->|H]; [lia|]. specialize (IH H). lia.
Qed.

Lemma next_id_fresh (ids : list Z) : ~ In (next_id ids) ids.
Proof.
  intros H. apply max_bound in H. unfold next_id in H. lia.
Qed.

Lemma next_id_not_found {A} (f : A -> Z) (l : list A) :
  find (fun x => f x =? next_id (map f l)) l = None.
Proof.
  destruct (find (fun x => f x =? next_id (map f l)) l) eqn:F; [|reflexivity].
  apply (find_key_eq f Z.eqb _ _ _ Z.eqb_eq) in F as [Hin Hx].
  exfalso. apply (next_id_fresh (map f l)). rewrite <- Hx. now apply in_map.
Qed.

Lemma is_link_pair (d r : Z) (l : SavedRecipe.t) :
  is_link d r l = true <-> link_pair l = (d, r).
Proof.
  unfold is_link, link_pair. rewrite andb_true_iff, !Z.eqb_eq.
  split; [intros [-> ->]; reflexivity | intros [= -> ->]; auto].
Qed.

Lemma find_link_none (db : database) (d r : Z) :
  find_link db d r = None -> ~ In (d, r) (map link_pair (saved_recipes db)).
Proof.
  unfold find_link. intros Hf Hin.
  apply in_map_iff in Hin as [l [Hl Hin]].
  pose proof (find_none _ _ Hf l Hin) as Hn.
  apply is_link_pair in Hl. congruence.
Qed.

(** ** Inserts keep the store well formed *)

Lemma recipe_row_ok (now : Z) (r : json) (sig : string) (i : Z) (row : Recipe.t) :
  recipe_row now r sig i = Ok row ->
  Recipe.id row = i /\ Recipe.signature row = sig.
Proof.
  unfold recipe_row. intros H.
  bind_ok H. bind_ok H. bind_ok H. bind_ok H. bind_ok H. bind_ok H.
  injection H as <-. auto.
Qed.

Lemma wf_empty : wf empty_database.
Proof. constructor; simpl; try constructor; intros l []. Qed.

(** An INSERT only appends. *)
Lemma insert_grows (now : Z) (x : transient) (db db' : database) (i : Z) :
  insert now x db = Ok (i, db') ->
  (exists l, devices db' = devices db ++ l)%list
  /\ (exists l, recipes db' = recipes db ++ l)%list.
Proof.
  destruct x as [v|r sig|d r|n e h]; simpl; intros H.
  - bind_ok H. destruct (find_device db a); [discriminate|].
    injection H as <- <-. simpl. split; [eauto|].
    exists []. now rewrite app_nil_r.
  - bind_ok H. destruct (find_recipe db sig); [discriminate|].
    injection H as <- <-. simpl. split; [|eauto].
    exists []. now rewrite app_nil_r.
  - destruct (find_link db d r); [discriminate|].
    injection H as <- <-. simpl. split; exists []; now rewrite app_nil_r.
  - destruct (find_user db e); [discriminate|].
    injection H as <- <-. simpl. split; exists []; now rewrite app_nil_r.
Qed.

Lemma valid_in_grows (db db' : database) (y : transient) :
  (exists l, devices db' = devices db ++ l)%list ->
  (exists l, recipes db' = recipes db ++ l)%list ->
  valid_in db y -> valid_in db' y.
Proof.
  intros [ld Hd] [lr Hr]. destruct y; simpl; auto.
  rewrite Hd, Hr, !map_app. intros [H1 H2].
  split; apply in_or_app; now left.
Qed.

Lemma insert_wf (now : Z) (x : transient) (db db' : database) (i : Z) :
  wf db -> valid_in db x -> insert now x db = Ok (i, db') ->
  wf db' /\ (forall y, valid_in db y -> valid_in db' y).
Proof.
  intros W Hv H. split.
  2:{ destruct (insert_grows _ _ _ _ _ H). intros y.
      now apply valid_in_grows. }
  destruct W as [W1 W2 W3 W4 W5 W6 W7].
  destruct x as [v|r sig|d r|n e h]; simpl in H.
  - bind_ok H. destruct (find_device db a) eqn:F; [discriminate|].
    injection H as <- <-.
    constructor; simpl; auto; try rewrite map_app; simpl.
    + apply NoDup_snoc; auto. apply next_id_fresh.
    + apply NoDup_snoc; auto.
      eapply (find_none_key Device.device_id String.eqb); eauto.
      apply String.eqb_eq.
    + intros l Hl. apply in_or_app. left. auto.
  - bind_ok H. destruct (find_recipe db sig) eqn:F; [discriminate|].
    injection H as <- <-. apply recipe_row_ok in E as [Ei Es].
    constructor; simpl; auto; try rewrite map_app; simpl.
    + apply NoDup_snoc; auto. rewrite Ei. apply next_id_fresh.
    + apply NoDup_snoc; auto. rewrite Es.
      eapply (find_none_key Recipe.signature String.eqb); eauto.
      apply String.eqb_eq.
    + intros l Hl. apply in_or_app. left. auto.
  - destruct (find_link db d r) eqn:F; [discriminate|].
    injection H as <- <-. destruct Hv as [Hd Hr].
    constructor; simpl; auto.
    + rewrite map_app; simpl; apply NoDup_snoc; auto.
      now apply find_link_none.
    + intros l Hl. apply in_app_or in Hl as [Hl|[<-|[]]]; simpl; auto.
    + intros l Hl. apply in_app_or in Hl as [Hl|[<-|[]]]; simpl; auto.
  - destruct (find_user db e) eqn:F; [discriminate|].
    injection H as <- <-. constructor; simpl; auto.
Qed.

(** ** Rules of the handler logic *)

Section Rules.

Context {A B : Type}.
Implicit Types (P E : session -> Prop).

Lemma hoare_ret P (a : A) (Q : A -> session -> Prop) E :
  (forall s, P s -> Q a s) -> hoare P (ret a) Q E.
Proof. intros H s Hs. simpl. auto. Qed.

Lemma hoare_bind P (m : M A) (k : A -> M B) (R : A -> session -> Prop)
    (Q : B -> session -> Prop) E :
  hoare P m R E -> (forall a, hoare (R a) (k a) Q E) ->
  hoare P (bind m k) Q E.
Proof.
  intros Hm Hk s Hs. unfold bind. specialize (Hm s Hs).
  destruct (m s) as [[a|e] s']; [|assumption].
  apply (Hk a s' Hm).
Qed.

Lemma hoare_lift P (r : result A) (Q : A -> session -> Prop) E :
  (forall s a, P s -> r = Ok a -> Q a s) -> (forall s, P s -> E s) ->
  hoare P (lift r) Q E.
Proof.
  intros HQ HE s Hs. unfold lift. destruct r; [eapply HQ | apply HE]; eauto.
Qed.

Lemma hoare_try P (m : M A) (h : exn -> M A) (Q : A -> session -> Prop)
    (E' E : session -> Prop) :
  hoare P m Q E' -> (forall e, hoare E' (h e) Q E) ->
  hoare P (try_except m h) Q E.
Proof.
  intros Hm Hh s Hs. unfold try_except. specialize (Hm s Hs).
  destruct (m s) as [[a|e] s']; [assumption|].
  apply (Hh e s' Hm).
Qed.

Lemma hoare_weaken P P' (m : M A) (Q Q' : A -> session -> Prop) E E' :
  hoare P m Q E -> (forall s, P' s -> P s) ->
  (forall a s, Q a s -> Q' a s) -> (forall s, E s -> E' s) ->
  hoare P' m Q' E'.
Proof.
  intros Hm HP HQ HE s Hs. specialize (Hm s (HP s Hs)).
  destruct (m s) as [[a|e] s']; auto.
Qed.

Lemma hoare_query P (f : database -> A) E :
  hoare P (query f) (fun a s => P s /\ a = f (work s)) E.
Proof. intros s Hs. simpl. auto. Qed.

Lemma hoare_query_result P (f : database -> result A) :
  hoare P (query_result f) (fun a s => P s /\ f (work s) = Ok a) P.
Proof.
  intros s Hs. unfold query_result. destruct (f (work s)) eqn:F; auto.
Qed.

Lemma hoare_only P (l : list A) : hoare P (only l) (fun _ => P) P.
Proof.
  intros s Hs. destruct l as [|x [|y l]]; simpl; auto.
Qed.

Lemma hoare_refresh P (get : database -> Z -> option A) (id : Z) :
  hoare P (refresh get id) (fun a s => P s /\ get (work s) id = Some a) P.
Proof.
  intros s Hs. unfold refresh, bind, query. simpl.
  destruct (get (work s) id) eqn:G; simpl; auto.
Qed.

End Rules.

(** Filtering a table keeps a unique column unique. *)
Lemma unique_after_filter {A K} (key : A -> K) (keep : A -> bool) :
  forall rows : list A,
    NoDup (map key rows) -> NoDup (map key (filter keep rows)).
Proof.
  intros rows. induction rows as [|row rows IH]; simpl; intros Hn.
  - constructor.
  - apply NoDup_cons_iff in Hn as [Hrow Hrows].
    destruct (keep row); simpl; [|now apply IH].
    apply NoDup_cons_iff. split; [|now apply IH].
    rewrite in_map_iff. intros [other [Hk Hin]].
    apply filter_In in Hin as [Hin _].
    apply Hrow. rewrite <- Hk. now apply in_map.
Qed.

Lemma wf_without_links (gone : SavedRecipe.t -> bool) (db : database) :
  wf db -> wf (without_links gone db).
Proof.
  intros [V1 V2 V3 V4 V5 V6 V7]. constructor; simpl; auto.
  - now apply unique_after_filter.
  - intros l Hl. apply filter_In in Hl as [Hl _]. auto.
  - intros l Hl. apply filter_In in Hl as [Hl _]. auto.
Qed.

Lemma hoare_pre {A} (P P' : session -> Prop) (m : M A)
    (Q : A -> session -> Prop) (E : session -> Prop) :
  hoare P m Q E -> (forall s, P' s -> P s) -> hoare P' m Q E.
Proof. intros H HP. eapply hoare_weaken; eauto. Qed.

Lemma hoare_post {A} (P : session -> Prop) (m : M A)
    (Q Q' : A -> session -> Prop) (E : session -> Prop) :
  hoare P m Q E -> (forall a s, Q a s -> Q' a s) -> hoare P m Q' E.
Proof. intros H HQ. eapply hoare_weaken; eauto. Qed.

Lemma hoare_query_device (v : json) (P : session -> Prop) :
  hoare P (query_device v)
    (fun d s => P s /\ forall x, d = Some x -> In x (devices (work s))) P.
Proof.
  intros s Hs.
  assert (forall key,
             P s /\ forall x, find_device (work s) key = Some x ->
                              In x (devices (work s))) as G.
  { intros key. split; [assumption|]. intros x Hx.
    apply find_some in Hx. tauto. }
  unfold query_device, bind, lift, query.
  destruct v; simpl; auto; try (split; [assumption | discriminate]).
  destruct (bind_int z); simpl; auto.
Qed.

(** ** The handlers keep an invariant of the store *)

Section Invariant.

Variable J : database -> Prop.
Variable V : database -> transient -> Prop.

Hypothesis J_insert :
  forall now x db db' i,
    J db -> V db x -> insert now x db = Ok (i, db') ->
    J db' /\ (forall y, V db y -> V db' y).
Hypothesis J_delete : forall gone db, J db -> J (without_links gone db).
Hypothesis V_delete :
  forall gone db y, V db y -> V (without_links gone db) y.
Hypothesis V_device : forall db v, V db (NewDevice v).
Hypothesis V_recipe : forall db r sig, V db (NewRecipe r sig).


Lemma flush_inv (now : Z) (xs : list transient) :
  forall (db db' : database) (ids : list Z),
    J db -> Forall (V db) xs -> flush now xs db = Ok (ids, db') -> J db'.
Proof.
  induction xs as [|x xs IH]; simpl; intros db db' ids W Vs H.
  - now injection H as _ <-.
  - inversion Vs as [|? ? Vx Vxs]; subst.
    bind_ok H. bind_ok H. injection H as _ <-.
    destruct a as [i db1]. destruct a0 as [ids' db2]. simpl in *.
    destruct (J_insert _ _ _ _ _ W Vx E) as [W1 Hmono].
    eapply IH; [exact W1 | | exact E0].
    eapply Forall_impl; [|exact Vxs]. auto.
Qed.

Lemma hoare_add (x : transient) (E : session -> Prop) :
  hoare (fun s => (inv J V) s /\ V (work s) x) (add x) (fun _ => (inv J V)) E.
Proof.
  intros s [[W1 [W2 Vs]] Vx]. simpl. split; [|split]; simpl; auto.
  apply Forall_app. split; auto.
Qed.

Lemma hoare_commit (now : Z) : hoare (inv J V) (commit now) (fun _ => (inv J V)) (inv J V).
Proof.
  intros s [W1 [W2 Vs]]. unfold commit.
  destruct (flush now (pending s) (work s)) as [[ids db]|e] eqn:F.
  - pose proof (flush_inv _ _ _ _ _ W2 Vs F) as W.
    split; [|split]; simpl; auto.
  - split; [|split]; auto.
Qed.

Lemma hoare_rollback (E : session -> Prop) : hoare (inv J V) rollback (fun _ => (inv J V)) E.
Proof.
  intros s [W1 _]. simpl. split; [|split]; simpl; auto.
Qed.

Lemma hoare_delete_links (d : Z) (E : session -> Prop) :
  hoare (inv J V) (delete_links d) (fun _ => (inv J V)) E.
Proof.
  intros s [W1 [W2 Vs]]. simpl. split; [|split]; simpl; auto.
  - apply (J_delete (fun l => SavedRecipe.device_id_fk l =? d) _ W2).
  - eapply Forall_impl; [|exact Vs]. intros y.
    apply (V_delete (fun l => SavedRecipe.device_id_fk l =? d)).
Qed.

(** Add, commit, take the key, read the row back, go on. *)
Lemma persist_inv {A B} (now : Z) (x : transient)
    (get : database -> Z -> option A) (k : A -> M B)
    (P : session -> Prop) (Q : B -> session -> Prop) :
  (forall s, P s -> (inv J V) s /\ V (work s) x) ->
  (forall a,
      hoare (fun s => (inv J V) s /\ exists i, get (work s) i = Some a) (k a) Q (inv J V)) ->
  hoare P
    (add x ;; ids <- commit now ;; i <- only ids ;; a <- refresh get i ;; k a)
    Q (inv J V).
Proof.
  intros HP Hk.
  eapply hoare_bind; [eapply hoare_pre; [apply hoare_add | exact HP]|].
  intros ?. eapply hoare_bind; [apply hoare_commit|].
  intros ids. eapply hoare_bind; [apply hoare_only|].
  intros i. eapply hoare_bind; [apply hoare_refresh|].
  intros row. eapply hoare_pre; [apply Hk|].
  simpl. intros s [Hs Hg]. eauto.
Qed.

Lemma ensure_device_inv (now : Z) (v : json) :
  hoare (inv J V) (_ensure_device now v) (fun _ => (inv J V)) (inv J V).
Proof.
  unfold _ensure_device. destruct (negb (Py.truthy v)).
  - apply hoare_ret; auto.
  - eapply hoare_bind; [apply hoare_query_device|].
    intros [d|].
    + apply hoare_ret. tauto.
    + apply persist_inv.
      * simpl. intros s [Hs _]. split; [exact Hs | apply V_device].
      * intros d. apply hoare_ret. tauto.
Qed.

Lemma resolve_recipe_inv (now : Z) (r : json) (sig : string) :
  hoare (inv J V) (resolve_recipe now r sig)
    (fun rec s => (inv J V) s /\ In rec (recipes (work s))) (inv J V).
Proof.
  unfold resolve_recipe.
  eapply hoare_bind; [apply hoare_query|].
  intros [rec|].
  - apply hoare_ret. intros s [Hs Hf]. split; [assumption|].
    symmetry in Hf. now apply find_some in Hf as [Hf _].
  - eapply hoare_bind;
      [eapply hoare_pre; [apply hoare_add|]; simpl; intros s [Hs _]; split;
       [exact Hs | apply V_recipe]|].
    intros ?. eapply hoare_bind; [apply hoare_commit|].
    intros ids. eapply hoare_bind; [apply hoare_only|].
    intros i. eapply hoare_post; [apply hoare_refresh|].
    simpl. intros rec s [Hs Hg]. split; [assumption|].
    unfold get_recipe in Hg. now apply find_some in Hg as [Hg _].
Qed.

(** The part of the handler that knows the device row. *)
Section Device.

Variable d0 : Device.t.
Hypothesis V_link :
  forall db rec,
    J db -> In rec (recipes db) ->
    V db (NewSavedRecipe (Device.id d0) (Recipe.id rec)).

Lemma resolve_link_inv (now : Z) (rec : Recipe.t) :
  hoare (fun s => (inv J V) s /\ In rec (recipes (work s)))
    (resolve_link now d0 rec) (fun _ => (inv J V)) (inv J V).
Proof.
  unfold resolve_link, insert_link.
  eapply hoare_bind; [apply hoare_query|].
  intros [l|].
  - apply hoare_ret. tauto.
  - eapply hoare_bind;
      [eapply hoare_pre; [apply hoare_add|]; simpl; intros s [[Hs Hin] _];
       split; [exact Hs | apply V_link; [apply Hs | exact Hin]]|].
    intros ?. eapply hoare_bind; [apply hoare_commit|].
    intros ?. apply hoare_ret. auto.
Qed.

Lemma save_except_inv (str_exn : wording) (e : exn) :
  hoare (inv J V) (save_except str_exn e) (fun _ => (inv J V)) (inv J V).
Proof.
  destruct e; simpl;
    (eapply hoare_bind; [apply hoare_rollback | intros ?; apply hoare_ret; auto]).
Qed.

Lemma save_try_inv (str_exn : wording) (now : Z) (r : json) (sig : string) :
  hoare (inv J V) (save_try str_exn now d0 r sig) (fun _ => (inv J V))
    (inv J V).
Proof.
  unfold save_try. eapply hoare_try; [|apply save_except_inv].
  eapply hoare_bind; [apply resolve_recipe_inv|].
  intros rec. apply resolve_link_inv.
Qed.

(** Lines 194-224: what follows [_ensure_device] in the handler. *)
Lemma save_rest_inv (str_exn : wording) (now : Z) (recipe_in : json) :
  hoare (inv J V)
    (r <- lift (recipe_of recipe_in) ;;
     sig <- lift (_signature_of r) ;;
     save_try str_exn now d0 r sig)
    (fun _ => (inv J V)) (inv J V).
Proof.
  eapply hoare_bind; [apply hoare_lift with (Q := fun _ => (inv J V)); auto|].
  intros r. eapply hoare_bind; [apply hoare_lift with (Q := fun _ => (inv J V)); auto|].
  intros sig. apply save_try_inv.
Qed.

End Device.

Lemma clear_saved_inv (now : Z) (request_body : option json) :
  hoare (inv J V) (clear_saved now request_body) (fun _ => (inv J V)) (inv J V).
Proof.
  unfold clear_saved.
  eapply hoare_bind; [apply hoare_lift with (Q := fun _ => (inv J V)); auto|].
  intros v. destruct (negb (Py.truthy v)).
  - apply hoare_ret; auto.
  - eapply hoare_bind; [apply hoare_query_device|].
    intros [d|].
    + eapply hoare_bind;
        [eapply hoare_pre; [apply hoare_delete_links | tauto]|].
      intros n. eapply hoare_bind; [apply hoare_commit|].
      intros ?. apply hoare_ret; auto.
    + apply hoare_ret. tauto.
Qed.

Lemma inv_open (db : database) : J db -> (inv J V) (open_session db).
Proof. intros W. split; [|split]; simpl; auto. Qed.

End Invariant.

(** *** Well-formedness is such an invariant *)

Lemma hoare_conj {A} (P P' : session -> Prop) (m : M A)
    (Q Q' : A -> session -> Prop) (E E' : session -> Prop) :
  hoare P m Q E -> hoare P' m Q' E' ->
  hoare (fun s => P s /\ P' s) m (fun a s => Q a s /\ Q' a s)
    (fun s => E s /\ E' s).
Proof.
  intros H H' s [Hs Hs']. specialize (H s Hs). specialize (H' s Hs').
  destruct (m s) as [[a|e] s']; auto.
Qed.

Lemma wf_with_insert (d : Device.t) (now : Z) (x : transient)
    (db db' : database) (i : Z) :
  wf_with d db -> valid_in db x -> insert now x db = Ok (i, db') ->
  wf_with d db' /\ (forall y, valid_in db y -> valid_in db' y).
Proof.
  intros [W Hd] Hv H. destruct (insert_wf _ _ _ _ _ W Hv H) as [W' Hm].
  split; [|exact Hm]. split; [exact W'|].
  destruct (insert_grows _ _ _ _ _ H) as [[l ->] _].
  apply in_or_app. now left.
Qed.

Lemma valid_in_without_links (gone : SavedRecipe.t -> bool) (db : database)
    (y : transient) :
  valid_in db y -> valid_in (without_links gone db) y.
Proof. destruct y; simpl; auto. Qed.

(** A commit leaves the transaction equal to the store. *)
Lemma commit_synced (now : Z) :
  hoare (fun _ => True) (commit now) (fun _ s => work s = store s)
    (fun _ => True).
Proof.
  intros s _. unfold commit.
  destruct (flush now (pending s) (work s)) as [[ids db]|e]; simpl; auto.
Qed.

(** The row [_ensure_device] returns is in the store. *)
Lemma ensure_device_member (now : Z) (v : json) :
  hoare (fun s => work s = store s) (_ensure_device now v)
    (fun d s => work s = store s
                /\ forall x, d = Some x -> In x (devices (store s)))
    (fun _ => True).
Proof.
  intros s Hs. unfold _ensure_device.
  destruct (negb (Py.truthy v)); simpl; [split; [assumption | discriminate]|].
  unfold bind.
  pose proof (hoare_query_device v (fun s => work s = store s) s Hs) as Hq.
  destruct (query_device v s) as [[[d|]|e] s1]; simpl in *; auto.
  - destruct Hq as [Hs1 Hin]. split; [assumption|].
    intros x [= <-]. rewrite <- Hs1. now apply Hin.
  - unfold commit; simpl.
    destruct (flush now (pending s1 ++ [NewDevice v]) (work s1))
      as [[ids db]|e]; simpl; auto.
    destruct ids as [|i [|i' ids]]; simpl; auto.
    unfold refresh, bind, query; simpl.
    destruct (get_device db i) as [d|] eqn:G; simpl; auto.
    split; [reflexivity|]. intros x [= <-].
    unfold get_device in G. now apply find_some in G as [G _].
Qed.

Lemma save_wf (str_exn : wording) (now : Z) (request_body : option json) :
  hoare (fun s => inv wf valid_in s /\ work s = store s)
    (save str_exn now request_body) (fun _ => inv wf valid_in) (inv wf valid_in).
Proof.
  set (P := fun s => inv wf valid_in s /\ work s = store s).
  assert (forall s, P s -> inv wf valid_in s) as HP by (intros s H; apply H).
  unfold save. destruct (get_json_force request_body) as [payload|e].
  2:{ apply hoare_ret; auto. }
  eapply hoare_bind; [apply hoare_lift with (Q := fun _ => P); auto|].
  intros v. eapply hoare_bind; [apply hoare_lift with (Q := fun _ => P); auto|].
  intros rin. eapply hoare_bind.
  { eapply hoare_weaken.
    - apply hoare_conj;
        [apply (ensure_device_inv wf valid_in insert_wf) with (now := now) (v := v);
         intros; exact I
        | apply ensure_device_member with (now := now) (v := v)].
    - intros s Hs. exact Hs.
    - intros a s Hs. exact Hs.
    - simpl. tauto. }
  intros [d|]; [|apply hoare_ret; tauto].
  eapply hoare_weaken.
  - apply (save_rest_inv (wf_with d) valid_in (wf_with_insert d)) with (d0 := d).
    + intros; exact I.
    + intros db rec [W Hd] Hr. simpl. split; now apply in_map.
  - simpl. intros s [[W1 [W2 Vs]] [Hs Hd]]. specialize (Hd d eq_refl).
    split; [|split]; try split; auto. now rewrite Hs.
  - intros ? s [[W1 _] [[W2 _] Vs]]. split; [|split]; auto.
  - intros s [[W1 _] [[W2 _] Vs]]. split; [|split]; auto.
Qed.

Lemma clear_saved_wf (now : Z) (request_body : option json) :
  hoare (inv wf valid_in) (clear_saved now request_body)
    (fun _ => inv wf valid_in) (inv wf valid_in).
Proof.
  apply (clear_saved_inv wf valid_in insert_wf).
  - intros gone db. apply wf_without_links.
  - intros gone db y. apply valid_in_without_links.
Qed.

Lemma run_request_wf {A} (h : M A) (db : database) :
  hoare (fun s => inv wf valid_in s /\ work s = store s) h
    (fun _ => inv wf valid_in) (inv wf valid_in) ->
  wf db -> wf (fst (run_request h db)).
Proof.
  intros Hh W. unfold run_request.
  specialize (Hh (open_session db)
                (conj (inv_open wf valid_in db W) eq_refl)).
  destruct (h (open_session db)) as [[a|e] s]; simpl; apply Hh.
Qed.

Lemma serve_wf (rq : request) (db : database) : wf db -> wf (serve rq db).
Proof.
  destruct rq; simpl; apply run_request_wf.
  - apply save_wf.
  - eapply hoare_pre; [apply clear_saved_wf | tauto].
Qed.

Lemma serve_all_wf (rqs : list request) :
  forall db, wf db -> wf (serve_all rqs db).
Proof.
  induction rqs as [|rq rqs IH]; simpl; intros db W; [assumption|].
  apply IH. now apply serve_wf.
Qed.

(** ** The save flow on the open session of a request *)

Lemma get_new_row {A} (f : A -> Z) (l : list A) (x : A) :
  f x = next_id (map f l) ->
  find (fun y => f y =? next_id (map f l)) (l ++ [x]) = Some x.
Proof.
  intros Hx. apply find_snoc; [apply next_id_not_found|].
  rewrite Hx. apply Z.eqb_refl.
Qed.

Lemma ensure_device_run (now : Z) (k : string) (db : database) :
  Str.is_empty k = false ->
  _ensure_device now (JStr k) (open_session db)
  = (Ok (Some (fst (with_device now k db))),
     open_session (snd (with_device now k db))).
Proof.
  intros Hk. unfold _ensure_device, with_device. simpl. rewrite Hk. simpl.
  unfold bind, lift, query. simpl.
  destruct (find_device db k) as [d|] eqn:F; simpl; [reflexivity|].
  unfold commit. simpl. rewrite F. simpl.
  unfold refresh, bind, query, get_device. simpl.
  rewrite (get_new_row Device.id); reflexivity.
Qed.

Lemma resolve_recipe_run (now : Z) (r : json) (sig : string)
    (db db' : database) (rec : Recipe.t) :
  with_recipe now r sig db = Ok (rec, db') ->
  resolve_recipe now r sig (open_session db) = (Ok rec, open_session db').
Proof.
  unfold with_recipe, resolve_recipe, bind, query. simpl.
  destruct (find_recipe db sig) as [x|] eqn:F; simpl.
  - now intros [= <- <-].
  - intros H. bind_ok H. injection H as <- <-.
    unfold commit. simpl. rewrite E, F. simpl.
    unfold refresh, bind, query, get_recipe. simpl.
    destruct (recipe_row_ok _ _ _ _ _ E) as [Ei _].
    rewrite (get_new_row Recipe.id _ _ Ei). reflexivity.
Qed.

Lemma resolve_recipe_raise (now : Z) (r : json) (sig : string)
    (db : database) (e : exn) :
  with_recipe now r sig db = Raise e ->
  resolve_recipe now r sig (open_session db)
  = (Raise e, Session db db [NewRecipe r sig]).
Proof.
  unfold with_recipe, resolve_recipe, bind, query. simpl.
  destruct (find_recipe db sig) as [x|] eqn:F; simpl; [discriminate|].
  destruct (recipe_row now r sig _) as [row|e'] eqn:E; simpl; [discriminate|].
  intros [= ->]. unfold commit. simpl. rewrite E. reflexivity.
Qed.

Lemma resolve_link_run (now : Z) (d : Device.t) (rec : Recipe.t)
    (db : database) :
  resolve_link now d rec (open_session db)
  = (Ok (saved_response
           (fst (with_link now (Device.id d) (Recipe.id rec) db))
           (Recipe.id rec)),
     open_session (snd (with_link now (Device.id d) (Recipe.id rec) db))).
Proof.
  unfold resolve_link, with_link, insert_link, bind, query. simpl.
  destruct (find_link db (Device.id d) (Recipe.id rec)) as [l|] eqn:F; simpl;
    [reflexivity|].
  unfold commit. simpl. rewrite F. reflexivity.
Qed.

(** A row that cannot be built fails with a driver error, not with a
    constraint violation. *)
Lemma recipe_row_raise (now : Z) (r : json) (sig : string) (i : Z) (e : exn) :
  recipe_row now r sig i = Raise e -> e <> IntegrityError.
Proof.
  assert (forall k e, column_text r k = Raise e -> e <> IntegrityError) as Ht.
  { intros k e'. unfold column_text, Py.get, Py.get_default.
    destruct r; simpl; try (intros [= <-]; discriminate).
    destruct (Py.assoc k kv) as [[| | z | | |]|]; simpl;
      try (intros [= <-]; discriminate).
    unfold bind_int. destruct (int64 z); simpl; intros [= <-]; discriminate. }
  assert (forall k e, column_int r k = Raise e -> e <> IntegrityError) as Hi.
  { intros k e'. unfold column_int, Py.get, Py.get_default.
    destruct r; simpl; try (intros [= <-]; discriminate).
    destruct (Py.assoc k kv) as [[| | z | | |]|]; simpl;
      try (intros [= <-]; discriminate).
    unfold bind_int. destruct (int64 z); simpl; intros [= <-]; discriminate. }
  unfold recipe_row.
  destruct (column_text r "title") eqn:E1; simpl; [|intros [= <-]; eauto].
  destruct (column_text r "desc") eqn:E2; simpl; [|intros [= <-]; eauto].
  destruct (column_int r "time") eqn:E3; simpl; [|intros [= <-]; eauto].
  destruct (column_int r "serves") eqn:E4; simpl; [|intros [= <-]; eauto].
  destruct (column_text r "level") eqn:E5; simpl; [|intros [= <-]; eauto].
  destruct (column_text r "img") eqn:E6; simpl; [|intros [= <-]; eauto].
  discriminate.
Qed.

Lemma with_recipe_raise (now : Z) (r : json) (sig : string) (db : database)
    (e : exn) :
  with_recipe now r sig db = Raise e -> e <> IntegrityError.
Proof.
  unfold with_recipe. destruct (find_recipe db sig); [discriminate|].
  destruct (recipe_row now r sig _) eqn:E; simpl; [discriminate|].
  intros [= <-]. eapply recipe_row_raise; eauto.
Qed.

(** The handler on a decoded request is [save_pure]. *)
Lemma save_run (str_exn : wording)
    (now : Z) (request_body : option json) (k : string) (r : json)
    (sig : string) (db : database) :
  decode_save request_body = Ok (JStr k, r, sig) ->
  Str.is_empty k = false ->
  run_request (save str_exn now request_body) db
  = (fst (save_pure str_exn now k r sig db),
     Ok (snd (save_pure str_exn now k r sig db))).
Proof.
  unfold decode_save. intros H Hk.
  bind_ok H. bind_ok H. bind_ok H. bind_ok H. bind_ok H.
  injection H as -> <- <-.
  unfold run_request, save, save_pure. rewrite E.
  unfold bind at 1, lift at 1. rewrite E0.
  unfold bind at 1, lift at 1. rewrite E1.
  unfold bind at 1. rewrite (ensure_device_run _ _ _ Hk).
  destruct (with_device now k db) as [d db1]. simpl.
  unfold bind at 1, lift at 1. rewrite E2.
  unfold bind at 1, lift at 1. rewrite E3.
  unfold save_try, try_except, bind.
  destruct (with_recipe now a2 a3 db1) as [[rec db2]|e] eqn:W.
  - rewrite (resolve_recipe_run _ _ _ _ _ _ W), resolve_link_run.
    destruct (with_link now (Device.id d) (Recipe.id rec) db2). reflexivity.
  - rewrite (resolve_recipe_raise _ _ _ _ _ W).
    pose proof (with_recipe_raise _ _ _ _ _ W) as Hne.
    destruct e; try reflexivity. congruence.
Qed.

(** ** Facts about [with_device], [with_recipe] and [with_link] *)

Lemma with_device_found (now : Z) (k : string) (db : database) :
  find_device (snd (with_device now k db)) k = Some (fst (with_device now k db)).
Proof.
  unfold with_device. destruct (find_device db k) as [d|] eqn:F; simpl; auto.
  unfold find_device in *. simpl. apply find_snoc; auto. simpl.
  apply String.eqb_refl.
Qed.

Lemma with_device_frame (now : Z) (k : string) (db : database) :
  recipes (snd (with_device now k db)) = recipes db
  /\ saved_recipes (snd (with_device now k db)) = saved_recipes db.
Proof.
  unfold with_device. destruct (find_device db k); simpl; auto.
Qed.

Lemma with_recipe_cases (now : Z) (r : json) (sig : string)
    (db db' : database) (rec : Recipe.t) :
  with_recipe now r sig db = Ok (rec, db') ->
  (find_recipe db sig = Some rec /\ db' = db)
  \/ (find_recipe db sig = None /\ db' = add_recipe rec db
      /\ Recipe.id rec = next_id (map Recipe.id (recipes db))
      /\ Recipe.signature rec = sig).
Proof.
  unfold with_recipe. destruct (find_recipe db sig) as [x|] eqn:F.
  - intros [= <- <-]. now left.
  - intros H. bind_ok H. injection H as <- <-.
    apply recipe_row_ok in E as [Ei Es]. right. auto.
Qed.

Lemma with_recipe_found (now : Z) (r : json) (sig : string)
    (db db' : database) (rec : Recipe.t) :
  with_recipe now r sig db = Ok (rec, db') ->
  find_recipe db' sig = Some rec
  /\ devices db' = devices db /\ saved_recipes db' = saved_recipes db.
Proof.
  intros H. apply with_recipe_cases in H as [[F ->]|[F [-> [Ei Es]]]]; auto.
  split; [|simpl; auto]. unfold find_recipe in *. simpl.
  apply find_snoc; auto. simpl. rewrite Es. apply String.eqb_refl.
Qed.

Lemma with_recipe_storable (now : Z) (r : json) (sig : string) (db : database) :
  storable r -> exists rec db', with_recipe now r sig db = Ok (rec, db').
Proof.
  intros [row H]. unfold with_recipe.
  destruct (find_recipe db sig) as [x|]; [eauto|].
  unfold recipe_row in *.
  bind_ok H. bind_ok H. bind_ok H. bind_ok H. bind_ok H. bind_ok H.
  rewrite E, E0, E1, E2, E3, E4. simpl. eauto.
Qed.

Lemma with_link_found (now d rec : Z) (db : database) :
  exists l, find_link (snd (with_link now d rec db)) d rec = Some l.
Proof.
  unfold with_link. destruct (find_link db d rec) as [l|] eqn:F; simpl; eauto.
  eexists. unfold find_link in *. simpl. apply find_snoc; auto.
  unfold is_link. simpl. now rewrite !Z.eqb_refl.
Qed.

Lemma with_link_frame (now d rec : Z) (db : database) :
  devices (snd (with_link now d rec db)) = devices db
  /\ recipes (snd (with_link now d rec db)) = recipes db.
Proof.
  unfold with_link. destruct (find_link db d rec); simpl; auto.
Qed.

Lemma find_device_ext (db db' : database) (k : string) :
  devices db' = devices db -> find_device db' k = find_device db k.
Proof. unfold find_device. now intros ->. Qed.

Lemma find_recipe_ext (db db' : database) (sig : string) :
  recipes db' = recipes db -> find_recipe db' sig = find_recipe db sig.
Proof. unfold find_recipe. now intros ->. Qed.

Lemma find_link_ext (db db' : database) (d r : Z) :
  saved_recipes db' = saved_recipes db -> find_link db' d r = find_link db d r.
Proof. unfold find_link. now intros ->. Qed.

(** In a well-formed store no link names a key that is not given yet. *)
Lemma no_link_of_new_device (db : database) (r : Z) :
  wf db -> find_link db (next_id (map Device.id (devices db))) r = None.
Proof.
  intros W. destruct (find_link db _ r) as [l|] eqn:F; [|reflexivity].
  unfold find_link in F. apply find_some in F as [Hin Hl].
  apply is_link_pair in Hl. injection Hl as Hd _.
  exfalso. apply (next_id_fresh (map Device.id (devices db))).
  rewrite <- Hd. now apply (wf_link_device db W).
Qed.

Lemma no_link_of_new_recipe (db : database) (d : Z) :
  wf db -> find_link db d (next_id (map Recipe.id (recipes db))) = None.
Proof.
  intros W. destruct (find_link db d _) as [l|] eqn:F; [|reflexivity].
  unfold find_link in F. apply find_some in F as [Hin Hl].
  apply is_link_pair in Hl. injection Hl as _ Hr.
  exfalso. apply (next_id_fresh (map Recipe.id (recipes db))).
  rewrite <- Hr. now apply (wf_link_recipe db W).
Qed.

(** A pair that is not linked gets its link made. *)
Lemma unlinked_fresh (now : Z) (k : string) (r : json) (sig : string)
    (db db2 : database) (rec : Recipe.t) :
  wf db -> linked db k sig = false ->
  with_recipe now r sig (snd (with_device now k db)) = Ok (rec, db2) ->
  find_link db2 (Device.id (fst (with_device now k db))) (Recipe.id rec) = None.
Proof.
  intros W L H.
  destruct (with_recipe_found _ _ _ _ _ _ H) as [_ [_ Hs]].
  destruct (with_device_frame now k db) as [Hr Hl].
  rewrite (find_link_ext _ _ _ _ Hs), (find_link_ext _ _ _ _ Hl).
  apply with_recipe_cases in H.
  rewrite (find_recipe_ext _ _ _ Hr) in H.
  unfold with_device, linked in *.
  destruct (find_device db k) as [d|] eqn:Fd; simpl in *.
  - destruct H as [[F _]|[F [_ [Ei _]]]].
    + rewrite F in L. now destruct (find_link db (Device.id d) (Recipe.id rec)).
    + rewrite Ei. now apply no_link_of_new_recipe.
  - now apply no_link_of_new_device.
Qed.

Lemma filter_found_unique {A K} (f : A -> K) (eqb : K -> K -> bool) (k : K)
    (l : list A) (x : A) :
  (forall a b, eqb a b = true <-> a = b) ->
  NoDup (map f l) -> find (fun y => eqb (f y) k) l = Some x ->
  filter (fun y => eqb (f y) k) l = [x].
Proof.
  intros Heq. induction l as [|y l IH]; simpl; [discriminate|].
  intros Hn Hf. inversion Hn as [|? ? Hy Hl]; subst.
  destruct (eqb (f y) k) eqn:E.
  - injection Hf as <-. f_equal. apply Heq in E.
    destruct (filter (fun y0 => eqb (f y0) k) l) as [|z t] eqn:Fz; [reflexivity|].
    assert (In z (filter (fun y0 => eqb (f y0) k) l)) as Hz
      by (rewrite Fz; now left).
    apply filter_In in Hz as [Hz Ez]. apply Heq in Ez.
    exfalso. apply Hy. rewrite E, <- Ez. now apply in_map.
  - auto.
Qed.

Lemma rows_of_found (db : database) (sig : string) (rec : Recipe.t) :
  wf db -> find_recipe db sig = Some rec -> rows_of sig db = [rec].
Proof.
  intros W F. unfold rows_of.
  apply (filter_found_unique Recipe.signature String.eqb); auto.
  - apply String.eqb_eq.
  - apply (wf_signatures db W).
Qed.

Lemma signature_same_content (r1 r2 : json) :
  same_content r1 r2 -> _signature_of r1 = _signature_of r2.
Proof.
  intros [Ht [Hd Hi]]. unfold _signature_of, signature_field.
  now rewrite Ht, Hd, Hi.
Qed.

Lemma save_pure_ok (str_exn : wording)
    (now : Z) (k : string) (r : json) (sig : string)
    (db db2 : database) (rec : Recipe.t) :
  with_recipe now r sig (snd (with_device now k db)) = Ok (rec, db2) ->
  save_pure str_exn now k r sig db
  = (snd (with_link now (Device.id (fst (with_device now k db)))
            (Recipe.id rec) db2),
     saved_response
       (fst (with_link now (Device.id (fst (with_device now k db)))
               (Recipe.id rec) db2))
       (Recipe.id rec)).
Proof.
  unfold save_pure. destruct (with_device now k db) as [d db1]. simpl.
  intros ->. now destruct (with_link now (Device.id d) (Recipe.id rec) db2).
Qed.

(** After a save that went through, the device, the recipe and the link
    are found again. *)
Lemma save_pure_found (str_exn : wording)
    (now : Z) (k : string) (r : json) (sig : string)
    (db db2 : database) (rec : Recipe.t) :
  with_recipe now r sig (snd (with_device now k db)) = Ok (rec, db2) ->
  let d := fst (with_device now k db) in
  let db3 := fst (save_pure str_exn now k r sig db) in
  find_device db3 k = Some d
  /\ find_recipe db3 sig = Some rec
  /\ exists l, find_link db3 (Device.id d) (Recipe.id rec) = Some l.
Proof.
  intros H d db3. unfold db3. rewrite (save_pure_ok str_exn _ _ _ _ _ _ _ H). simpl.
  destruct (with_recipe_found _ _ _ _ _ _ H) as [Fr [Hd Hl]].
  destruct (with_link_frame now (Device.id d) (Recipe.id rec) db2) as [Ld Lr].
  fold d. split; [|split].
  - rewrite (find_device_ext _ _ _ Ld), (find_device_ext _ _ _ Hd).
    apply with_device_found.
  - now rewrite (find_recipe_ext _ _ _ Lr).
  - apply with_link_found.
Qed.

(** Saving again what is saved changes nothing and answers "already
    saved". *)
Lemma save_pure_again (str_exn : wording)
    (now : Z) (k : string) (r : json) (sig : string)
    (db : database) (d : Device.t) (rec : Recipe.t) (l : SavedRecipe.t) :
  find_device db k = Some d -> find_recipe db sig = Some rec ->
  find_link db (Device.id d) (Recipe.id rec) = Some l ->
  save_pure str_exn now k r sig db = (db, saved_response false (Recipe.id rec)).
Proof.
  intros Fd Fr Fl. unfold save_pure, with_device. rewrite Fd.
  unfold with_recipe. rewrite Fr. unfold with_link. now rewrite Fl.
Qed.

Lemma find_snoc_false {A} (p : A -> bool) (l : list A) (x : A) :
  p x = false -> find p (l ++ [x]) = find p l.
Proof.
  intros Hx. induction l as [|y l IH]; simpl; [now rewrite Hx|].
  now destruct (p y).
Qed.

Lemma NoDup_map_inj {A K} (f : A -> K) (l : list A) (x y : A) :
  NoDup (map f l) -> In x l -> In y l -> f x = f y -> x = y.
Proof.
  induction l as [|z l IH]; simpl; [tauto|].
  intros Hn Hx Hy E. inversion Hn as [|? ? Hz Hl]; subst.
  destruct Hx as [->|Hx], Hy as [->|Hy]; auto.
  - exfalso. apply Hz. rewrite E. now apply in_map.
  - exfalso. apply Hz. rewrite <- E. now apply in_map.
Qed.

Lemma decode_save_signature (b : option json) (v r : json) (sig : string) :
  decode_save b = Ok (v, r, sig) -> _signature_of r = Ok sig.
Proof.
  unfold decode_save. intros H.
  bind_ok H. bind_ok H. bind_ok H. bind_ok H. bind_ok H.
  now injection H as _ <- <-.
Qed.

(** The device row a save resolves has a key no other device has. *)
Lemma with_device_other (now : Z) (k1 k2 : string) (db : database)
    (d2 : Device.t) :
  wf db -> k1 <> k2 -> find_device db k2 = Some d2 ->
  Device.id (fst (with_device now k1 db)) <> Device.id d2.
Proof.
  intros W Hk F2. unfold find_device in F2.
  apply (find_key_eq Device.device_id String.eqb _ _ _ String.eqb_eq) in F2
    as [In2 K2].
  unfold with_device. destruct (find_device db k1) as [d1|] eqn:F1; simpl.
  - unfold find_device in F1.
    apply (find_key_eq Device.device_id String.eqb _ _ _ String.eqb_eq) in F1
      as [In1 K1].
    intros E. apply Hk. rewrite <- K1, <- K2. f_equal.
    eapply NoDup_map_inj; eauto. apply (wf_device_ids db W).
  - intros E. apply (next_id_fresh (map Device.id (devices db))).
    rewrite E. now apply in_map.
Qed.

Lemma find_device_after (now : Z) (k1 k2 : string) (db : database) :
  k1 <> k2 ->
  find_device (snd (with_device now k1 db)) k2 = find_device db k2.
Proof.
  intros Hk. unfold with_device.
  destruct (find_device db k1); simpl; [reflexivity|].
  unfold find_device. simpl. apply find_snoc_false. simpl.
  apply String.eqb_neq. congruence.
Qed.

(** A save for one device leaves another device unlinked. *)
Lemma linked_other_device (str_exn : wording)
    (now : Z) (k1 k2 : string) (r : json) (sig : string)
    (db db2 : database) (rec : Recipe.t) :
  wf db -> k1 <> k2 -> linked db k2 sig = false ->
  with_recipe now r sig (snd (with_device now k1 db)) = Ok (rec, db2) ->
  linked (fst (save_pure str_exn now k1 r sig db)) k2 sig = false.
Proof.
  intros W Hk L H.
  destruct (save_pure_found str_exn _ _ _ _ _ _ _ H) as [_ [Fr _]].
  rewrite (save_pure_ok str_exn _ _ _ _ _ _ _ H) in *. simpl in *.
  set (d1 := fst (with_device now k1 db)) in *.
  destruct (with_recipe_found _ _ _ _ _ _ H) as [_ [Hd Hl]].
  destruct (with_link_frame now (Device.id d1) (Recipe.id rec) db2) as [Ld Lr].
  destruct (with_device_frame now k1 db) as [Dr Dl].
  unfold linked. rewrite Fr.
  rewrite (find_device_ext _ _ _ Ld), (find_device_ext _ _ _ Hd),
    (find_device_after _ _ _ _ Hk).
  destruct (find_device db k2) as [d2|] eqn:F2; [|reflexivity].
  pose proof (with_device_other now _ _ _ _ W Hk F2) as Hne. fold d1 in Hne.
  assert (find_link db (Device.id d2) (Recipe.id rec) = None) as F0.
  { apply with_recipe_cases in H.
    rewrite (find_recipe_ext _ _ _ Dr) in H.
    destruct H as [[F _]|[F [_ [Ei _]]]].
    - unfold linked in L. rewrite F2, F in L.
      now destruct (find_link db (Device.id d2) (Recipe.id rec)).
    - rewrite Ei, Dr. now apply no_link_of_new_recipe. }
  assert (find_link
            (snd (with_link now (Device.id d1) (Recipe.id rec) db2))
            (Device.id d2) (Recipe.id rec) = None) as F3.
  { unfold with_link.
    destruct (find_link db2 (Device.id d1) (Recipe.id rec)); simpl.
    - now rewrite (find_link_ext _ _ _ _ Hl), (find_link_ext _ _ _ _ Dl).
    - unfold find_link. simpl. rewrite find_snoc_false.
      + fold (find_link db2 (Device.id d2) (Recipe.id rec)).
        now rewrite (find_link_ext _ _ _ _ Hl), (find_link_ext _ _ _ _ Dl).
      + unfold is_link. simpl. apply andb_false_iff. left.
        now apply Z.eqb_neq. }
  now rewrite F3.
Qed.

(** ** Deduplication of recipes *)

(** One save of a pair that is not linked: the link is made, one recipe row
    carries the signature. *)
Lemma save_unlinked (str_exn : wording)
    (now : Z) (b : option json) (k : string) (r : json)
    (sig : string) (db : database) :
  wf db -> decode_save b = Ok (JStr k, r, sig) -> Str.is_empty k = false ->
  storable r -> linked db k sig = false ->
  exists rec db2 l,
    with_recipe now r sig (snd (with_device now k db)) = Ok (rec, db2)
    /\ run_request (save str_exn now b) db
       = (fst (save_pure str_exn now k r sig db),
          Ok (saved_response true (Recipe.id rec)))
    /\ saved_recipes (fst (save_pure str_exn now k r sig db))
       = (saved_recipes db ++ [l])%list
    /\ SavedRecipe.device_id_fk l = Device.id (fst (with_device now k db))
    /\ SavedRecipe.recipe_id_fk l = Recipe.id rec
    /\ wf (fst (save_pure str_exn now k r sig db))
    /\ rows_of sig (fst (save_pure str_exn now k r sig db)) = [rec].
Proof.
  intros W D Hk St L.
  destruct (with_recipe_storable now r sig (snd (with_device now k db)) St)
    as [rec [db2 H]].
  pose proof (unlinked_fresh _ _ _ _ _ _ _ W L H) as Fl.
  pose proof (save_run str_exn now b k r sig db D Hk) as R.
  assert (wf (fst (save_pure str_exn now k r sig db))) as W'.
  { change (fst (save_pure str_exn now k r sig db))
      with (fst (fst (save_pure str_exn now k r sig db),
                 @Ok response (snd (save_pure str_exn now k r sig db)))).
    rewrite <- R. apply (serve_wf (ReqSave str_exn now b) db W). }
  destruct (save_pure_found str_exn _ _ _ _ _ _ _ H) as [_ [Fr _]].
  pose proof (rows_of_found _ _ _ W' Fr) as Rows.
  destruct (with_recipe_found _ _ _ _ _ _ H) as [_ [_ Hl]].
  destruct (with_device_frame now k db) as [_ Dl].
  pose proof (save_pure_ok str_exn _ _ _ _ _ _ _ H) as SP.
  unfold with_link in SP. rewrite Fl in SP. simpl in SP.
  rewrite R. rewrite SP in *. simpl.
  eexists rec, db2, _. split; [exact H|]. split; [reflexivity|].
  split; [now rewrite Hl, Dl|]. auto.
Qed.

Lemma save_twice_same_device (str_exn : wording)
    (now1 now2 : Z) (b1 b2 : option json)
    (k : string) (r1 r2 : json) (sig1 sig2 : string) (db : database) :
  wf db ->
  decode_save b1 = Ok (JStr k, r1, sig1) ->
  decode_save b2 = Ok (JStr k, r2, sig2) ->
  Str.is_empty k = false -> same_content r1 r2 -> storable r1 ->
  linked db k sig1 = false ->
  exists rid db1 rec,
    run_request (save str_exn now1 b1) db = (db1, Ok (saved_response true rid))
    /\ run_request (save str_exn now2 b2) db1
       = (db1, Ok (saved_response false rid))
    /\ rows_of sig1 db1 = [rec] /\ Recipe.id rec = rid.
Proof.
  intros W D1 D2 Hk Hc St L.
  assert (sig2 = sig1) as ->.
  { apply decode_save_signature in D1 as S1.
    apply decode_save_signature in D2 as S2.
    rewrite (signature_same_content _ _ Hc) in S1. congruence. }
  destruct (save_unlinked str_exn now1 b1 k r1 sig1 db W D1 Hk St L)
    as [rec [db2 [l [H [R1 [_ [_ [_ [_ Rows]]]]]]]]].
  exists (Recipe.id rec), (fst (save_pure str_exn now1 k r1 sig1 db)), rec.
  split; [exact R1|]. split; [|auto].
  rewrite (save_run str_exn now2 b2 k r2 sig1 _ D2 Hk).
  destruct (save_pure_found str_exn _ _ _ _ _ _ _ H) as [Fd [Fr [l' Fl]]].
  now rewrite (save_pure_again str_exn now2 k r2 sig1 _ _ _ _ Fd Fr Fl).
Qed.

Lemma save_two_devices (str_exn : wording) (now1 now2 : Z) (b1 b2 : option json)
    (k1 k2 : string) (r1 r2 : json) (sig1 sig2 : string) (db : database) :
  wf db ->
  decode_save b1 = Ok (JStr k1, r1, sig1) ->
  decode_save b2 = Ok (JStr k2, r2, sig2) ->
  Str.is_empty k1 = false -> Str.is_empty k2 = false -> k1 <> k2 ->
  same_content r1 r2 -> storable r1 ->
  linked db k1 sig1 = false -> linked db k2 sig1 = false ->
  exists rid db1 db2 rec l1 l2,
    run_request (save str_exn now1 b1) db = (db1, Ok (saved_response true rid))
    /\ run_request (save str_exn now2 b2) db1
       = (db2, Ok (saved_response true rid))
    /\ saved_recipes db2 = (saved_recipes db ++ [l1; l2])%list
    /\ SavedRecipe.recipe_id_fk l1 = rid /\ SavedRecipe.recipe_id_fk l2 = rid
    /\ SavedRecipe.device_id_fk l1 <> SavedRecipe.device_id_fk l2
    /\ rows_of sig1 db2 = [rec] /\ Recipe.id rec = rid.
Proof.
  intros W D1 D2 Hk1 Hk2 Hk Hc St L1 L2.
  assert (sig2 = sig1) as ->.
  { apply decode_save_signature in D1 as S1.
    apply decode_save_signature in D2 as S2.
    rewrite (signature_same_content _ _ Hc) in S1. congruence. }
  destruct (save_unlinked str_exn now1 b1 k1 r1 sig1 db W D1 Hk1 St L1)
    as [rec [dbr [l1 [H [R1 [S1 [Ld1 [Lr1 [W1 Rows1]]]]]]]]].
  set (db1 := fst (save_pure str_exn now1 k1 r1 sig1 db)) in *.
  pose proof (linked_other_device str_exn _ _ _ _ _ _ _ _ W Hk L2 H) as L2'.
  fold db1 in L2'.
  destruct (save_pure_found str_exn _ _ _ _ _ _ _ H) as [Fd1 [Fr1 _]]. fold db1 in Fd1, Fr1.
  (* the second save finds the recipe row of the first *)
  assert (with_recipe now2 r2 sig1 (snd (with_device now2 k2 db1))
          = Ok (rec, snd (with_device now2 k2 db1))) as H2.
  { unfold with_recipe.
    destruct (with_device_frame now2 k2 db1) as [Dr _].
    now rewrite (find_recipe_ext _ _ _ Dr), Fr1. }
  pose proof (unlinked_fresh _ _ _ _ _ _ _ W1 L2' H2) as Fl2.
  pose proof (save_run str_exn now2 b2 k2 r2 sig1 db1 D2 Hk2) as R2.
  rewrite (save_pure_ok str_exn _ _ _ _ _ _ _ H2) in R2. simpl in R2.
  unfold with_link in R2. rewrite Fl2 in R2. simpl in R2.
  destruct (with_device_frame now2 k2 db1) as [Dr Dl].
  eexists (Recipe.id rec), db1, _, rec, l1, _.
  split; [exact R1|]. split; [exact R2|]. simpl.
  split; [rewrite Dl, S1, <- app_assoc; reflexivity|].
  split; [exact Lr1|]. split; [reflexivity|]. split.
  - simpl. rewrite Ld1. intros E.
    assert (find_device db1 k2 = None \/ exists d2, find_device db1 k2 = Some d2)
      as [N|[d2 F2]] by (destruct (find_device db1 k2); eauto).
    + unfold with_device in E. rewrite N in E. simpl in E.
      apply (next_id_fresh (map Device.id (devices db1))). rewrite <- E.
      unfold find_device in Fd1. apply find_some in Fd1 as [Hin _].
      now apply in_map.
    + unfold with_device in E. rewrite F2 in E. simpl in E.
      assert (fst (with_device now1 k1 db) = d2) as Heq.
      { unfold find_device in Fd1, F2.
        apply find_some in Fd1 as [In1 _]. apply find_some in F2 as [In2 _].
        eapply NoDup_map_inj; eauto. apply (wf_device_ids db1 W1). }
      fold (find_device db1 k1) in Fd1.
      assert (find_device db1 k2 = Some d2) as F2' by exact F2.
      unfold find_device in Fd1, F2'.
      apply (find_key_eq Device.device_id String.eqb _ _ _ String.eqb_eq) in Fd1
        as [_ K1].
      apply (find_key_eq Device.device_id String.eqb _ _ _ String.eqb_eq) in F2'
        as [_ K2].
      apply Hk. rewrite <- K1, <- K2. now rewrite Heq.
  - split; [|reflexivity].
    apply rows_of_found.
    + assert (wf (serve (ReqSave str_exn now2 b2) db1)) as W2 by now apply serve_wf.
      simpl in W2. rewrite R2 in W2. exact W2.
    + unfold find_recipe. simpl. fold (find_recipe (snd (with_device now2 k2 db1)) sig1).
      now rewrite (find_recipe_ext _ _ _ Dr).
Qed.

Lemma rows_of_at_most_one (db : database) (sig : string) :
  wf db -> (List.length (rows_of sig db) <= 1)%nat.
Proof.
  intros W. destruct (find_recipe db sig) as [rec|] eqn:F.
  - rewrite (rows_of_found _ _ _ W F). simpl. lia.
  - unfold rows_of, find_recipe in *.
    destruct (filter _ (recipes db)) as [|x l] eqn:E; simpl; [lia|].
    assert (In x (filter (fun r => String.eqb (Recipe.signature r) sig)
                    (recipes db))) as Hx by (rewrite E; now left).
    apply filter_In in Hx as [Hin Hx].
    pose proof (find_none _ _ F x Hin) as Hn. simpl in Hn. congruence.
Qed.

(** C1: whatever requests were served, at most one recipe row carries a
    given signature.  In any store so reached, two saves by the same device
    of recipes with the same title, desc and img, not saved by it before,
    answer saved:true and then saved:false with "Already saved" and the
    same recipe id, and leave one recipe row of that signature; two saves
    of such recipes by two different devices both answer saved:true with
    the same recipe id, add two links that point to it from two different
    devices, and leave one recipe row of that signature. *)
Theorem save_deduplicates_recipes :
  (forall (rqs : list request) (sig : string),
      NoDup (map Recipe.signature (recipes (serve_all rqs empty_database)))
      /\ (List.length (rows_of sig (serve_all rqs empty_database)) <= 1)%nat)
  /\ (forall (rqs : list request) (str_exn : wording) (now1 now2 : Z)
             (b1 b2 : option json) (k : string) (r1 r2 : json)
             (sig1 sig2 : string),
         let db := serve_all rqs empty_database in
         decode_save b1 = Ok (JStr k, r1, sig1) ->
         decode_save b2 = Ok (JStr k, r2, sig2) ->
         Str.is_empty k = false -> same_content r1 r2 -> storable r1 ->
         linked db k sig1 = false ->
         exists rid db1 rec,
           run_request (save str_exn now1 b1) db
           = (db1, Ok (saved_response true rid))
           /\ run_request (save str_exn now2 b2) db1
              = (db1, Ok (saved_response false rid))
           /\ rows_of sig1 db1 = [rec] /\ Recipe.id rec = rid)
  /\ (forall (rqs : list request) (str_exn : wording) (now1 now2 : Z)
             (b1 b2 : option json) (k1 k2 : string) (r1 r2 : json)
             (sig1 sig2 : string),
         let db := serve_all rqs empty_database in
         decode_save b1 = Ok (JStr k1, r1, sig1) ->
         decode_save b2 = Ok (JStr k2, r2, sig2) ->
         Str.is_empty k1 = false -> Str.is_empty k2 = false -> k1 <> k2 ->
         same_content r1 r2 -> storable r1 ->
         linked db k1 sig1 = false -> linked db k2 sig1 = false ->
         exists rid db1 db2 rec l1 l2,
           run_request (save str_exn now1 b1) db
           = (db1, Ok (saved_response true rid))
           /\ run_request (save str_exn now2 b2) db1
              = (db2, Ok (saved_response true rid))
           /\ saved_recipes db2 = (saved_recipes db ++ [l1; l2])%list
           /\ SavedRecipe.recipe_id_fk l1 = rid
           /\ SavedRecipe.recipe_id_fk l2 = rid
           /\ SavedRecipe.device_id_fk l1 <> SavedRecipe.device_id_fk l2
           /\ rows_of sig1 db2 = [rec] /\ Recipe.id rec = rid).
Proof.
  assert (forall rqs, wf (serve_all rqs empty_database)) as W
    by (intros; apply serve_all_wf, wf_empty).
  split; [|split].
  - intros rqs sig. split.
    + apply (wf_signatures _ (W rqs)).
    + apply rows_of_at_most_one, W.
  - intros rqs str_exn now1 now2 b1 b2 k r1 r2 sig1 sig2 db.
    apply save_twice_same_device, W.
  - intros rqs str_exn now1 now2 b1 b2 k1 k2 r1 r2 sig1 sig2 db.
    apply save_two_devices, W.
Qed.

Lemma save_deduplicates_recipes_witness :
  exists rid db1 rec,
    run_request (save toy_wording 10 (save_body "devA" "Soup")) empty_database
    = (db1, Ok (saved_response true rid))
    /\ run_request (save toy_wording 11 (save_body "devA" "Soup")) db1
       = (db1, Ok (saved_response false rid))
    /\ rows_of "soup||" db1 = [rec] /\ Recipe.id rec = rid.
Proof.
  destruct save_deduplicates_recipes as [_ [H _]].
  apply (H [] toy_wording 10 11
           (save_body "devA" "Soup") (save_body "devA" "Soup")
           "devA"
           (recipe_dict (JStr "Soup") (JStr "") 20 2 (JStr "Easy") (JStr ""))
           (recipe_dict (JStr "Soup") (JStr "") 20 2 (JStr "Easy") (JStr ""))
           "soup||" "soup||").
  - reflexivity.
  - reflexivity.
  - reflexivity.
  - repeat split.
  - eexists. reflexivity.
  - reflexivity.
Defined.

(** ** [/api/history] *)

Lemma insert_desc_perm (x : SavedRecipe.t) (l : list SavedRecipe.t) :
  Permutation (insert_desc x l) (x :: l).
Proof.
  induction l as [|y l IH]; simpl; [reflexivity|].
  destruct (comes_before x y); [reflexivity|].
  rewrite IH. apply perm_swap.
Qed.

Lemma order_by_created_desc_perm (l : list SavedRecipe.t) :
  Permutation (order_by_created_desc l) l.
Proof.
  induction l as [|x l IH]; simpl; [reflexivity|].
  unfold order_by_created_desc in *. simpl.
  rewrite insert_desc_perm. now constructor.
Qed.

Lemma insert_desc_sorted (x : SavedRecipe.t) (l : list SavedRecipe.t) :
  StronglySorted newer_first l -> StronglySorted newer_first (insert_desc x l).
Proof.
  induction 1 as [|y l Hl IH Hy]; simpl.
  - repeat constructor.
  - destruct (comes_before x y) eqn:C; unfold comes_before in C.
    + assert (newer_first x y) as Hxy.
      { unfold newer_first.
        apply orb_true_iff in C as [C|C]; [apply Z.ltb_lt in C; lia|].
        apply andb_true_iff in C as [C _]. apply Z.eqb_eq in C. lia. }
      constructor; [now constructor|]. constructor; [exact Hxy|].
      eapply Forall_impl; [|exact Hy]. unfold newer_first in *. intros; lia.
    + apply orb_false_iff in C as [C _]. apply Z.ltb_ge in C.
      constructor; [assumption|].
      rewrite insert_desc_perm. constructor; assumption.
Qed.

Lemma order_by_created_desc_sorted (l : list SavedRecipe.t) :
  StronglySorted newer_first (order_by_created_desc l).
Proof.
  induction l as [|x l IH]; simpl; [constructor|].
  now apply insert_desc_sorted.
Qed.

(** The first [n] of a sorted list are sorted, and none of the others
    comes before any of them. *)
Lemma sorted_split {A} (R : A -> A -> Prop) (n : nat) (l : list A) :
  StronglySorted R l ->
  StronglySorted R (firstn n l)
  /\ forall a b, In a (firstn n l) -> In b (skipn n l) -> R a b.
Proof.
  intros H. revert n. induction H as [|x l Hl IH Hx]; intros [|n]; simpl;
    try (split; [constructor | tauto]).
  destruct (IH n) as [S1 S2]. split.
  - constructor; [assumption|].
    rewrite Forall_forall in *. intros y Hy. apply Hx.
    rewrite <- (firstn_skipn n l). apply in_or_app. now left.
  - intros a b [<-|Ha] Hb; [|auto].
    rewrite Forall_forall in Hx. apply Hx.
    rewrite <- (firstn_skipn n l). apply in_or_app. now right.
Qed.

Lemma project_rows (db : database) (rows : list SavedRecipe.t) :
  wf db -> (forall l, In l rows -> In l (saved_recipes db)) ->
  exists recs,
    rmap (project db) rows = Ok (map public recs)
    /\ recipes_of_links db rows recs.
Proof.
  intros W. induction rows as [|l rows IH]; simpl; intros Hin.
  - exists []. split; [reflexivity | constructor].
  - destruct IH as [recs [Hr Hf]]; [auto|].
    assert (exists rec, get_recipe db (SavedRecipe.recipe_id_fk l) = Some rec)
      as [rec G].
    { apply (find_some_key Recipe.id Z.eqb); [apply Z.eqb_eq|].
      apply (wf_link_recipe db W). auto. }
    exists (rec :: recs). unfold project at 1. rewrite G, Hr.
    split; [reflexivity | now constructor].
Qed.

Lemma history_rows_spec (db : database) (d : Device.t) :
  let links :=
    filter (fun l => SavedRecipe.device_id_fk l =? Device.id d)
      (saved_recipes db) in
  let rows := history_rows db d in
  List.length rows = Nat.min 50 (List.length links)
  /\ StronglySorted newer_first rows
  /\ exists rest,
       Permutation (rows ++ rest) links
       /\ forall a b, In a rows -> In b rest -> newer_first a b.
Proof.
  intros links rows. unfold rows, history_rows. fold links.
  pose proof (order_by_created_desc_perm links) as P.
  pose proof (order_by_created_desc_sorted links) as S.
  destruct (sorted_split newer_first 50 _ S) as [S1 S2].
  split; [|split; [exact S1|]].
  - rewrite length_firstn. now rewrite (Permutation_length P).
  - exists (skipn 50 (order_by_created_desc links)).
    split; [now rewrite firstn_skipn | exact S2].
Qed.

Lemma history_run (db : database) (device_id : option string) :
  wf db ->
  match device_id with
  | Some k =>
      match find_device db k with
      | Some d =>
          exists recs,
            recipes_of_links db (history_rows db d) recs
            /\ run_request (history device_id) db
               = (db, Ok (jsonify [("recipes", JArr (map public recs))] 200))
      | None =>
          run_request (history device_id) db
          = (db, Ok (jsonify [("recipes", JArr [])] 200))
      end
  | None =>
      run_request (history device_id) db
      = (db, Ok (jsonify [("recipes", JArr [])] 200))
  end.
Proof.
  intros W. destruct device_id as [k|]; [|reflexivity].
  unfold run_request, history, bind, query_device, lift, query, query_result.
  simpl. destruct (find_device db k) as [d|] eqn:F; simpl; [|reflexivity].
  destruct (project_rows db (history_rows db d) W) as [recs [Hr Hf]].
  { intros l Hl. unfold history_rows in Hl.
    assert (In l (order_by_created_desc
                    (filter (fun l => SavedRecipe.device_id_fk l =? Device.id d)
                       (saved_recipes db)))) as Hl'.
    { rewrite <- (firstn_skipn 50 _). apply in_or_app. now left. }
    apply (Permutation_in _ (order_by_created_desc_perm _)) in Hl'.
    now apply filter_In in Hl' as [Hl' _]. }
  exists recs. rewrite Hr. auto.
Qed.

Lemma public_shows (recs : list Recipe.t) :
  Forall2 shows recs (map public recs).
Proof.
  induction recs as [|rec recs IH]; simpl; constructor; [|exact IH].
  eexists. split; [reflexivity|]. repeat split.
Qed.

(** C6: in any store reached by serving requests, [/api/history] answers
    200 with one entry for each of at most 50 links of the device, in the
    order of the links; an entry is an object with the fields id, title,
    desc, time, serves, level and img of the recipe the link points to,
    and no other field.  The links are in order of creation time, newest
    first; they are the device's links when it has at most 50, and
    otherwise 50 of them such that no link left out is newer than one
    returned.  For a device key without a row, and for a request without a
    device id, the answer is the empty list. *)
Theorem history_newest_first :
  forall (rqs : list request) (device_id : option string),
    let db := serve_all rqs empty_database in
    exists rows recs rest entries,
      run_request (history device_id) db
      = (db, Ok (history_response entries))
      /\ recipes_of_links db rows recs
      /\ Forall2 shows recs entries
      /\ (List.length rows <= 50)%nat
      /\ List.length rows
         = Nat.min 50 (List.length (links_of_arg device_id db))
      /\ StronglySorted newer_first rows
      /\ Permutation (rows ++ rest) (links_of_arg device_id db)
      /\ (forall a b, In a rows -> In b rest -> newer_first a b)
      /\ ((forall k, device_id = Some k -> find_device db k = None) ->
          entries = []).
Proof.
  intros rqs device_id db.
  assert (wf db) as W by apply serve_all_wf, wf_empty.
  pose proof (history_run db device_id W) as R.
  assert (forall recs0 : list Recipe.t,
             recs0 = [] ->
             recipes_of_links db [] recs0
             /\ Forall2 shows recs0 []
             /\ (List.length (@nil SavedRecipe.t) <= 50)%nat
             /\ List.length (@nil SavedRecipe.t)
                = Nat.min 50 (List.length (@nil SavedRecipe.t))
             /\ StronglySorted newer_first []
             /\ Permutation (@nil SavedRecipe.t ++ []) []
             /\ (forall a b : SavedRecipe.t, In a [] -> In b [] -> newer_first a b))
    as Empty.
  { intros recs0 ->. split; [constructor|]. split; [constructor|].
    split; [apply Nat.le_0_l|].
    split; [reflexivity|]. split; [constructor|]. split; [constructor|].
    intros a b []. }
  unfold links_of_arg, links_of.
  destruct device_id as [k|]; [destruct (find_device db k) as [d|] eqn:F|].
  - destruct R as [recs [Hf R]].
    destruct (history_rows_spec db d) as [Hlen [Hs [rest [Hp Hr]]]].
    exists (history_rows db d), recs, rest, (map public recs).
    split; [exact R|]. split; [exact Hf|]. split; [apply public_shows|].
    split; [rewrite Hlen; apply Nat.le_min_l|].
    split; [exact Hlen|]. split; [exact Hs|]. split; [exact Hp|].
    split; [exact Hr|].
    intros Hn. specialize (Hn k eq_refl). congruence.
  - exists [], [], [], []. split; [exact R|].
    destruct (Empty [] eq_refl) as [E1 [E2 [E3 [E4 [E5 [E6 E7]]]]]].
    repeat (split; [assumption|]). reflexivity.
  - exists [], [], [], []. split; [exact R|].
    destruct (Empty [] eq_refl) as [E1 [E2 [E3 [E4 [E5 [E6 E7]]]]]].
    repeat (split; [assumption|]). reflexivity.
Qed.

(** Three saves at clock readings 10, 30 and 20 come back newest first. *)
Example history_three_saves :
  map (fun c => Py.get c "title")
    (match recipes_of
             (snd (run_request (history (Some "devA"))
                     (serve_all three_saves empty_database))) with
     | Some l => l
     | None => []
     end)
  = [Ok (JStr "Stew"); Ok (JStr "Salad"); Ok (JStr "Soup")].
Proof. reflexivity. Qed.

(** Links made at the same clock reading come back by recipe key: device
    B saved the stew before the soup, and the soup is the older row. *)
Example history_equal_times :
  map (fun c => Py.get c "title")
    (match recipes_of
             (snd (run_request (history (Some "devB"))
                     (serve_all tied_saves empty_database))) with
     | Some l => l
     | None => []
     end)
  = [Ok (JStr "Soup"); Ok (JStr "Stew")].
Proof. reflexivity. Qed.

(** ** [/api/clear] *)

Lemma filter_partition_perm {A} (p : A -> bool) (l : list A) :
  Permutation (filter p l ++ filter (fun x => negb (p x)) l) l.
Proof.
  induction l as [|x l IH]; simpl; [constructor|].
  destruct (p x); simpl.
  - now constructor.
  - rewrite <- Permutation_middle. now constructor.
Qed.

Lemma filter_filter_none {A} (p : A -> bool) (l : list A) :
  filter p (filter (fun x => negb (p x)) l) = [].
Proof.
  induction l as [|x l IH]; simpl; [reflexivity|].
  destruct (p x) eqn:E; simpl; [assumption|]. now rewrite E.
Qed.

Lemma filter_filter_same {A} (p : A -> bool) (l : list A) :
  filter p (filter p l) = filter p l.
Proof.
  induction l as [|x l IH]; simpl; [reflexivity|].
  destruct (p x) eqn:E; simpl; [|assumption]. now rewrite E, IH.
Qed.

(** The handler on a request that names a device key. *)
Lemma clear_saved_run (now : Z) (request_body : option json) (k : string)
    (db : database) :
  Py.get (Py.or_ (get_json_silent request_body) (JObj [])) "device_id"
  = Ok (JStr k) ->
  Str.is_empty k = false ->
  run_request (clear_saved now request_body) db
  = (cleared k db,
     Ok (deleted_response (Z.of_nat (List.length (links_of k db))))).
Proof.
  intros Hg Hk. unfold run_request, clear_saved, cleared, links_of.
  unfold bind at 1, lift at 1. rewrite Hg. simpl. rewrite Hk. simpl.
  unfold bind, lift, query. simpl.
  destruct (find_device db k) as [d|]; reflexivity.
Qed.

Lemma cleared_no_links (k : string) (db : database) :
  links_of k (cleared k db) = [] /\ cleared k (cleared k db) = cleared k db.
Proof.
  unfold links_of, cleared.
  destruct (find_device db k) as [d|] eqn:F.
  - unfold find_device in *. simpl. rewrite F. simpl. split.
    + apply filter_filter_none.
    + unfold without_links. simpl. f_equal. apply filter_filter_same.
  - rewrite F. auto.
Qed.

(** C7: a clear request for a device key deletes the links of that device
    and no others, in one bulk delete, and answers with their number; the
    same request served next deletes nothing and answers deleted:0; for a
    key without a device row the answer is deleted:0 and the store is
    unchanged. *)
Theorem clear_saved_idempotent :
  forall (now1 now2 : Z) (request_body : option json) (k : string)
         (db : database),
    Py.get (Py.or_ (get_json_silent request_body) (JObj [])) "device_id"
    = Ok (JStr k) ->
    Str.is_empty k = false ->
    exists db1,
      run_request (clear_saved now1 request_body) db
      = (db1, Ok (deleted_response (Z.of_nat (List.length (links_of k db)))))
      /\ links_of k db1 = []
      /\ Permutation (links_of k db ++ saved_recipes db1) (saved_recipes db)
      /\ devices db1 = devices db /\ recipes db1 = recipes db
      /\ run_request (clear_saved now2 request_body) db1
         = (db1, Ok (deleted_response 0))
      /\ (find_device db k = None ->
          db1 = db /\ links_of k db = []).
Proof.
  intros now1 now2 request_body k db Hg Hk.
  exists (cleared k db).
  destruct (cleared_no_links k db) as [Hn Hc].
  split; [now apply clear_saved_run|]. split; [exact Hn|].
  split; [|split; [|split; [|split]]].
  - unfold links_of, cleared. destruct (find_device db k) as [d|]; simpl.
    + apply filter_partition_perm.
    + reflexivity.
  - unfold cleared. now destruct (find_device db k).
  - unfold cleared. now destruct (find_device db k).
  - rewrite (clear_saved_run now2 request_body k _ Hg Hk), Hn, Hc. reflexivity.
  - intros F. unfold cleared, links_of. now rewrite F.
Qed.

Lemma clear_saved_idempotent_witness :
  exists db1,
    run_request (clear_saved 40 (clear_body "devA"))
      (serve_all three_saves empty_database)
    = (db1, Ok (deleted_response 3))
    /\ run_request (clear_saved 41 (clear_body "devA")) db1
       = (db1, Ok (deleted_response 0)).
Proof.
  destruct (clear_saved_idempotent 40 41 (clear_body "devA") "devA"
              (serve_all three_saves empty_database) eq_refl eq_refl)
    as [db1 [H1 [_ [_ [_ [_ [H2 _]]]]]]].
  exists db1. split; [exact H1 | exact H2].
Defined.

(** ** [/auth/login] *)

Lemma auth_login_run (check_password_hash : checker)
    (request_body : option json) (email : string) (password : json)
    (db : database) :
  login_fields request_body = Ok (email, password) ->
  run_request (auth_login check_password_hash request_body) db
  = (db,
     match find_user db email with
     | None => Ok denied
     | Some u =>
         match check_password_hash (User.password_hash u) password with
         | Ok true =>
             Ok (jsonify [("ok", JBool true); ("user", user_json u)] 200,
                 Some (User.id u))
         | Ok false => Ok denied
         | Raise e => Raise e
         end
     end).
Proof.
  unfold login_fields. intros H.
  bind_ok H. bind_ok H. bind_ok H. bind_ok H. injection H as <- <-.
  unfold run_request, auth_login.
  unfold bind at 1, lift at 1. rewrite E.
  unfold bind at 1, lift at 1. rewrite E0.
  unfold bind at 1, lift at 1. rewrite E1.
  unfold bind at 1, lift at 1. rewrite E2.
  unfold bind, query, lift. simpl.
  destruct (find_user db a1) as [u|]; [|reflexivity].
  destruct (check_password_hash (User.password_hash u) _) as [[|]|e];
    reflexivity.
Qed.

(** Where the library check answers False: a login with the email of an
    existing user and a password the stored hash rejects, and a login with
    an email no user has, get the same answer: status 401, the error
    "invalid_credentials", and a session that is left alone. *)
Lemma login_failures_identical :
  forall (check_password_hash : checker) (db : database)
         (body1 body2 : option json) (email1 email2 : string)
         (password1 password2 : json) (u : User.t),
    login_fields body1 = Ok (email1, password1) ->
    find_user db email1 = Some u ->
    check_password_hash (User.password_hash u) password1 = Ok false ->
    login_fields body2 = Ok (email2, password2) ->
    find_user db email2 = None ->
    run_request (auth_login check_password_hash body1) db = (db, Ok denied)
    /\ run_request (auth_login check_password_hash body2) db = (db, Ok denied)
    /\ status (fst denied) = 401
    /\ Py.get (body (fst denied)) "error" = Ok (JStr "invalid_credentials").
Proof.
  intros check db body1 body2 email1 email2 password1 password2 u
    L1 F1 C1 L2 F2.
  rewrite (auth_login_run check body1 _ _ db L1), F1, C1.
  rewrite (auth_login_run check body2 _ _ db L2), F2.
  repeat split.
Qed.

Lemma login_failures_identical_witness :
  run_request (auth_login toy_checker (login_body " Ann@Example.com" "guess"))
    one_user
  = (one_user, Ok denied)
  /\ run_request (auth_login toy_checker (login_body "bob@example.com" "guess"))
       one_user
     = (one_user, Ok denied).
Proof.
  destruct (login_failures_identical toy_checker one_user
              (login_body " Ann@Example.com" "guess")
              (login_body "bob@example.com" "guess")
              "ann@example.com" "bob@example.com" (JStr "guess") (JStr "guess")
              (User.mk 1 "Ann" "ann@example.com" "hash:secret" 5)
              eq_refl eq_refl eq_refl eq_refl eq_refl) as [H1 [H2 _]].
  split; [exact H1 | exact H2].
Defined.

(** C8, on the code: line 290 calls the library check only when the email
    has a user.  When the check raises on the password sent (the library
    encodes it, which a number, a list or an object does not allow), the
    login for an existing email leaves the handler with that exception,
    while the same password with an email no user has is answered 401
    "invalid_credentials": the two failures differ, and tell whether the
    email has an account. *)
Theorem login_failure_reveals_account :
  forall (check_password_hash : checker) (db : database)
         (body1 body2 : option json) (email1 email2 : string)
         (password : json) (u : User.t) (e : exn),
    login_fields body1 = Ok (email1, password) ->
    find_user db email1 = Some u ->
    check_password_hash (User.password_hash u) password = Raise e ->
    login_fields body2 = Ok (email2, password) ->
    find_user db email2 = None ->
    run_request (auth_login check_password_hash body1) db = (db, Raise e)
    /\ run_request (auth_login check_password_hash body2) db = (db, Ok denied)
    /\ status_of (rmap_fst (snd (run_request
                                   (auth_login check_password_hash body1) db)))
       = None
    /\ status_of (rmap_fst (snd (run_request
                                   (auth_login check_password_hash body2) db)))
       = Some 401.
Proof.
  intros check db body1 body2 email1 email2 password u e L1 F1 C1 L2 F2.
  rewrite (auth_login_run check body1 _ _ db L1), F1, C1.
  rewrite (auth_login_run check body2 _ _ db L2), F2.
  repeat split.
Qed.

Lemma login_failure_reveals_account_witness :
  run_request
    (auth_login toy_checker (login_with "ann@example.com" (JInt 5))) one_user
  = (one_user, Raise AttributeError)
  /\ run_request
       (auth_login toy_checker (login_with "bob@example.com" (JInt 5)))
       one_user
     = (one_user, Ok denied).
Proof.
  destruct (login_failure_reveals_account toy_checker one_user
              (login_with "ann@example.com" (JInt 5))
              (login_with "bob@example.com" (JInt 5))
              "ann@example.com" "bob@example.com" (JInt 5)
              (User.mk 1 "Ann" "ann@example.com" "hash:secret" 5)
              AttributeError
              eq_refl eq_refl eq_refl eq_refl eq_refl) as [H1 [H2 _]].
  split; [exact H1 | exact H2].
Defined.

(** ** The device row is committed before the rest of a save *)

Lemma has_device_insert (k : string) (d : Device.t) (now : Z) (x : transient)
    (db db' : database) (i : Z) :
  has_device k d db -> True -> insert now x db = Ok (i, db') ->
  has_device k d db' /\ (forall y : transient, True -> True).
Proof.
  intros H _ Hi. split; [|auto].
  destruct (insert_grows _ _ _ _ _ Hi) as [[l Hl] _].
  unfold has_device, find_device in *. rewrite Hl. now apply find_app_some.
Qed.

Lemma get_other_key (o v : json) (k k' : string) :
  Py.get o k = Ok v -> exists v', Py.get o k' = Ok v'.
Proof.
  unfold Py.get, Py.get_default. destruct o; try discriminate. eauto.
Qed.

(** C9: for a save request with a non-empty device id that has no row yet,
    [_ensure_device] returns with the new row in the committed store and
    nothing pending, before the recipe is looked at; and whatever the rest
    of the handler does (answer 200, roll back and answer 500, or raise),
    the store after the request has that row. *)
Theorem device_row_survives_save :
  forall (str_exn : wording) (now : Z) (request_body : option json)
         (payload : json) (k : string) (db : database),
    get_json_force request_body = Ok payload ->
    Py.get (Py.or_ payload (JObj [])) "device_id" = Ok (JStr k) ->
    Str.is_empty k = false ->
    find_device db k = None ->
    let d := Device.mk (next_id (map Device.id (devices db))) k now in
    _ensure_device now (JStr k) (open_session db)
    = (Ok (Some d), open_session (add_device d db))
    /\ find_device (fst (run_request (save str_exn now request_body) db)) k
       = Some d.
Proof.
  intros str_exn now request_body payload k db Hj Hg Hk Hn d.
  pose proof (ensure_device_run now k db Hk) as He.
  unfold with_device in He. rewrite Hn in He. simpl in He. fold d in He.
  split; [exact He|].
  destruct (get_other_key _ _ _ "recipe" Hg) as [rin Hr].
  unfold run_request, save. rewrite Hj.
  unfold bind at 1, lift at 1. rewrite Hg.
  unfold bind at 1, lift at 1. rewrite Hr.
  unfold bind at 1. rewrite He.
  assert (has_device k d (add_device d db)) as Hd.
  { unfold has_device, find_device in *. simpl. apply find_snoc; auto.
    simpl. apply String.eqb_refl. }
  pose proof (save_rest_inv (has_device k d) (fun _ _ => True)
                (has_device_insert k d) (fun _ _ _ => I) d
                (fun _ _ _ _ => I) str_exn now (Py.or_ rin (JObj []))
                (open_session (add_device d db))
                (inv_open _ _ _ Hd)) as Hrest.
  match goal with
  | |- context [let (r, s) := ?m ?s0 in _] =>
      destruct (m s0) as [[resp|e] s'] eqn:Em
  end; simpl; apply Hrest.
Qed.

Lemma device_row_survives_save_witness :
  status_of (snd (run_request (save toy_wording 10 (bad_level_body "devA"))
                    empty_database))
  = Some 500
  /\ find_device
       (fst (run_request (save toy_wording 10 (bad_level_body "devA"))
               empty_database))
       "devA"
     = Some (Device.mk 1 "devA" 10).
Proof.
  split; [reflexivity|].
  apply (device_row_survives_save toy_wording 10 (bad_level_body "devA")
           (JObj [("device_id", JStr "devA");
                  ("recipe", JObj [("level", JArr [JInt 1])])])
           "devA" empty_database); reflexivity.
Defined.

(** ** Defaults of the saved recipe *)

Lemma text_default (key : string) (v : option json) (dflt : string) (n : nat) :
  text_ok v = true -> Str.is_empty dflt = false ->
  (forall w, Py.slice_to n w = kept key w) ->
  Str.take n dflt = dflt ->
  exists s,
    Py.slice_to n (Py.or_ (value_of v) (JStr dflt)) = Ok (JStr s)
    /\ substituted key v (JStr dflt) (JStr s).
Proof.
  intros Hv Hd Hk Ht. unfold substituted, Py.or_.
  destruct v as [w|]; simpl in *.
  - destruct (Py.truthy w) eqn:T; simpl in Hv.
    + destruct w; try discriminate. rewrite <- Hk. simpl. eauto.
    + simpl. rewrite Ht. eauto.
  - rewrite Ht. eauto.
Qed.

Lemma text_default_plain (key : string) (v : option json) :
  text_ok v = true -> (forall w, kept key w = Ok w) ->
  exists s,
    Py.or_ (value_of v) (JStr "") = JStr s
    /\ substituted key v (JStr "") (JStr s).
Proof.
  intros Hv Hk. unfold substituted, Py.or_.
  destruct v as [w|]; simpl in *; [|eauto].
  destruct (Py.truthy w) eqn:T; simpl in Hv; [|eauto].
  destruct w; try discriminate. rewrite Hk. eauto.
Qed.

Lemma int_default (key : string) (v : option json) (dflt : Z) :
  int_ok v = true -> int64 dflt = true -> (forall w, kept key w = Ok w) ->
  exists z,
    Py.int (Py.or_ (value_of v) (JInt dflt)) = Ok z
    /\ int64 z = true /\ substituted key v (JInt dflt) (JInt z).
Proof.
  intros Hv Hd Hk. unfold substituted, Py.or_.
  destruct v as [w|]; simpl in *; [|exists dflt; auto].
  destruct (Py.truthy w) eqn:T; simpl in Hv; [|exists dflt; auto].
  destruct w; try discriminate. simpl. rewrite Hk. eauto.
Qed.

(** The dict [r] of a well-typed recipe object: text and integers, each
    the default or what is kept of the value sent. *)
Lemma recipe_of_well_typed (fields : list (string * json)) :
  well_typed fields = true ->
  exists t d tm sv l i,
    recipe_of (JObj fields)
    = Ok (recipe_dict (JStr t) (JStr d) tm sv (JStr l) (JStr i))
    /\ int64 tm = true /\ int64 sv = true
    /\ substituted "title" (Py.assoc "title" fields) (JStr "Recipe") (JStr t)
    /\ substituted "desc" (Py.assoc "desc" fields) (JStr "") (JStr d)
    /\ substituted "time" (Py.assoc "time" fields) (JInt 20) (JInt tm)
    /\ substituted "serves" (Py.assoc "serves" fields) (JInt 2) (JInt sv)
    /\ substituted "level" (Py.assoc "level" fields) (JStr "Easy") (JStr l)
    /\ substituted "img" (Py.assoc "img" fields) (JStr "") (JStr i).
Proof.
  unfold well_typed. rewrite !andb_true_iff.
  intros [[[[[H1 H2] H3] H4] H5] H6].
  destruct (text_default "title" _ "Recipe" 200 H1 eq_refl
              ltac:(reflexivity) eq_refl) as [t [E1 D1]].
  destruct (text_default_plain "desc" _ H2 ltac:(reflexivity)) as [d [E2 D2]].
  destruct (int_default "time" _ 20 H3 eq_refl ltac:(reflexivity))
    as [tm [E3 [I3 D3]]].
  destruct (int_default "serves" _ 2 H4 eq_refl ltac:(reflexivity))
    as [sv [E4 [I4 D4]]].
  destruct (text_default "level" _ "Easy" 16 H5 eq_refl
              ltac:(reflexivity) eq_refl) as [l [E5 D5]].
  destruct (text_default_plain "img" _ H6 ltac:(reflexivity)) as [i [E6 D6]].
  exists t, d, tm, sv, l, i.
  unfold recipe_of, Py.get, Py.get_default, value_of in *. simpl.
  rewrite E1. simpl. rewrite E2, E3. simpl. rewrite E4. simpl.
  rewrite E5. simpl. rewrite E6.
  repeat split; auto.
Qed.

Lemma recipe_row_typed (now : Z) (t d l i sig : string) (tm sv n : Z) :
  int64 tm = true -> int64 sv = true ->
  recipe_row now (recipe_dict (JStr t) (JStr d) tm sv (JStr l) (JStr i)) sig n
  = Ok (Recipe.mk n t d tm sv l i sig now).
Proof.
  intros H1 H2. unfold recipe_row, column_text, column_int, bind_int. simpl.
  now rewrite H1, H2.
Qed.

Lemma default_keys (key : string) (v : json) :
  Py.assoc key recipe_defaults = Some v ->
  (key = "title" /\ v = JStr "Recipe") \/ (key = "desc" /\ v = JStr "")
  \/ (key = "time" /\ v = JInt 20) \/ (key = "serves" /\ v = JInt 2)
  \/ (key = "level" /\ v = JStr "Easy") \/ (key = "img" /\ v = JStr "").
Proof.
  unfold recipe_defaults. simpl.
  repeat match goal with
         | |- context [String.eqb key ?k] =>
             destruct (String.eqb_spec key k) as [->|]
         end; try discriminate; intros [= <-]; tauto.
Qed.

Lemma signature_of_typed (t d l i : string) (tm sv : Z) :
  exists sig,
    _signature_of (recipe_dict (JStr t) (JStr d) tm sv (JStr l) (JStr i))
    = Ok sig.
Proof.
  unfold _signature_of, signature_field. simpl. unfold Py.or_. simpl.
  destruct (Str.is_empty t), (Str.is_empty d), (Str.is_empty i); simpl;
    eexists; reflexivity.
Qed.

Lemma typed_defaults (t d l i : string) (tm sv : Z)
    (fields : list (string * json)) (c : json) :
  substituted "title" (Py.assoc "title" fields) (JStr "Recipe") (JStr t) ->
  substituted "desc" (Py.assoc "desc" fields) (JStr "") (JStr d) ->
  substituted "time" (Py.assoc "time" fields) (JInt 20) (JInt tm) ->
  substituted "serves" (Py.assoc "serves" fields) (JInt 2) (JInt sv) ->
  substituted "level" (Py.assoc "level" fields) (JStr "Easy") (JStr l) ->
  substituted "img" (Py.assoc "img" fields) (JStr "") (JStr i) ->
  (forall key, key <> "id" ->
               Py.get c key
               = Py.get (recipe_dict (JStr t) (JStr d) tm sv (JStr l) (JStr i))
                   key) ->
  forall key dflt,
    Py.assoc key recipe_defaults = Some dflt ->
    exists x,
      Py.get c key = Ok x /\ substituted key (Py.assoc key fields) dflt x.
Proof.
  intros D1 D2 D3 D4 D5 D6 Hc key dflt Hd.
  apply default_keys in Hd.
  destruct Hd as [[-> ->]|[[-> ->]|[[-> ->]|[[-> ->]|[[-> ->]|[-> ->]]]]]];
    (rewrite Hc by discriminate); simpl; eauto.
Qed.

(** C10 as worded fails: a recipe object whose only field is a time that
    is no number has absent fields (title, desc, serves, level, img), yet
    the save does not succeed with the defaults: [int] raises on line 197,
    after the device row was committed, and nothing else is stored. *)
Lemma save_absent_fields_not_defaulted :
  Py.assoc "title" [("time", JStr "soon")] = None
  /\ run_request (save toy_wording 10 (soon_body "devA")) empty_database
     = (Database [Device.mk 1 "devA" 10] [] [] [], Raise ValueError)
  /\ status_of
       (snd (run_request (save toy_wording 10 (soon_body "devA"))
               empty_database))
     <> Some 200.
Proof.
  split; [reflexivity|]. split; [reflexivity|]. discriminate.
Qed.

(** C10, as the code has it: in any store reached by requests, a save request
    with a non-empty device id whose recipe object is missing, null or
    empty, or an object whose fields are each absent, falsy or of their
    type, succeeds.  The dict the handler works with holds, under each of
    the six keys, the default (title "Recipe", desc "", time 20, serves 2,
    level "Easy", img "") when the field is absent or falsy, and what is
    kept of the value sent otherwise (a title cut at 200 characters, a
    level at 16).  The answer is 200 with the id of the recipe row of its
    signature, saved:true unless the device had saved it before; after the
    request the device row, that recipe row and the link between them are
    in the store, and a recipe row made by this request holds the values
    of the dict. *)
Theorem save_substitutes_defaults :
  forall (rqs : list request) (str_exn : wording) (now : Z)
         (request_body : option json) (payload rin : json) (k : string)
         (fields : list (string * json)),
    let db := serve_all rqs empty_database in
    get_json_force request_body = Ok payload ->
    Py.get (Py.or_ payload (JObj [])) "device_id" = Ok (JStr k) ->
    Str.is_empty k = false ->
    Py.get (Py.or_ payload (JObj [])) "recipe" = Ok rin ->
    Py.or_ rin (JObj []) = JObj fields ->
    well_typed fields = true ->
    exists r sig d rec l db',
      decode_save request_body = Ok (JStr k, r, sig)
      /\ (forall key dflt,
             Py.assoc key recipe_defaults = Some dflt ->
             exists x,
               Py.get r key = Ok x
               /\ substituted key (Py.assoc key fields) dflt x)
      /\ (fields = [] -> r = JObj recipe_defaults)
      /\ run_request (save str_exn now request_body) db
         = (db',
            Ok (saved_response (negb (linked db k sig)) (Recipe.id rec)))
      /\ find_device db' k = Some d
      /\ find_recipe db' sig = Some rec
      /\ find_link db' (Device.id d) (Recipe.id rec) = Some l
      /\ (find_recipe db sig = None ->
          forall key dflt,
            Py.assoc key recipe_defaults = Some dflt ->
            exists x,
              Py.get (public rec) key = Ok x
              /\ substituted key (Py.assoc key fields) dflt x).
Proof.
  intros rqs str_exn now request_body payload rin k fields db
    Hj Hg Hk Hr Hf Hw.
  assert (wf db) as W by apply serve_all_wf, wf_empty.
  destruct (recipe_of_well_typed fields Hw)
    as [t [d [tm [sv [l [i [Er [I3 [I4 [D1 [D2 [D3 [D4 [D5 D6]]]]]]]]]]]]]].
  set (r := recipe_dict (JStr t) (JStr d) tm sv (JStr l) (JStr i)) in *.
  destruct (signature_of_typed t d l i tm sv) as [sig Es]. fold r in Es.
  assert (decode_save request_body = Ok (JStr k, r, sig)) as D.
  { unfold decode_save. rewrite Hj. simpl. rewrite Hg. simpl. rewrite Hr.
    simpl. rewrite Hf, Er. simpl. now rewrite Es. }
  assert (storable r) as St.
  { eexists. unfold r. now apply recipe_row_typed. }
  destruct (with_recipe_storable now r sig (snd (with_device now k db)) St)
    as [rec [db2 H]].
  destruct (save_pure_found str_exn _ _ _ _ _ _ _ H) as [Fd [Fr [lnk Fl]]].
  pose proof (save_run str_exn now request_body k r sig db D Hk) as R.
  assert (snd (save_pure str_exn now k r sig db)
          = saved_response (negb (linked db k sig)) (Recipe.id rec)) as Ea.
  { rewrite (save_pure_ok str_exn _ _ _ _ _ _ _ H). simpl.
    destruct (linked db k sig) eqn:L.
    - unfold linked in L.
      destruct (find_device db k) as [d0|] eqn:F1; [|discriminate].
      destruct (find_recipe db sig) as [rec0|] eqn:F2; [|discriminate].
      destruct (find_link db (Device.id d0) (Recipe.id rec0)) eqn:F3;
        [|discriminate].
      unfold with_device, with_recipe in H. rewrite F1 in H. simpl in H.
      rewrite F2 in H. injection H as <- <-.
      unfold with_device, with_link. rewrite F1. simpl. now rewrite F3.
    - unfold with_link.
      now rewrite (unlinked_fresh _ _ _ _ _ _ _ W L H). }
  rewrite Ea in R.
  eexists r, sig, _, rec, lnk, _.
  split; [exact D|].
  split; [|split; [|split; [exact R|split; [exact Fd|split; [exact Fr|
    split; [exact Fl|]]]]]].
  - apply (typed_defaults t d l i tm sv); auto.
  - intros ->. unfold r. simpl in *. injection D1 as ->. injection D2 as ->.
    injection D3 as ->. injection D4 as ->. injection D5 as ->.
    injection D6 as ->. reflexivity.
  - intros Fn. apply (typed_defaults t d l i tm sv); auto.
    intros key Hkey.
    unfold with_recipe in H.
    destruct (with_device_frame now k db) as [Dr _].
    rewrite (find_recipe_ext _ _ _ Dr), Fn in H.
    unfold r in H. rewrite recipe_row_typed in H by assumption.
    simpl in H. injection H as <- _.
    unfold public, recipe_dict, Py.get, Py.get_default. simpl.
    destruct (String.eqb_spec key "id"); [contradiction | reflexivity].
Qed.

Lemma save_substitutes_defaults_witness :
  exists r sig d rec l db',
    decode_save (bare_body "devA") = Ok (JStr "devA", r, sig)
    /\ r = JObj recipe_defaults
    /\ run_request (save toy_wording 10 (bare_body "devA")) empty_database
       = (db', Ok (saved_response true (Recipe.id rec)))
    /\ find_device db' "devA" = Some d
    /\ find_recipe db' sig = Some rec
    /\ find_link db' (Device.id d) (Recipe.id rec) = Some l.
Proof.
  destruct (save_substitutes_defaults [] toy_wording 10 (bare_body "devA")
              (JObj [("device_id", JStr "devA")]) JNull "devA" []
              eq_refl eq_refl eq_refl eq_refl eq_refl eq_refl)
    as [r [sig [d [rec [l [db' [D [_ [E [R [Fd [Fr [Fl _]]]]]]]]]]]]].
  exists r, sig, d, rec, l, db'.
  split; [exact D|]. split; [exact (E eq_refl)|].
  split; [|split; [exact Fd|split; [exact Fr|exact Fl]]].
  rewrite (E eq_refl) in D. injection D as <-. exact R.
Defined.

(** ** The loser of a race for a link *)

(** A request that finds no link at line 210 goes on with
    [save_resume]. *)
Lemma save_try_resume (str_exn : wording) (now : Z) (d : Device.t) (r : json)
    (sig : string) (s s1 : session) (rec : Recipe.t) :
  resolve_recipe now r sig s = (Ok rec, s1) ->
  find_link (work s1) (Device.id d) (Recipe.id rec) = None ->
  save_try str_exn now d r sig s = save_resume str_exn now d rec s1.
Proof.
  intros H F. unfold save_try, save_resume, try_except, bind. rewrite H.
  unfold resolve_link, bind, query. simpl. now rewrite F.
Qed.

(** The first request of the race, up to line 210. *)
Example race_first_request :
  _ensure_device 10 (JStr "devA") (open_session empty_database)
  = (Ok (Some race_device), open_session (Database [race_device] [] [] []))
  /\ resolve_recipe 10
       (recipe_dict (JStr "Soup") (JStr "") 20 2 (JStr "Easy") (JStr ""))
       "soup||" (open_session (Database [race_device] [] [] []))
     = (Ok race_recipe, open_session race_store_before)
  /\ find_link race_store_before 1 1 = None
  /\ decode_save (save_body "devA" "Soup")
     = Ok (JStr "devA",
           recipe_dict (JStr "Soup") (JStr "") 20 2 (JStr "Easy") (JStr ""),
           "soup||").
Proof. repeat split. Qed.

(** C5, on the code: when the link is in the store by the time the request
    inserts it, the insert raises the constraint violation, the handler
    rolls back and answers 200 with saved:false and "Already saved", but
    without the recipe id; the answer differs from the one line 212 gives
    when the link is found. *)
Theorem save_race_loser_answer :
  forall (str_exn : wording) (now : Z) (d : Device.t) (rec : Recipe.t)
         (db : database) (l : SavedRecipe.t),
    find_link db (Device.id d) (Recipe.id rec) = Some l ->
    save_resume str_exn now d rec (open_session db)
    = (Ok integrity_response, open_session db)
    /\ resolve_link now d rec (open_session db)
       = (Ok (saved_response false (Recipe.id rec)), open_session db)
    /\ Py.get (body integrity_response) "recipe_id" = Ok JNull
    /\ Py.get (body (saved_response false (Recipe.id rec))) "recipe_id"
       = Ok (JInt (Recipe.id rec))
    /\ integrity_response <> saved_response false (Recipe.id rec).
Proof.
  intros str_exn now d rec db l F. split; [|split; [|split; [|split]]].
  - unfold save_resume, try_except, insert_link, bind, add, commit. simpl.
    now rewrite F.
  - rewrite resolve_link_run. unfold with_link. now rewrite F.
  - reflexivity.
  - reflexivity.
  - discriminate.
Qed.

Lemma save_race_loser_answer_witness :
  save_resume toy_wording 10 race_device race_recipe (open_session race_store)
  = (Ok integrity_response, open_session race_store)
  /\ resolve_link 10 race_device race_recipe (open_session race_store)
     = (Ok (saved_response false 1), open_session race_store).
Proof.
  destruct (save_race_loser_answer toy_wording 10 race_device race_recipe
              race_store
              (SavedRecipe.mk 1 1 1 11) eq_refl) as [H1 [H2 _]].
  split; [exact H1 | exact H2].
Defined.

(* ================================================================== *)
(** * Part III: further properties of the code *)
(* ================================================================== *)

(** ** [str.strip] and [str.lower] *)

Lemma lstrip_fixed (s : string) : Str.lstrip (Str.lstrip s) = Str.lstrip s.
Proof.
  induction s as [|c s IH]; simpl; [reflexivity|].
  destruct (Str.is_space c) eqn:E; [assumption|]. simpl. now rewrite E.
Qed.

Lemma rstrip_fixed (s : string) : Str.rstrip (Str.rstrip s) = Str.rstrip s.
Proof.
  induction s as [|c s IH]; simpl; [reflexivity|].
  destruct (Str.rstrip s) as [|c' r] eqn:R.
  - destruct (Str.is_space c) eqn:E; simpl; [reflexivity | now rewrite E].
  - change (Str.rstrip (String c (String c' r))) with
      (match Str.rstrip (String c' r) with
       | EmptyString =>
           if Str.is_space c then EmptyString else String c EmptyString
       | x => String c x
       end).
    now rewrite IH.
Qed.

(** What [rstrip] leaves of a text that starts with a character that is
    not white space starts with that character. *)
Lemma rstrip_head (c : ascii) (s : string) :
  Str.is_space c = false ->
  exists r, Str.rstrip (String c s) = String c r.
Proof.
  intros E. simpl. destruct (Str.rstrip s); [rewrite E|]; eauto.
Qed.

Lemma strip_fixed (s : string) : Str.strip (Str.strip s) = Str.strip s.
Proof.
  unfold Str.strip.
  assert (Str.lstrip (Str.rstrip (Str.lstrip s)) = Str.rstrip (Str.lstrip s))
    as ->; [|apply rstrip_fixed].
  induction s as [|c s IH]; simpl; [reflexivity|].
  destruct (Str.is_space c) eqn:E; [assumption|].
  destruct (rstrip_head c s E) as [r Hr]. rewrite Hr. simpl. now rewrite E.
Qed.

Lemma is_space_lower (c : ascii) :
  Str.is_space (Str.lower_char c) = Str.is_space c.
Proof.
  destruct c as [[] [] [] [] [] [] [] []]; reflexivity.
Qed.

Lemma lower_char_fixed (c : ascii) :
  Str.lower_char (Str.lower_char c) = Str.lower_char c.
Proof.
  destruct c as [[] [] [] [] [] [] [] []]; reflexivity.
Qed.

Lemma lower_fixed (s : string) : Str.lower (Str.lower s) = Str.lower s.
Proof.
  induction s as [|c s IH]; simpl; [reflexivity|].
  now rewrite lower_char_fixed, IH.
Qed.

Lemma lstrip_lower (s : string) :
  Str.lstrip (Str.lower s) = Str.lower (Str.lstrip s).
Proof.
  induction s as [|c s IH]; simpl; [reflexivity|].
  rewrite is_space_lower. now destruct (Str.is_space c).
Qed.

Lemma rstrip_lower (s : string) :
  Str.rstrip (Str.lower s) = Str.lower (Str.rstrip s).
Proof.
  induction s as [|c s IH]; simpl; [reflexivity|].
  rewrite IH, is_space_lower.
  destruct (Str.rstrip s); simpl; [now destruct (Str.is_space c) | reflexivity].
Qed.

Lemma strip_lower_commute (s : string) :
  Str.strip (Str.lower s) = Str.lower (Str.strip s).
Proof. unfold Str.strip. now rewrite lstrip_lower, rstrip_lower. Qed.

Lemma norm_fixed (s : string) : norm (norm s) = norm s.
Proof.
  unfold norm. now rewrite strip_lower_commute, strip_fixed, lower_fixed.
Qed.

Lemma lower_length (s : string) : String.length (Str.lower s) = String.length s.
Proof. induction s; simpl; auto. Qed.

Lemma is_empty_lower (s : string) :
  Str.is_empty (Str.lower s) = Str.is_empty s.
Proof. now destruct s. Qed.

(** ** More on [_signature_of] *)

Lemma signature_of_texts (t d i : string) (tm sv : Z) (lv : json) :
  _signature_of (recipe_dict (JStr t) (JStr d) tm sv lv (JStr i))
  = Ok (Str.take 191 (norm t ++ "|" ++ norm d ++ "|" ++ norm i)).
Proof.
  unfold _signature_of, signature_field, norm. simpl. unfold Py.or_. simpl.
  destruct t, d, i; reflexivity.
Qed.

(** The signature does not look at time, serves or level, and it is the
    same for a recipe and for the recipe with its title, desc and img
    replaced by their normal forms (stripped, lower-cased). *)
Theorem signature_of_normal_form :
  forall (t d i : string) (tm sv tm' sv' : Z) (lv lv' : json),
    _signature_of
      (recipe_dict (JStr (norm t)) (JStr (norm d)) tm' sv' lv' (JStr (norm i)))
    = _signature_of (recipe_dict (JStr t) (JStr d) tm sv lv (JStr i)).
Proof.
  intros. rewrite !signature_of_texts. now rewrite !norm_fixed.
Qed.

Lemma take_app_long (n : nat) (a b : string) :
  (n <= String.length a)%nat -> Str.take n (a ++ b) = Str.take n a.
Proof.
  revert a. induction n as [|n IH]; intros [|c a]; simpl; intros H;
    try reflexivity; try lia.
  f_equal. apply IH. lia.
Qed.

(** Titles of at least 191 characters (in normal form) that agree on their
    first 191 characters get the same signature, whatever follows and
    whatever desc and img are: the signature is the common prefix. *)
Theorem signature_collides_after_191 :
  forall (t1 t2 d1 d2 i1 i2 : string) (tm1 sv1 tm2 sv2 : Z) (lv1 lv2 : json),
    (191 <= String.length (norm t1))%nat ->
    Str.take 191 (norm t1) = Str.take 191 (norm t2) ->
    _signature_of (recipe_dict (JStr t1) (JStr d1) tm1 sv1 lv1 (JStr i1))
    = Ok (Str.take 191 (norm t1))
    /\ _signature_of (recipe_dict (JStr t2) (JStr d2) tm2 sv2 lv2 (JStr i2))
       = Ok (Str.take 191 (norm t1)).
Proof.
  intros t1 t2 d1 d2 i1 i2 tm1 sv1 tm2 sv2 lv1 lv2 H1 E.
  assert (191 <= String.length (norm t2))%nat as H2.
  { pose proof (take_length 191 (norm t1)) as L1.
    pose proof (take_length 191 (norm t2)) as L2.
    rewrite E in L1. lia. }
  rewrite !signature_of_texts. split.
  - now rewrite take_app_long.
  - now rewrite take_app_long, E.
Qed.

Lemma signature_collides_after_191_witness :
  _signature_of
    (recipe_dict (JStr (xs 191 ++ " with rice")) (JStr "boiled") 20 2
       (JStr "Easy") (JStr ""))
  = Ok (xs 191)
  /\ _signature_of
       (recipe_dict (JStr (xs 191 ++ " with beans")) (JStr "fried") 45 6
          (JStr "Hard") (JStr "https://example.com/b.png"))
     = Ok (xs 191).
Proof.
  apply (signature_collides_after_191 (xs 191 ++ " with rice")
           (xs 191 ++ " with beans")).
  - vm_compute. lia.
  - reflexivity.
Defined.

(** ** More on [/api/suggest] *)

Lemma keep_ingredient_stripped (v : json) :
  Forall (fun s => Str.is_empty s = false /\ Str.strip s = s)
    (keep_ingredient v).
Proof.
  destruct v; simpl; try constructor.
  destruct (Str.is_empty (Str.strip s)) eqn:E; constructor; [|constructor].
  split; [assumption | apply strip_fixed].
Qed.

(** Every ingredient the handler works with is a non-empty text without
    white space at either end. *)
Theorem ingredients_are_stripped :
  forall (request_json : json) (ings : list string),
    ingredients_of request_json = Ok ings ->
    Forall (fun s => Str.is_empty s = false /\ Str.strip s = s) ings.
Proof.
  unfold ingredients_of. intros j ings H. bind_ok H. bind_ok H.
  injection H as <-. clear. induction a0 as [|v l IH]; simpl; [constructor|].
  apply Forall_app. split; [apply keep_ingredient_stripped | exact IH].
Qed.

Lemma ingredients_are_stripped_witness :
  Forall (fun s => Str.is_empty s = false /\ Str.strip s = s) ["egg"; "rice"].
Proof.
  apply (ingredients_are_stripped
           (JObj [("ingredients",
                   JArr [JStr " egg "; JInt 3; JStr "  "; JStr "rice"])])).
  reflexivity.
Defined.

Lemma blank_dropped (l : list json) :
  Forall blank l -> flat_map keep_ingredient l = [].
Proof.
  induction 1 as [|v l Hv Hl IH]; simpl; [reflexivity|].
  rewrite IH, app_nil_r. destruct v; simpl in *; try reflexivity.
  now rewrite Hv.
Qed.

Lemma ingredients_of_blank (kv : list (string * json)) (l : list json) :
  Py.assoc "ingredients" kv = None
  \/ (Py.assoc "ingredients" kv = Some (JArr l) /\ Forall blank l) ->
  ingredients_of (JObj kv) = Ok [].
Proof.
  intros H. unfold ingredients_of.
  assert (Py.or_ (JObj kv) (JObj []) = JObj kv) as -> by now destruct kv.
  unfold Py.get_default. destruct H as [->|[-> Hb]]; simpl; [reflexivity|].
  now rewrite (blank_dropped _ Hb).
Qed.

(** A body without an ingredients key, or whose ingredients are all
    non-strings or white space, is answered 400 whether or not a client is
    configured: the provider is not asked. *)
Theorem suggest_rejects_blank :
  forall (client : option provider) (kv : list (string * json))
         (l : list json),
    Py.assoc "ingredients" kv = None
    \/ (Py.assoc "ingredients" kv = Some (JArr l) /\ Forall blank l) ->
    suggest client (Some (JObj kv)) = Ok no_ingredients_response.
Proof.
  intros client kv l H. unfold suggest. simpl get_json_silent.
  now rewrite (ingredients_of_blank kv l H).
Qed.

Lemma suggest_rejects_blank_witness :
  suggest (Some careless_provider)
    (Some (JObj [("ingredients", JArr [JStr "   "; JInt 7; JNull])]))
  = Ok no_ingredients_response.
Proof.
  apply (suggest_rejects_blank (Some careless_provider) _
           [JStr "   "; JInt 7; JNull]).
  right. split; [reflexivity|]. repeat constructor.
Defined.

Lemma rmap_raise {A B} (f : A -> result B) (l : list A) (x : A) (e : exn) :
  In x l -> f x = Raise e -> exists e', rmap f l = Raise e'.
Proof.
  induction l as [|y l IH]; simpl; [tauto|].
  intros [->|Hin] Hx.
  - rewrite Hx. eauto.
  - destruct (f y); [|eauto]. destruct (IH Hin Hx) as [e' ->]. eauto.
Qed.

(** Only the first three recipes of the provider's payload are looked at:
    the answer is the same as for the payload cut after the third. *)
Theorem suggest_first_three_recipes :
  forall (request_body : option json) (l : list json),
    suggest (Some (replying (JObj [("recipes", JArr l)]))) request_body
    = suggest (Some (replying (JObj [("recipes", JArr (firstn 3 l))])))
        request_body.
Proof.
  intros request_body l. unfold suggest.
  destruct (ingredients_of (get_json_silent request_body)) as [ings|e];
    [|reflexivity].
  simpl. destruct ings as [|i ings]; [reflexivity|].
  unfold suggest_remote, replying. simpl.
  destruct l as [|a [|b [|c l']]]; reflexivity.
Qed.

(** When one of the first three recipes of the payload cannot be turned
    into a candidate (it is not an object, its title is a number, its time
    is not a number, ...), none of the provider's recipes is used: the
    answer is the three local candidates. *)
Theorem suggest_malformed_recipe_falls_back :
  forall (ask : provider) (request_body : option json) (ings : list string)
         (payload : json) (l : list json) (r : json) (e : exn),
    ingredients_of (get_json_silent request_body) = Ok ings -> ings <> [] ->
    ask (prompt ings) = Parsed payload ->
    Py.get payload "recipes" = Ok (JArr l) ->
    In r (firstn 3 l) -> candidate r = Raise e ->
    suggest (Some ask) request_body = Ok (local_response ings).
Proof.
  intros ask request_body ings payload l r e Hi Hne Ha Hg Hin Hr.
  unfold suggest. rewrite Hi. simpl.
  destruct ings as [|i ings]; [congruence|].
  assert (exists e', suggest_remote ask (i :: ings) = Raise e') as [e' ->];
    [|reflexivity].
  unfold suggest_remote. rewrite Ha, Hg. cbn [rbind].
  assert (Py.slice_to 3 (Py.or_ (JArr l) (JArr [])) = Ok (JArr (firstn 3 l)))
    as ->.
  { destruct l; reflexivity. }
  cbn [rbind Py.iter].
  destruct (rmap_raise candidate _ r e Hin Hr) as [e' ->]. simpl. eauto.
Qed.

Lemma suggest_malformed_recipe_falls_back_witness :
  suggest
    (Some (replying
             (JObj [("recipes",
                     JArr [JObj [("title", JStr "Omelette")];
                           JObj [("title", JStr "Pilaf");
                                 ("time", JStr "soon")]])])))
    egg_request
  = Ok (local_response ["egg"]).
Proof.
  apply (suggest_malformed_recipe_falls_back _ egg_request ["egg"]
           (JObj [("recipes",
                   JArr [JObj [("title", JStr "Omelette")];
                         JObj [("title", JStr "Pilaf");
                               ("time", JStr "soon")]])])
           [JObj [("title", JStr "Omelette")];
            JObj [("title", JStr "Pilaf"); ("time", JStr "soon")]]
           (JObj [("title", JStr "Pilaf"); ("time", JStr "soon")])
           ValueError).
  - reflexivity.
  - discriminate.
  - reflexivity.
  - reflexivity.
  - right. left. reflexivity.
  - reflexivity.
Defined.

(** ** What the handlers leave alone *)

(** An invariant of the store that inserts of devices, recipes and links
    keep is kept by [/api/save], whatever the request and the outcome. *)
Lemma save_keeps (J : database -> Prop) (V : transient -> Prop) :
  (forall now x db db' i,
      J db -> V x -> insert now x db = Ok (i, db') -> J db') ->
  (forall v, V (NewDevice v)) -> (forall r sig, V (NewRecipe r sig)) ->
  (forall d r, V (NewSavedRecipe d r)) ->
  forall str_exn now request_body db,
    J db -> J (fst (run_request (save str_exn now request_body) db)).
Proof.
  intros HJ Vd Vr Vl str_exn now request_body db Hdb.
  set (W := fun (_ : database) x => V x).
  assert (forall now x db db' i,
             J db -> W db x -> insert now x db = Ok (i, db') ->
             J db' /\ (forall y, W db y -> W db' y)) as HJ'.
  { intros. split; [eapply HJ; eauto | auto]. }
  assert (hoare (inv J W) (save str_exn now request_body) (fun _ => inv J W)
            (inv J W))
    as Hs.
  { unfold save. destruct (get_json_force request_body) as [payload|e].
    2:{ apply hoare_ret; auto. }
    eapply hoare_bind; [apply hoare_lift with (Q := fun _ => inv J W); auto|].
    intros v.
    eapply hoare_bind; [apply hoare_lift with (Q := fun _ => inv J W); auto|].
    intros rin.
    eapply hoare_bind;
      [apply (ensure_device_inv J W HJ'); intros; apply Vd|].
    intros [d|]; [|apply hoare_ret; auto].
    apply (save_rest_inv J W HJ'); intros; [apply Vr | apply Vl]. }
  unfold run_request. specialize (Hs _ (inv_open J W db Hdb)).
  destruct (save str_exn now request_body (open_session db)) as [[a|e] s]; simpl;
    apply Hs.
Qed.

(** An invariant of the store that deleting links keeps is kept by
    [/api/clear], whatever the request and the outcome. *)
Lemma clear_saved_keeps (J : database -> Prop) :
  (forall gone db, J db -> J (without_links gone db)) ->
  forall now request_body db,
    J db -> J (fst (run_request (clear_saved now request_body) db)).
Proof.
  intros HJ now request_body db Hdb.
  set (W := fun (_ : database) (_ : transient) => False).
  assert (hoare (inv J W) (clear_saved now request_body)
            (fun _ => inv J W) (inv J W)) as Hc.
  { apply (clear_saved_inv J W); [intros; contradiction | exact HJ | auto]. }
  unfold run_request. specialize (Hc _ (inv_open J W db Hdb)).
  destruct (clear_saved now request_body (open_session db)) as [[a|e] s];
    simpl; apply Hc.
Qed.

Lemma extends_refl (db : database) : extends db db.
Proof.
  repeat split; try (exists []; now rewrite app_nil_r).
Qed.

Lemma insert_extends (now : Z) (x : transient) (db0 db db' : database) (i : Z) :
  extends db0 db -> not_user x -> insert now x db = Ok (i, db') ->
  extends db0 db'.
Proof.
  intros [[ld Hd] [[lr Hr] [[ll Hl] Hu]]] Hx H.
  destruct x as [v|r sig|d r|n e h]; simpl in H; [| | |contradiction].
  - bind_ok H. destruct (find_device db a); [discriminate|].
    injection H as <- <-. unfold extends. simpl.
    rewrite Hd, <- app_assoc. eauto 10.
  - bind_ok H. destruct (find_recipe db sig); [discriminate|].
    injection H as <- <-. unfold extends. simpl.
    rewrite Hr, <- app_assoc. eauto 10.
  - destruct (find_link db d r); [discriminate|].
    injection H as <- <-. unfold extends. simpl.
    rewrite Hl, <- app_assoc. eauto 10.
Qed.

(** [/api/save] only appends: after any save request, whatever its body
    and its outcome, the devices, recipes and links that were in the store
    are still there, unchanged and in the same order, followed by the new
    rows; the users are untouched. *)
Theorem save_only_appends :
  forall (str_exn : wording) (now : Z) (request_body : option json)
         (db : database),
    extends db (fst (run_request (save str_exn now request_body) db)).
Proof.
  intros str_exn now request_body db.
  apply (save_keeps (extends db) not_user); try (intros; exact I).
  - intros. eapply insert_extends; eauto.
  - apply extends_refl.
Qed.

Lemma filter_filter_and {A} (p q : A -> bool) (l : list A) :
  filter q (filter p l) = filter (fun x => p x && q x) l.
Proof.
  induction l as [|x l IH]; simpl; [reflexivity|].
  destruct (p x); simpl; [destruct (q x)|]; now rewrite IH.
Qed.

(** [/api/clear] only deletes links: after any clear request, whatever its
    body and its outcome, devices, recipes and users are as they were and
    the links are some of the links that were there, in the same order. *)
Theorem clear_saved_only_deletes_links :
  forall (now : Z) (request_body : option json) (db : database),
    fewer_links db (fst (run_request (clear_saved now request_body) db)).
Proof.
  intros now request_body db.
  apply (clear_saved_keeps (fewer_links db)).
  - intros gone d [Hd [Hr [Hu [keep Hk]]]]. unfold fewer_links. simpl.
    repeat split; auto. rewrite Hk, filter_filter_and. eauto.
  - repeat split. exists (fun _ => true).
    clear. induction (saved_recipes db) as [|l ls IH]; simpl; congruence.
Qed.

(** Reads keep any property of the session. *)
Lemma read_lift {A} (P : session -> Prop) (r : result A) :
  hoare P (lift r) (fun _ => P) P.
Proof. apply hoare_lift; auto. Qed.

Lemma read_query {A} (P : session -> Prop) (f : database -> A) :
  hoare P (query f) (fun _ => P) P.
Proof.
  eapply hoare_post; [apply hoare_query | intros a s H; apply H].
Qed.

Lemma read_query_result {A} (P : session -> Prop) (f : database -> result A) :
  hoare P (query_result f) (fun _ => P) P.
Proof.
  eapply hoare_post; [apply hoare_query_result | intros a s H; apply H].
Qed.

Lemma read_query_device (P : session -> Prop) (v : json) :
  hoare P (query_device v) (fun _ => P) P.
Proof.
  eapply hoare_post; [apply hoare_query_device | intros a s H; apply H].
Qed.

Ltac reads :=
  repeat first
    [ apply hoare_ret; solve [auto]
    | apply read_lift | apply read_query | apply read_query_result
    | apply read_query_device
    | eapply hoare_bind;
      [ first [ apply read_lift | apply read_query | apply read_query_result
              | apply read_query_device ]
      | intros ? ]
    | match goal with
      | |- hoare _ (match ?x with _ => _ end) _ _ => destruct x
      end ].

Lemma run_reader {A} (h : M A) (db : database) :
  hoare (fun s => store s = db) h (fun _ s => store s = db)
    (fun s => store s = db) ->
  fst (run_request h db) = db.
Proof.
  intros H. unfold run_request. specialize (H (open_session db) eq_refl).
  destruct (h (open_session db)) as [[a|e] s]; exact H.
Qed.

(** [/api/history], [/auth/login] and [/auth/me] only read: whatever the
    request and the outcome (an answer or an exception), the store after
    the request is the store before it. *)
Theorem readers_leave_store :
  forall (db : database) (device_id : option string)
         (check_password_hash : checker) (request_body : option json)
         (uid : cookie),
    fst (run_request (history device_id) db) = db
    /\ fst (run_request (auth_login check_password_hash request_body) db) = db
    /\ fst (run_request (auth_me uid) db) = db.
Proof.
  intros db device_id check request_body uid.
  split; [|split]; apply run_reader.
  - unfold history. reads.
  - unfold auth_login. reads.
  - unfold auth_me. eapply hoare_bind with (R := fun _ s => store s = db).
    + unfold current_user. destruct uid as [id|]; [destruct (id =? 0)|];
        reads.
    + intros u. reads.
Qed.

(** ** More on [/api/save] and [_ensure_device] *)

(** A save request whose body does not parse is answered 400
    "invalid_json"; one whose device id is missing, null or otherwise
    falsy is answered 400 "missing device_id", before the recipe is looked
    at.  Neither changes the store. *)
Theorem save_rejects_without_device :
  forall (str_exn : wording) (now : Z) (db : database),
    run_request (save str_exn now None) db = (db, Ok invalid_json_response)
    /\ forall (payload v : json),
         Py.get (Py.or_ payload (JObj [])) "device_id" = Ok v ->
         Py.truthy v = false ->
         run_request (save str_exn now (Some payload)) db
         = (db, Ok missing_device_response).
Proof.
  intros str_exn now db. split; [reflexivity|].
  intros payload v Hg Hv.
  destruct (get_other_key _ _ _ "recipe" Hg) as [rin Hr].
  unfold run_request, save.
  change (get_json_force (Some payload)) with (@Ok json payload).
  unfold bind at 1, lift at 1. rewrite Hg.
  unfold bind at 1, lift at 1. rewrite Hr.
  unfold bind at 1, _ensure_device. rewrite Hv. reflexivity.
Qed.

Lemma save_rejects_without_device_witness :
  run_request (save toy_wording 10 anonymous_body) soup_store
  = (soup_store, Ok missing_device_response).
Proof.
  destruct (save_rejects_without_device toy_wording 10 soup_store) as [_ H].
  apply (H (JObj [("device_id", JStr ""); ("recipe", JInt 7)]) (JStr ""));
    reflexivity.
Defined.

(** [_ensure_device] is idempotent: for a non-empty device id it returns a
    row with that id, which is the row found from then on; served again
    it returns the same row and leaves the store as it is.  When the id
    already has a row, the first call changes nothing either. *)
Theorem ensure_device_idempotent :
  forall (now1 now2 : Z) (k : string) (db : database),
    Str.is_empty k = false ->
    exists d db1,
      run_request (_ensure_device now1 (JStr k)) db = (db1, Ok (Some d))
      /\ run_request (_ensure_device now2 (JStr k)) db1 = (db1, Ok (Some d))
      /\ Device.device_id d = k
      /\ find_device db1 k = Some d
      /\ (forall d', find_device db k = Some d' -> d = d' /\ db1 = db).
Proof.
  intros now1 now2 k db Hk.
  exists (fst (with_device now1 k db)), (snd (with_device now1 k db)).
  pose proof (with_device_found now1 k db) as F.
  unfold run_request. rewrite !(ensure_device_run _ _ _ Hk). simpl.
  split; [reflexivity|]. split; [|split; [|split; [exact F|]]].
  - unfold with_device at 1 3. rewrite F. reflexivity.
  - unfold find_device in F.
    now apply (find_key_eq Device.device_id String.eqb _ _ _ String.eqb_eq)
      in F as [_ F].
  - intros d' F'. unfold with_device. rewrite F'. auto.
Qed.

Lemma ensure_device_idempotent_witness :
  exists d db1,
    run_request (_ensure_device 10 (JStr "devA")) empty_database
    = (db1, Ok (Some d))
    /\ run_request (_ensure_device 20 (JStr "devA")) db1 = (db1, Ok (Some d)).
Proof.
  destruct (ensure_device_idempotent 10 20 "devA" empty_database eq_refl)
    as [d [db1 [H1 [H2 _]]]].
  exists d, db1. split; [exact H1 | exact H2].
Defined.

(** Whatever save and clear requests were served: no two device rows have
    the same device id or the same key, no two recipe rows have the same
    key or the same signature, no two links join the same device and
    recipe, and every link points to a device row and a recipe row that
    exist. *)
Theorem store_integrity :
  forall (rqs : list request),
    let db := serve_all rqs empty_database in
    NoDup (map Device.device_id (devices db))
    /\ NoDup (map Device.id (devices db))
    /\ NoDup (map Recipe.id (recipes db))
    /\ NoDup (map Recipe.signature (recipes db))
    /\ NoDup (map link_pair (saved_recipes db))
    /\ forall l, In l (saved_recipes db) ->
                 (exists d, get_device db (SavedRecipe.device_id_fk l) = Some d)
                 /\ (exists r,
                        get_recipe db (SavedRecipe.recipe_id_fk l) = Some r).
Proof.
  intros rqs db.
  assert (wf db) as [W1 W2 W3 W4 W5 W6 W7] by apply serve_all_wf, wf_empty.
  repeat (split; [assumption|]).
  intros l Hl. split.
  - apply (find_some_key Device.id Z.eqb); [apply Z.eqb_eq | auto].
  - apply (find_some_key Recipe.id Z.eqb); [apply Z.eqb_eq | auto].
Qed.

(** A recipe whose signature is new and whose row the store cannot hold
    (a level that is a list, a time beyond 64 bits) is answered 500
    "save_failed", with the text of the exception as the detail: the store
    gains the device row if it was new, and no recipe and no link. *)
Theorem save_unstorable_recipe :
  forall (str_exn : wording) (now : Z) (request_body : option json)
         (k : string) (r : json) (sig : string) (db : database) (e : exn),
    decode_save request_body = Ok (JStr k, r, sig) ->
    Str.is_empty k = false ->
    find_recipe db sig = None ->
    recipe_row now r sig (next_id (map Recipe.id (recipes db))) = Raise e ->
    exists db',
      run_request (save str_exn now request_body) db
      = (db', Ok (save_failed_response (str_exn e)))
      /\ db' = snd (with_device now k db)
      /\ recipes db' = recipes db /\ saved_recipes db' = saved_recipes db
      /\ exists d, find_device db' k = Some d.
Proof.
  intros str_exn now request_body k r sig db e D Hk Fn Hr.
  destruct (with_device_frame now k db) as [Dr Dl].
  exists (snd (with_device now k db)).
  rewrite (save_run str_exn now request_body k r sig db D Hk).
  unfold save_pure.
  pose proof (with_device_found now k db) as Fd.
  destruct (with_device now k db) as [d db1]. simpl in *.
  unfold with_recipe. rewrite (find_recipe_ext _ _ _ Dr), Fn, Dr, Hr. simpl.
  repeat split; auto. eauto.
Qed.

Lemma save_unstorable_recipe_witness :
  exists db',
    run_request (save toy_wording 10 (bad_level_body "devA")) empty_database
    = (db', Ok (save_failed_response (toy_wording DBAPIError)))
    /\ recipes db' = [] /\ saved_recipes db' = [].
Proof.
  destruct (save_unstorable_recipe toy_wording 10 (bad_level_body "devA")
              "devA"
              (recipe_dict (JStr "Recipe") (JStr "") 20 2 (JArr [JInt 1])
                 (JStr ""))
              "recipe||" empty_database DBAPIError
              eq_refl eq_refl eq_refl eq_refl)
    as [db' [H [_ [Hr [Hl _]]]]].
  exists db'. split; [exact H|]. split; [exact Hr | exact Hl].
Defined.

(** A recipe whose signature is already in the table is not stored again
    and does not touch the row that is there: the answer carries the id of
    that row, also when the request's time, serves or level differ from
    the row's or could not be stored. *)
Theorem save_reuses_recipe_row :
  forall (str_exn : wording) (now : Z) (request_body : option json)
         (k : string) (r : json) (sig : string) (db : database)
         (rec : Recipe.t),
    decode_save request_body = Ok (JStr k, r, sig) ->
    Str.is_empty k = false ->
    find_recipe db sig = Some rec ->
    exists fresh db',
      run_request (save str_exn now request_body) db
      = (db', Ok (saved_response fresh (Recipe.id rec)))
      /\ recipes db' = recipes db
      /\ find_recipe db' sig = Some rec.
Proof.
  intros str_exn now request_body k r sig db rec D Hk Fr.
  destruct (with_device_frame now k db) as [Dr Dl].
  assert (with_recipe now r sig (snd (with_device now k db))
          = Ok (rec, snd (with_device now k db))) as H.
  { unfold with_recipe. now rewrite (find_recipe_ext _ _ _ Dr), Fr. }
  rewrite (save_run str_exn now request_body k r sig db D Hk).
  rewrite (save_pure_ok str_exn _ _ _ _ _ _ _ H). simpl.
  destruct (with_link_frame now (Device.id (fst (with_device now k db)))
              (Recipe.id rec) (snd (with_device now k db))) as [_ Lr].
  eexists _, _. split; [reflexivity|].
  split; [now rewrite Lr, Dr|].
  now rewrite (find_recipe_ext _ _ _ Lr), (find_recipe_ext _ _ _ Dr).
Qed.

Lemma save_reuses_recipe_row_witness :
  exists db',
    run_request (save toy_wording 20 other_soup_body) soup_store
    = (db', Ok (saved_response true 1))
    /\ recipes db' = recipes soup_store.
Proof.
  destruct (save_reuses_recipe_row toy_wording 20 other_soup_body "devB"
              (recipe_dict (JStr " SOUP ") (JStr "") 90 2 (JArr [JStr "Hard"])
                 (JStr ""))
              "soup||" soup_store
              (Recipe.mk 1 "Soup" "" 20 2 "Easy" "" "soup||" 10)
              eq_refl eq_refl eq_refl)
    as [fresh [db' [H [Hr _]]]].
  exists db'. split; [|exact Hr].
  assert (fresh = true) as <-; [|exact H].
  vm_compute in H. destruct fresh; [reflexivity | discriminate].
Defined.

(** ** [/api/save], [/api/clear] and [/api/history] together *)

Lemma history_run_any (db : database) (k : string) :
  run_request (history (Some k)) db
  = (db,
     match find_device db k with
     | Some d =>
         match rmap (project db) (history_rows db d) with
         | Ok out => Ok (history_response out)
         | Raise e => Raise e
         end
     | None => Ok empty_history_response
     end).
Proof.
  unfold run_request, history, bind, query_device, lift, query, query_result.
  simpl. destruct (find_device db k) as [d|]; simpl; [|reflexivity].
  now destruct (rmap (project db) (history_rows db d)).
Qed.

(** After a clear request for a device, its history is empty. *)
Theorem clear_then_history_empty :
  forall (now : Z) (request_body : option json) (k : string) (db : database),
    Py.get (Py.or_ (get_json_silent request_body) (JObj [])) "device_id"
    = Ok (JStr k) ->
    Str.is_empty k = false ->
    let db1 := fst (run_request (clear_saved now request_body) db) in
    run_request (history (Some k)) db1 = (db1, Ok empty_history_response).
Proof.
  intros now request_body k db Hg Hk db1. unfold db1.
  rewrite (clear_saved_run now request_body k db Hg Hk). simpl.
  rewrite history_run_any. f_equal.
  destruct (cleared_no_links k db) as [Hn _]. unfold links_of in Hn.
  destruct (find_device (cleared k db) k) as [d|]; [|reflexivity].
  unfold history_rows. now rewrite Hn.
Qed.

Lemma clear_then_history_empty_witness :
  let db1 :=
    fst (run_request (clear_saved 40 (clear_body "devA"))
           (serve_all three_saves empty_database)) in
  run_request (history (Some "devA")) db1 = (db1, Ok empty_history_response).
Proof.
  apply (clear_then_history_empty 40 (clear_body "devA") "devA"
           (serve_all three_saves empty_database)); reflexivity.
Defined.

Lemma device_ids_differ (db : database) (k1 k2 : string) (d1 d2 : Device.t) :
  wf db -> k1 <> k2 ->
  find_device db k1 = Some d1 -> find_device db k2 = Some d2 ->
  Device.id d1 <> Device.id d2.
Proof.
  intros W Hk F1 F2.
  pose proof (with_device_other 0 k1 k2 db d2 W Hk F2) as H.
  unfold with_device in H. now rewrite F1 in H.
Qed.

Lemma filter_other_device (d d' : Z) (l : list SavedRecipe.t) :
  d <> d' ->
  filter (fun x => SavedRecipe.device_id_fk x =? d')
    (filter (fun x => negb (SavedRecipe.device_id_fk x =? d)) l)
  = filter (fun x => SavedRecipe.device_id_fk x =? d') l.
Proof.
  intros Hd. induction l as [|x l IH]; simpl; [reflexivity|].
  destruct (SavedRecipe.device_id_fk x =? d) eqn:E; simpl.
  - apply Z.eqb_eq in E.
    assert ((SavedRecipe.device_id_fk x =? d') = false) as ->
      by (apply Z.eqb_neq; congruence).
    exact IH.
  - now rewrite IH.
Qed.

(** A clear request for one device leaves the history of every other
    device as it was. *)
Theorem clear_leaves_other_history :
  forall (rqs : list request) (now : Z) (request_body : option json)
         (k k' : string),
    let db := serve_all rqs empty_database in
    Py.get (Py.or_ (get_json_silent request_body) (JObj [])) "device_id"
    = Ok (JStr k) ->
    Str.is_empty k = false -> k <> k' ->
    snd (run_request (history (Some k'))
           (fst (run_request (clear_saved now request_body) db)))
    = snd (run_request (history (Some k')) db).
Proof.
  intros rqs now request_body k k' db Hg Hk Hne.
  assert (wf db) as W by apply serve_all_wf, wf_empty.
  rewrite (clear_saved_run now request_body k db Hg Hk). simpl.
  rewrite !history_run_any. simpl. unfold cleared.
  destruct (find_device db k) as [d|] eqn:F; [|reflexivity].
  unfold find_device at 1. simpl. fold (find_device db k').
  destruct (find_device db k') as [d'|] eqn:F'; [|reflexivity].
  pose proof (device_ids_differ db k k' d d' W Hne F F') as Hd.
  assert (history_rows
            (without_links (fun l => SavedRecipe.device_id_fk l =? Device.id d)
               db) d'
          = history_rows db d') as ->.
  { unfold history_rows. simpl. now rewrite filter_other_device. }
  reflexivity.
Qed.

Lemma clear_leaves_other_history_witness :
  snd (run_request (history (Some "devB"))
         (fst (run_request (clear_saved 40 (clear_body "devA"))
                (serve_all two_devices empty_database))))
  = snd (run_request (history (Some "devB"))
           (serve_all two_devices empty_database)).
Proof.
  apply (clear_leaves_other_history two_devices 40 (clear_body "devA")
           "devA" "devB"); [reflexivity | reflexivity | discriminate].
Defined.

Lemma newest_stays_first (x : SavedRecipe.t) (l : list SavedRecipe.t) :
  Forall (fun y => SavedRecipe.created_at y < SavedRecipe.created_at x) l ->
  exists t, fold_right insert_desc [x] l = x :: t.
Proof.
  induction 1 as [|y l Hy Hl [t IH]]; simpl; [eauto|].
  rewrite IH. simpl.
  assert (comes_before y x = false) as ->; [|eauto].
  unfold comes_before. apply orb_false_iff. split; [apply Z.ltb_ge; lia|].
  apply andb_false_iff. left. apply Z.eqb_neq. lia.
Qed.

Lemma filter_nothing {A} (p : A -> bool) (l : list A) :
  (forall x, In x l -> p x = false) -> filter p l = [].
Proof.
  induction l as [|x l IH]; simpl; intros H; [reflexivity|].
  rewrite (H x) by now left. apply IH. intros y Hy. apply H. now right.
Qed.

(** The links of the device row a save resolves are the links of its key. *)
Lemma links_of_resolved (now : Z) (k : string) (db : database) :
  wf db ->
  filter (fun l => SavedRecipe.device_id_fk l
                   =? Device.id (fst (with_device now k db)))
    (saved_recipes db)
  = links_of k db.
Proof.
  intros W. unfold links_of, with_device.
  destruct (find_device db k) as [d|]; simpl; [reflexivity|].
  apply filter_nothing. intros l Hl. apply Z.eqb_neq. intros E.
  apply (next_id_fresh (map Device.id (devices db))). rewrite <- E.
  now apply (wf_link_device db W).
Qed.

Lemma get_recipe_member (db : database) (rec : Recipe.t) :
  wf db -> In rec (recipes db) -> get_recipe db (Recipe.id rec) = Some rec.
Proof.
  intros W Hin.
  destruct (find_some_key Recipe.id Z.eqb (Recipe.id rec) (recipes db)
              Z.eqb_eq (in_map _ _ _ Hin)) as [x Hx].
  unfold get_recipe. rewrite Hx. f_equal.
  apply (find_key_eq Recipe.id Z.eqb _ _ _ Z.eqb_eq) in Hx as [Hx Hi].
  eapply NoDup_map_inj; eauto. apply (wf_recipe_ids db W).
Qed.

(** Save, then history: when a device saves a recipe it had not saved, at
    a clock reading later than those of its other links, the next history
    of that device starts with that recipe. *)
Theorem save_then_history_first :
  forall (rqs : list request) (str_exn : wording) (now : Z)
         (request_body : option json) (k : string) (r : json) (sig : string),
    let db := serve_all rqs empty_database in
    decode_save request_body = Ok (JStr k, r, sig) ->
    Str.is_empty k = false -> storable r -> linked db k sig = false ->
    Forall (fun y => SavedRecipe.created_at y < now) (links_of k db) ->
    exists rec db1 rest,
      run_request (save str_exn now request_body) db
      = (db1, Ok (saved_response true (Recipe.id rec)))
      /\ Recipe.signature rec = sig
      /\ run_request (history (Some k)) db1
         = (db1, Ok (history_response (public rec :: rest))).
Proof.
  intros rqs str_exn now request_body k r sig db D Hk St L Hnew.
  assert (wf db) as W by apply serve_all_wf, wf_empty.
  destruct (save_unlinked str_exn now request_body k r sig db W D Hk St L)
    as [rec [db2 [l [H [R1 [S1 [Ld [Lr [W1 Rows]]]]]]]]].
  set (d := fst (with_device now k db)) in *.
  set (db1 := fst (save_pure str_exn now k r sig db)) in *.
  destruct (save_pure_found str_exn _ _ _ _ _ _ _ H) as [Fd [Fr _]].
  fold d db1 in Fd, Fr.
  (* the link that was made carries the clock reading of the request *)
  assert (SavedRecipe.created_at l = now) as Hl.
  { pose proof (unlinked_fresh _ _ _ _ _ _ _ W L H) as Fl. fold d in Fl.
    pose proof (save_pure_ok str_exn _ _ _ _ _ _ _ H) as SP. fold d in SP.
    unfold with_link in SP. rewrite Fl in SP. simpl in SP.
    assert (saved_recipes db1
            = (saved_recipes db2
               ++ [SavedRecipe.mk
                     (next_id (map SavedRecipe.id (saved_recipes db2)))
                     (Device.id d) (Recipe.id rec) now])%list) as E
      by (unfold db1; now rewrite SP).
    destruct (with_recipe_found _ _ _ _ _ _ H) as [_ [_ E2]].
    destruct (with_device_frame now k db) as [_ E3].
    rewrite S1, E2, E3 in E. apply app_inj_tail in E as [_ ->]. reflexivity. }
  assert (exists t, history_rows db1 d = l :: t) as [t Ht].
  { unfold history_rows. rewrite S1, filter_app.
    assert (filter (fun x => SavedRecipe.device_id_fk x =? Device.id d) [l]
            = [l]) as ->
      by (simpl; now rewrite Ld, Z.eqb_refl).
    pose proof (links_of_resolved now k db W) as LR. fold d in LR.
    rewrite LR.
    unfold order_by_created_desc. rewrite fold_right_app. simpl.
    destruct (newest_stays_first l (links_of k db)) as [t' ->].
    { now rewrite Hl. }
    simpl. eauto. }
  destruct (project_rows db1 (history_rows db1 d) W1) as [recs [Hr Hf]].
  { intros x Hx. unfold history_rows in Hx.
    assert (In x (order_by_created_desc
                    (filter (fun l => SavedRecipe.device_id_fk l =? Device.id d)
                       (saved_recipes db1)))) as Hx'.
    { rewrite <- (firstn_skipn 50 _). apply in_or_app. now left. }
    apply (Permutation_in _ (order_by_created_desc_perm _)) in Hx'.
    now apply filter_In in Hx' as [Hx' _]. }
  rewrite Ht in Hr, Hf. inversion Hf as [|? rec' ? recs' G Hf']; subst.
  assert (rec' = rec) as ->.
  { rewrite Lr in G.
    unfold find_recipe in Fr. apply find_some in Fr as [Hin _].
    rewrite (get_recipe_member db1 rec W1 Hin) in G. congruence. }
  exists rec, db1, (map public recs').
  split; [exact R1|]. split.
  - now apply (find_key_eq Recipe.signature String.eqb _ _ _ String.eqb_eq)
      in Fr as [_ Fr].
  - rewrite history_run_any, Fd, Ht, Hr. reflexivity.
Qed.

Lemma save_then_history_first_witness :
  exists rec db1 rest,
    run_request (save toy_wording 50 (save_body "devA" "Curry"))
      (serve_all three_saves empty_database)
    = (db1, Ok (saved_response true (Recipe.id rec)))
    /\ Recipe.signature rec = "curry||"
    /\ run_request (history (Some "devA")) db1
       = (db1, Ok (history_response (public rec :: rest))).
Proof.
  apply (save_then_history_first three_saves toy_wording 50
           (save_body "devA" "Curry")
           "devA"
           (recipe_dict (JStr "Curry") (JStr "") 20 2 (JStr "Easy") (JStr ""))
           "curry||").
  - reflexivity.
  - reflexivity.
  - eexists. reflexivity.
  - reflexivity.
  - vm_compute. repeat constructor.
Defined.

(** ** Accounts *)

Lemma bind_lift {A B} (r : result A) (k : A -> M B) (s : session) :
  bind (lift r) k s
  = match r with
    | Ok a => k a s
    | Raise e => (Raise e, s)
    end.
Proof. unfold bind, lift. now destruct r. Qed.

(** The handler on a parsed body is [signup_pure]. *)
Lemma auth_signup_run (generate_password_hash : hasher) (now : Z)
    (data : json) (db : database) :
  run_request (auth_signup generate_password_hash now (Some data)) db
  = signup_pure generate_password_hash now data db.
Proof.
  unfold run_request, auth_signup, signup_pure, signup_fields.
  change (get_json_force (Some data)) with (@Ok json data). cbv iota.
  rewrite bind_lift. destruct (Py.get data "name") as [n|e]; [|reflexivity].
  rewrite bind_lift. simpl rbind.
  destruct (strip_text (Py.or_ n (JStr ""))) as [name|e]; [|reflexivity].
  rewrite bind_lift. simpl rbind.
  destruct (Py.get data "email") as [em|e]; [|reflexivity].
  rewrite bind_lift. simpl rbind.
  destruct (Py.strip_lower (Py.or_ em (JStr ""))) as [email|e]; [|reflexivity].
  rewrite bind_lift. simpl rbind.
  destruct (Py.get data "password") as [p|e]; [|reflexivity].
  simpl rbind. cbv iota beta.
  destruct (Str.is_empty email || negb (Py.truthy (Py.or_ p (JStr ""))));
    [reflexivity|].
  unfold bind at 1, query at 1. change (work (open_session db)) with db.
  destruct (find_user db email) as [u|] eqn:F; [reflexivity|].
  rewrite bind_lift.
  destruct (generate_password_hash (Py.or_ p (JStr ""))) as [hash|e];
    [|reflexivity].
  unfold bind, add, commit. simpl. rewrite F. simpl.
  unfold refresh, bind, query, get_user, new_user, add_user. simpl.
  rewrite (get_new_row User.id); reflexivity.
Qed.

(** A signup whose body does not parse is answered 400 "invalid_json";
    one whose email is missing or blank, or whose password is missing or
    empty, is answered 400 "missing_fields".  Neither changes the store or
    the session, and the password is not hashed. *)
Theorem signup_rejections :
  forall (generate_password_hash : hasher) (now : Z) (db : database),
    run_request (auth_signup generate_password_hash now None) db
    = (db, Ok (signup_error "invalid_json" 400))
    /\ forall (data : json) (name email : string) (password : json),
         signup_fields data = Ok (name, email, password) ->
         Str.is_empty email = true \/ Py.truthy password = false ->
         run_request (auth_signup generate_password_hash now (Some data)) db
         = (db, Ok (signup_error "missing_fields" 400)).
Proof.
  intros gen now db. split; [reflexivity|].
  intros data name email password Hf Hm.
  rewrite auth_signup_run. unfold signup_pure. rewrite Hf.
  destruct Hm as [-> | ->]; [reflexivity|].
  now rewrite orb_true_r.
Qed.

Lemma signup_rejections_witness :
  run_request (auth_signup toy_hasher 9 (signup_body "Bob" "   " "pw"))
    ann_store
  = (ann_store, Ok (signup_error "missing_fields" 400)).
Proof.
  destruct (signup_rejections toy_hasher 9 ann_store) as [_ H].
  apply (H (JObj [("name", JStr "Bob"); ("email", JStr "   ");
                  ("password", JStr "pw")]) "Bob" "" (JStr "pw"));
    [reflexivity | now left].
Defined.

Lemma find_user_added (u : User.t) (db : database) :
  find_user db (User.email u) = None ->
  find_user (add_user u db) (User.email u) = Some u.
Proof.
  intros F. unfold find_user in *. simpl. apply find_snoc; auto.
  apply String.eqb_refl.
Qed.

(** Signup, then signup again with an email that has the same normal form
    (other case, other surrounding blanks): the second is answered 409
    "email_exists" and changes nothing; the account keeps the hash of the
    first password. *)
Theorem signup_twice_conflicts :
  forall (generate_password_hash : hasher) (now1 now2 : Z) (data1 data2 : json)
         (name1 name2 email hash : string) (password1 password2 : json)
         (db : database),
    signup_fields data1 = Ok (name1, email, password1) ->
    signup_fields data2 = Ok (name2, email, password2) ->
    Str.is_empty email = false ->
    Py.truthy password1 = true -> Py.truthy password2 = true ->
    find_user db email = None ->
    generate_password_hash password1 = Ok hash ->
    let u := new_user now1 name1 email hash db in
    run_request (auth_signup generate_password_hash now1 (Some data1)) db
    = (add_user u db, Ok (account_response u, Some (User.id u)))
    /\ run_request (auth_signup generate_password_hash now2 (Some data2))
         (add_user u db)
       = (add_user u db, Ok (signup_error "email_exists" 409))
    /\ find_user (add_user u db) email = Some u.
Proof.
  intros gen now1 now2 data1 data2 name1 name2 email hash password1 password2
    db F1 F2 He T1 T2 Fn Hg u.
  assert (find_user (add_user u db) email = Some u) as Fu
    by (apply (find_user_added u db); exact Fn).
  rewrite !auth_signup_run. unfold signup_pure.
  rewrite F1, F2, He, T1, T2, Fn, Hg, Fu. simpl. auto.
Qed.

Lemma signup_twice_conflicts_witness :
  run_request
    (auth_signup toy_hasher 6 (signup_body "Eve" "ANN@example.com  " "other"))
    ann_store
  = (ann_store, Ok (signup_error "email_exists" 409))
  /\ find_user ann_store "ann@example.com"
     = Some (User.mk 1 "Ann" "ann@example.com" "hash:secret" 5).
Proof.
  destruct (signup_twice_conflicts toy_hasher 5 6
              (JObj [("name", JStr "  Ann "); ("email", JStr " Ann@Example.COM ");
                     ("password", JStr "secret")])
              (JObj [("name", JStr "Eve"); ("email", JStr "ANN@example.com  ");
                     ("password", JStr "other")])
              "Ann" "Eve" "ann@example.com" "hash:secret" (JStr "secret")
              (JStr "other") empty_database
              eq_refl eq_refl eq_refl eq_refl eq_refl eq_refl eq_refl)
    as [_ [H2 H3]].
  split; [exact H2 | exact H3].
Defined.

(** Signup, then login: a login whose email has the normal form of the
    email signed up with, and whose password the library accepts against
    the stored hash, is answered 200 with the same user and puts the same
    user id in the session as the signup did. *)
Theorem signup_then_login :
  forall (generate_password_hash : hasher) (check_password_hash : checker)
         (now : Z) (data : json) (login : option json)
         (name email hash : string) (password password' : json)
         (db : database),
    signup_fields data = Ok (name, email, password) ->
    Str.is_empty email = false -> Py.truthy password = true ->
    find_user db email = None ->
    generate_password_hash password = Ok hash ->
    login_fields login = Ok (email, password') ->
    check_password_hash hash password' = Ok true ->
    exists u db1,
      run_request (auth_signup generate_password_hash now (Some data)) db
      = (db1, Ok (account_response u, Some (User.id u)))
      /\ run_request (auth_login check_password_hash login) db1
         = (db1, Ok (account_response u, Some (User.id u)))
      /\ User.email u = email /\ User.password_hash u = hash.
Proof.
  intros gen check now data login name email hash password password' db
    Hf He Ht Fn Hg Hl Hc.
  exists (new_user now name email hash db),
    (add_user (new_user now name email hash db) db).
  rewrite auth_signup_run. unfold signup_pure. rewrite Hf, He, Ht, Fn, Hg.
  split; [reflexivity|].
  rewrite (auth_login_run check login email password' _ Hl).
  pose proof (find_user_added (new_user now name email hash db) db Fn) as Fu.
  change (User.email (new_user now name email hash db)) with email in Fu.
  rewrite Fu. simpl. rewrite Hc. auto.
Qed.

Lemma signup_then_login_witness :
  exists u db1,
    run_request
      (auth_signup toy_hasher 5
         (signup_body "  Ann " " Ann@Example.COM " "secret"))
      empty_database
    = (db1, Ok (account_response u, Some (User.id u)))
    /\ run_request
         (auth_login toy_checker (login_body "ann@EXAMPLE.com" "secret")) db1
       = (db1, Ok (account_response u, Some (User.id u))).
Proof.
  destruct (signup_then_login toy_hasher toy_checker 5
              (JObj [("name", JStr "  Ann "); ("email", JStr " Ann@Example.COM ");
                     ("password", JStr "secret")])
              (login_body "ann@EXAMPLE.com" "secret")
              "Ann" "ann@example.com" "hash:secret" (JStr "secret")
              (JStr "secret") empty_database
              eq_refl eq_refl eq_refl eq_refl eq_refl eq_refl eq_refl)
    as [u [db1 [H1 [H2 _]]]].
  exists u, db1. split; [exact H1 | exact H2].
Defined.

Lemma next_id_positive (ids : list Z) : 0 < next_id ids.
Proof.
  unfold next_id. assert (0 <= fold_right Z.max 0 ids); [|lia].
  induction ids as [|i ids IH]; simpl; lia.
Qed.

Lemma signup_fields_email (data : json) (name email : string) (password : json) :
  signup_fields data = Ok (name, email, password) -> norm email = email.
Proof.
  unfold signup_fields. intros H.
  bind_ok H. bind_ok H. bind_ok H. bind_ok H. bind_ok H.
  injection H as _ <- _.
  match goal with
  | S : Py.strip_lower ?v = Ok _ |- _ =>
      destruct v; try discriminate S; injection S as <-
  end.
  apply norm_fixed.
Qed.

Lemma accounts_ok_add (u : User.t) (db : database) :
  accounts_ok db ->
  User.id u = next_id (map User.id (users db)) ->
  find_user db (User.email u) = None ->
  Str.is_empty (User.email u) = false ->
  norm (User.email u) = User.email u ->
  (String.length (User.name u) <= 120)%nat ->
  accounts_ok (add_user u db).
Proof.
  intros [Hi [He Hf]] Ei Fn Hne Hn Hl. unfold accounts_ok, add_user. simpl.
  rewrite !map_app. simpl. split; [|split].
  - apply NoDup_snoc; [assumption|]. rewrite Ei. apply next_id_fresh.
  - apply NoDup_snoc; [assumption|].
    apply (find_none_key User.email String.eqb _ _ String.eqb_eq Fn).
  - apply Forall_app. split; [assumption|]. constructor; [|constructor].
    rewrite Ei. auto using next_id_positive.
Qed.

Lemma signup_keeps_accounts (generate_password_hash : hasher) (now : Z)
    (request_body : option json) (db : database) :
  accounts_ok db ->
  accounts_ok
    (fst (run_request (auth_signup generate_password_hash now request_body) db)).
Proof.
  intros A. destruct request_body as [data|]; [|exact A].
  rewrite auth_signup_run. unfold signup_pure.
  destruct (signup_fields data) as [[[name email] password]|] eqn:F; [|exact A].
  destruct (Str.is_empty email) eqn:He; [exact A|].
  destruct (negb (Py.truthy password)); [exact A|]. cbn [orb].
  destruct (find_user db email) eqn:Fu; [exact A|].
  destruct (generate_password_hash password) as [hash|]; [|exact A].
  cbn [fst]. apply accounts_ok_add; auto.
  - apply (signup_fields_email data name email password F).
  - unfold new_user. cbn [User.name]. rewrite take_length. apply Nat.le_min_l.
Qed.

Lemma accounts_ok_empty : accounts_ok empty_database.
Proof.
  repeat split; constructor.
Qed.

Lemma signups_accounts (generate_password_hash : hasher)
    (rqs : list (Z * option json)) (db : database) :
  accounts_ok db -> accounts_ok (signups generate_password_hash rqs db).
Proof.
  revert db. induction rqs as [|[now b] rqs IH]; intros db A; [exact A|].
  cbn [signups]. apply IH. now apply signup_keeps_accounts.
Qed.

(** Whatever signups were served, whatever the hash function does: the
    users table has distinct positive keys and distinct emails, every
    stored email is non-empty and is its own normal form (stripped, lower
    case), and no stored name is longer than the column's 120
    characters. *)
Theorem signups_keep_accounts :
  forall (generate_password_hash : hasher) (rqs : list (Z * option json)),
    accounts_ok (signups generate_password_hash rqs empty_database).
Proof.
  intros gen rqs. apply signups_accounts, accounts_ok_empty.
Qed.

Lemma get_user_member (db : database) (u : User.t) :
  NoDup (map User.id (users db)) -> In u (users db) ->
  get_user db (User.id u) = Some u.
Proof.
  intros N Hin.
  destruct (find_some_key User.id Z.eqb (User.id u) (users db)
              Z.eqb_eq (in_map _ _ _ Hin)) as [x Hx].
  unfold get_user. rewrite Hx. f_equal.
  apply (find_key_eq User.id Z.eqb _ _ _ Z.eqb_eq) in Hx as [Hx Hi].
  eapply NoDup_map_inj; eauto.
Qed.

(** Login, me, logout, me, on a store that signups made: after a login
    that succeeds, [/auth/me] with the session the login left answers
    with the same user; after logout the session holds no user and
    [/auth/me] answers ok: false. *)
Theorem login_me_logout_me :
  forall (generate_password_hash : hasher) (rqs : list (Z * option json))
         (check_password_hash : checker) (login : option json)
         (email : string) (password : json) (u : User.t) (uid : cookie),
    let db := signups generate_password_hash rqs empty_database in
    login_fields login = Ok (email, password) ->
    find_user db email = Some u ->
    check_password_hash (User.password_hash u) password = Ok true ->
    exists set,
      run_request (auth_login check_password_hash login) db
      = (db, Ok (account_response u, set))
      /\ run_request (auth_me (set_cookie uid set)) db
         = (db, Ok (account_response u))
      /\ run_request (auth_me (snd (auth_logout (set_cookie uid set)))) db
         = (db, Ok anonymous_response).
Proof.
  intros gen rqs check login email password u uid db Hl Fu Hc.
  exists (Some (User.id u)).
  rewrite (auth_login_run check login email password db Hl), Fu, Hc.
  split; [reflexivity|]. split; [|reflexivity].
  destruct (signups_accounts gen rqs empty_database accounts_ok_empty)
    as [Hi [_ Hf]].
  fold db in Hi, Hf.
  apply (find_key_eq User.email String.eqb _ _ _ String.eqb_eq) in Fu
    as [Hin _].
  pose proof (get_user_member db u Hi Hin) as G.
  rewrite Forall_forall in Hf. destruct (Hf u Hin) as [Hp _].
  unfold auth_me, current_user, set_cookie.
  destruct (User.id u =? 0) eqn:Z0; [apply Z.eqb_eq in Z0; lia|].
  unfold run_request, bind, query, ret. simpl.
  change (work (open_session db)) with db. rewrite G. reflexivity.
Qed.

Lemma login_me_logout_me_witness :
  exists set,
    run_request
      (auth_login toy_checker (login_body "ann@EXAMPLE.com" "secret")) ann_store
    = (ann_store,
       Ok (account_response
             (User.mk 1 "Ann" "ann@example.com" "hash:secret" 5), set))
    /\ run_request (auth_me (set_cookie None set)) ann_store
       = (ann_store,
          Ok (account_response
                (User.mk 1 "Ann" "ann@example.com" "hash:secret" 5)))
    /\ run_request (auth_me (snd (auth_logout (set_cookie None set)))) ann_store
       = (ann_store, Ok anonymous_response).
Proof.
  apply (login_me_logout_me toy_hasher
           [(5, signup_body "  Ann " " Ann@Example.COM " "secret")]
           toy_checker (login_body "ann@EXAMPLE.com" "secret")
           "ann@example.com" (JStr "secret")
           (User.mk 1 "Ann" "ann@example.com" "hash:secret" 5) None);
    reflexivity.
Defined.

(** A session whose user id is not (or no longer) in the users table is
    anonymous: [/auth/me] answers ok: false, as it does without a
    session and with user id 0. *)
Theorem stale_session_is_anonymous :
  forall (db : database) (uid : cookie),
    (forall id, uid = Some id -> id <> 0 -> get_user db id = None) ->
    run_request (auth_me uid) db = (db, Ok anonymous_response).
Proof.
  intros db [id|] H; [|reflexivity].
  unfold auth_me, current_user. destruct (id =? 0) eqn:Z0; [reflexivity|].
  apply Z.eqb_neq in Z0.
  unfold run_request, bind, query, ret. simpl.
  change (work (open_session db)) with db. rewrite (H id eq_refl Z0).
  reflexivity.
Qed.

Lemma stale_session_is_anonymous_witness :
  run_request (auth_me (Some 7)) ann_store = (ann_store, Ok anonymous_response).
Proof.
  apply (stale_session_is_anonymous ann_store (Some 7)).
  intros id E _. injection E as <-. reflexivity.
Defined.
